(** * Portfolio-Optimizer: a shallow embedding of the portfolio analysis engine

    The Python modules [financials/portfolio.py] and
    [financials/portfolio_widgets.py] are embedded below.

    Modelling conventions.
    - A Python [float] is a [pyfloat]: a finite value carried as an exact
      rational, or one of [inf], [-inf], [nan].  Finite arithmetic is exact
      (no binary rounding error, no overflow of finite sums, no signed
      zero); [inf]/[nan] propagate as in IEEE 754 and Python.  The
      tax-loss loop is embedded a second time over the primitive binary64
      floats of the Standard Library, which are Python's floats.
    - Exceptions are the [Err] branch of the result monad [res].
    - Python strings are [string]s of 8-bit characters (code points below
      256).  Python dicts are association lists in insertion order.
    - Network access (yfinance) and thread-pool timing are the arguments of
      the Sections that use them. *)

From Stdlib Require Import ZArith QArith Qround Qabs List String Ascii Bool Lia.
From Stdlib Require Import Permutation Sorted Lqa.
From Stdlib Require PrimFloat SpecFloat FloatOps FloatAxioms.
Import ListNotations.

#[local] Set Warnings "-register-all".

(* ------------------------------------------------------------------ *)
(** ** Exceptions and the result monad *)

Inductive exn :=
  | TypeError | ValueError | ZeroDivisionError | OverflowError
  | IndexError | AttributeError | TimeoutError
  | EmptyDataError   (** pandas.errors.EmptyDataError *)
  | ParserError.     (** pandas.errors.ParserError *)

Inductive res (A : Type) : Type :=
  | Ok (a : A)
  | Err (e : exn).
Arguments Ok {A} a.
Arguments Err {A} e.

Definition bind {A B : Type} (m : res A) (f : A -> res B) : res B :=
  match m with Ok a => f a | Err e => Err e end.

Notation "'let*' x ':=' m 'in' k" := (bind m (fun x => k))
  (at level 200, x name, m at level 100, k at level 200).

(** [res]-valued map, left to right, first exception wins. *)
Fixpoint mapM {A B : Type} (f : A -> res B) (l : list A) : res (list B) :=
  match l with
  | [] => Ok []
  | x :: r => let* y := f x in let* ys := mapM f r in Ok (y :: ys)
  end.

(* ------------------------------------------------------------------ *)
(** ** Python floats *)

Inductive pyfloat :=
  | Fin (q : Q)
  | PosInf
  | NegInf
  | NaN.

(** Finite values are kept in reduced form so that equal floats are equal
    terms. *)
Definition fin (q : Q) : pyfloat := Fin (Qred q).
Definition fint (z : Z) : pyfloat := fin (inject_Z z).
Definition fzero : pyfloat := fint 0.

Definition is_nan (f : pyfloat) : bool :=
  match f with NaN => true | _ => false end.
Definition is_inf (f : pyfloat) : bool :=
  match f with PosInf | NegInf => true | _ => false end.

(** Python truthiness of a float: everything but zero is true. *)
Definition truthy (f : pyfloat) : bool :=
  match f with Fin q => negb (Qeq_bool q 0) | _ => true end.

(** [x or 0] for a dict value that is a float or [None]. *)
Definition or0 (o : option pyfloat) : pyfloat :=
  match o with Some f => if truthy f then f else fzero | None => fzero end.

Definition fneg (f : pyfloat) : pyfloat :=
  match f with
  | Fin q => fin (- q) | PosInf => NegInf | NegInf => PosInf | NaN => NaN
  end.

Definition fadd (a b : pyfloat) : pyfloat :=
  match a, b with
  | NaN, _ | _, NaN => NaN
  | PosInf, NegInf | NegInf, PosInf => NaN
  | PosInf, _ | _, PosInf => PosInf
  | NegInf, _ | _, NegInf => NegInf
  | Fin x, Fin y => fin (x + y)
  end.

Definition fsub (a b : pyfloat) : pyfloat := fadd a (fneg b).

Definition fsign (f : pyfloat) : comparison :=
  match f with Fin q => Qcompare q 0 | PosInf => Gt | NegInf => Lt | NaN => Eq end.

Definition inf_of_sign (c : comparison) : pyfloat :=
  match c with Gt => PosInf | Lt => NegInf | Eq => NaN end.

Definition sign_mul (a b : comparison) : comparison :=
  match a, b with
  | Eq, _ | _, Eq => Eq
  | Gt, Gt | Lt, Lt => Gt
  | _, _ => Lt
  end.

Definition fmul (a b : pyfloat) : pyfloat :=
  match a, b with
  | NaN, _ | _, NaN => NaN
  | Fin x, Fin y => fin (x * y)
  | _, _ => inf_of_sign (sign_mul (fsign a) (fsign b))
  end.

(** Float division; division by zero raises [ZeroDivisionError]. *)
Definition fdiv (a b : pyfloat) : res pyfloat :=
  match b with
  | Fin y =>
      if Qeq_bool y 0 then Err ZeroDivisionError else
      match a with
      | Fin x => Ok (fin (x / y))
      | NaN => Ok NaN
      | _ => Ok (inf_of_sign (sign_mul (fsign a) (fsign b)))
      end
  | NaN => Ok NaN
  | _ => match a with Fin _ => Ok fzero | _ => Ok NaN end
  end.

Definition Qltb (x y : Q) : bool :=
  match Qcompare x y with Lt => true | _ => false end.

(** [a < b]; every comparison with [nan] is false. *)
Definition flt (a b : pyfloat) : bool :=
  match a, b with
  | Fin x, Fin y => Qltb x y
  | NegInf, Fin _ | NegInf, PosInf | Fin _, PosInf => true
  | _, _ => false
  end.

Definition fle (a b : pyfloat) : bool :=
  match a, b with
  | NaN, _ | _, NaN => false
  | _, _ => negb (flt b a)
  end.

Definition fabs (f : pyfloat) : pyfloat :=
  match f with Fin q => fin (Qabs q) | NegInf => PosInf | _ => f end.

(** Python [min(a, b)] and [max(a, b)]: the first argument is kept unless the
    second compares strictly smaller (resp. greater). *)
Definition fmin (a b : pyfloat) : pyfloat := if flt b a then b else a.
Definition fmax (a b : pyfloat) : pyfloat := if flt a b then b else a.

(** Python [sum(xs)]: [0 + x1 + x2 + ...]. *)
Definition fsum (l : list pyfloat) : pyfloat := fold_left fadd l fzero.

(** Rounding: Python's [round] rounds half to even.  Finite values are exact
    rationals here, so [round(x, n)] rounds the exact value. *)
Definition round_half_even (q : Q) : Z :=
  let f := Qfloor q in
  match Qcompare (q - inject_Z f) (1 # 2) with
  | Lt => f
  | Gt => (f + 1)%Z
  | Eq => if Z.even f then f else (f + 1)%Z
  end.

Definition pow10 (n : nat) : positive := Z.to_pos (10 ^ Z.of_nat n).

Definition round_nd (n : nat) (q : Q) : Q :=
  Qred (round_half_even (q * inject_Z (Zpos (pow10 n))) # pow10 n).

(** [round(x, n)] on a float. *)
Definition fround (n : nat) (f : pyfloat) : pyfloat :=
  match f with Fin q => Fin (round_nd n q) | _ => f end.

(** [round(x)] on a float: an int; raises on [nan] and on infinities. *)
Definition fround_int (f : pyfloat) : res Z :=
  match f with
  | Fin q => Ok (round_half_even q)
  | NaN => Err ValueError
  | _ => Err OverflowError
  end.

(* ------------------------------------------------------------------ *)
(** ** JSON-like trees and [_sanitize_for_json] (portfolio.py) *)

Inductive json :=
  | JNone
  | JBool (b : bool)
  | JInt (z : Z)
  | JFloat (f : pyfloat)
  | JStr (s : string)
  | JList (l : list json)
  | JDict (kvs : list (string * json)).

(** [_sanitize_for_json]. *)
Fixpoint sanitize_for_json (obj : json) : json :=
  match obj with
  | JFloat f => if is_nan f || is_inf f then JNone else JFloat f
  | JDict kvs => JDict (map (fun kv => let '(k, v) := kv in (k, sanitize_for_json v)) kvs)
  | JList l => JList (map sanitize_for_json l)
  | _ => obj
  end.

(** The property from the spec: [t'] is [t] with every non-finite float
    replaced by null and everything else unchanged. *)
Inductive sanitized_from : json -> json -> Prop :=
  | SNonFinite f : is_nan f || is_inf f = true -> sanitized_from (JFloat f) JNone
  | SFinite q : sanitized_from (JFloat (Fin q)) (JFloat (Fin q))
  | SNone : sanitized_from JNone JNone
  | SBool b : sanitized_from (JBool b) (JBool b)
  | SInt z : sanitized_from (JInt z) (JInt z)
  | SStr s : sanitized_from (JStr s) (JStr s)
  | SList l l' : Forall2 sanitized_from l l' -> sanitized_from (JList l) (JList l')
  | SDict kvs kvs' :
      Forall2 (fun a b => fst a = fst b /\ sanitized_from (snd a) (snd b)) kvs kvs' ->
      sanitized_from (JDict kvs) (JDict kvs').

Fixpoint all_finite (j : json) : bool :=
  match j with
  | JFloat f => negb (is_nan f || is_inf f)
  | JList l => forallb all_finite l
  | JDict kvs => forallb (fun kv => let '(_, v) := kv in all_finite v) kvs
  | _ => true
  end.

Section JsonInd.
Variable P : json -> Prop.
Hypothesis HNone : P JNone.
Hypothesis HBool : forall b, P (JBool b).
Hypothesis HInt : forall z, P (JInt z).
Hypothesis HFloat : forall f, P (JFloat f).
Hypothesis HStr : forall s, P (JStr s).
Hypothesis HList : forall l, Forall P l -> P (JList l).
Hypothesis HDict : forall kvs, Forall (fun kv => P (snd kv)) kvs -> P (JDict kvs).

Fixpoint json_nested_ind (j : json) : P j :=
  match j with
  | JNone => HNone
  | JBool b => HBool b
  | JInt z => HInt z
  | JFloat f => HFloat f
  | JStr s => HStr s
  | JList l =>
      HList l ((fix go (l : list json) : Forall P l :=
                  match l with
                  | [] => Forall_nil _
                  | x :: r => Forall_cons _ (json_nested_ind x) (go r)
                  end) l)
  | JDict kvs =>
      HDict kvs ((fix go (l : list (string * json)) : Forall (fun kv => P (snd kv)) l :=
                    match l with
                    | [] => Forall_nil _
                    | (k, v) :: r => Forall_cons (A := string * json) (k, v) (json_nested_ind v) (go r)
                    end) kvs)
  end.
End JsonInd.

(* ------------------------------------------------------------------ *)
(** ** Python string operations on 8-bit strings *)

Local Open Scope char_scope.

Definition code (c : ascii) : nat := nat_of_ascii c.

(** [str.isspace] for code points below 256. *)
Definition is_space (c : ascii) : bool :=
  let n := code c in
  ((9 <=? n) && (n <=? 13))%nat || ((28 <=? n) && (n <=? 32))%nat
  || (n =? 133)%nat || (n =? 160)%nat.

(** Line boundaries of [str.splitlines] ([\r\n] is handled separately). *)
Definition is_linebreak (c : ascii) : bool :=
  let n := code c in
  (n =? 10)%nat || (n =? 11)%nat || (n =? 12)%nat || (n =? 13)%nat
  || (n =? 28)%nat || (n =? 29)%nat || (n =? 30)%nat || (n =? 133)%nat.

Definition is_digit (c : ascii) : bool := ((48 <=? code c) && (code c <=? 57))%nat.

Fixpoint drop_while (p : ascii -> bool) (l : list ascii) : list ascii :=
  match l with
  | c :: r => if p c then drop_while p r else l
  | [] => []
  end.

Definition lstrip (s : string) : string :=
  string_of_list_ascii (drop_while is_space (list_ascii_of_string s)).
Definition rstrip (s : string) : string :=
  string_of_list_ascii (rev (drop_while is_space (rev (list_ascii_of_string s)))).
(** [str.strip()]. *)
Definition strip (s : string) : string := rstrip (lstrip s).

(** [str.rstrip(c)] for a one-character argument. *)
Definition rstrip_char (c : ascii) (s : string) : string :=
  string_of_list_ascii
    (rev (drop_while (fun d => Ascii.eqb d c) (rev (list_ascii_of_string s)))).

(** [str.lower()]: ASCII and Latin-1 capitals. *)
Definition lower_char (c : ascii) : ascii :=
  let n := code c in
  if ((65 <=? n) && (n <=? 90))%nat
     || ((192 <=? n) && (n <=? 222) && negb (n =? 215))%nat
  then ascii_of_nat (n + 32) else c.
Definition lower (s : string) : string :=
  string_of_list_ascii (map lower_char (list_ascii_of_string s)).

(** [str.upper()]: ASCII and Latin-1 small letters, and the German sharp s
    (which becomes "SS").  The two Latin-1 letters whose capital lies above
    U+00FF (y with diaeresis, micro sign) are kept as they are. *)
Definition upper_chars (c : ascii) : list ascii :=
  let n := code c in
  if ((97 <=? n) && (n <=? 122))%nat
     || ((224 <=? n) && (n <=? 254) && negb (n =? 247))%nat
  then [ascii_of_nat (n - 32)]
  else if (n =? 223)%nat then ["S"; "S"] else [c].
Definition upper (s : string) : string :=
  string_of_list_ascii (flat_map upper_chars (list_ascii_of_string s)).

(** [s.replace(c, r)] for a one-character pattern. *)
Definition replace_char (c : ascii) (r : string) (s : string) : string :=
  string_of_list_ascii
    (flat_map (fun d => if Ascii.eqb d c then list_ascii_of_string r else [d])
       (list_ascii_of_string s)).

Definition contains (sub s : string) : bool :=
  match index 0 sub s with Some _ => true | None => false end.

Definition startswith (s pre : string) : bool := prefix pre s.

Definition endswith (s suf : string) : bool :=
  prefix (string_of_list_ascii (rev (list_ascii_of_string suf)))
         (string_of_list_ascii (rev (list_ascii_of_string s))).

Definition in_list (s : string) (l : list string) : bool :=
  existsb (String.eqb s) l.

(** [str.splitlines()]. *)
Fixpoint splitlines_aux (cs cur : list ascii) : list (list ascii) :=
  match cs with
  | [] => match cur with [] => [] | _ => [rev cur] end
  | c :: r =>
      if (code c =? 13)%nat then
        match r with
        | c2 :: r2 =>
            if (code c2 =? 10)%nat then rev cur :: splitlines_aux r2 []
            else rev cur :: splitlines_aux r []
        | [] => [rev cur]
        end
      else if is_linebreak c then rev cur :: splitlines_aux r []
      else splitlines_aux r (c :: cur)
  end.
Definition splitlines (s : string) : list string :=
  map string_of_list_ascii (splitlines_aux (list_ascii_of_string s) []).

Definition nl : string := String (ascii_of_nat 10) EmptyString.

Local Close Scope char_scope.

(* ------------------------------------------------------------------ *)
(** ** Python [float(str)] *)

Local Open Scope char_scope.

(** A digit part: digits with single underscores between them. *)
Fixpoint take_digits (cs : list ascii) (acc : list nat) : list nat * list ascii :=
  match cs with
  | c :: r =>
      if is_digit c then take_digits r ((code c - 48)%nat :: acc)
      else if Ascii.eqb c "_" then
        match acc, r with
        | _ :: _, c2 :: r2 =>
            if is_digit c2 then take_digits r2 ((code c2 - 48)%nat :: acc) else (rev acc, cs)
        | _, _ => (rev acc, cs)
        end
      else (rev acc, cs)
  | [] => (rev acc, [])
  end.

Definition digits_value (ds : list nat) : Z :=
  fold_left (fun acc d => (10 * acc + Z.of_nat d)%Z) ds 0%Z.

Definition sign_of (cs : list ascii) : bool * list ascii :=
  match cs with
  | "-" :: r => (true, r)
  | "+" :: r => (false, r)
  | _ => (false, cs)
  end.

(** The largest finite double rounds up to infinity from [2^1024 - 2^970]. *)
Definition overflow_bound : Q := inject_Z (2 ^ 1024 - 2 ^ 970)%Z.

(** Number of decimal digits of a positive integer. *)
Fixpoint ndigits_aux (fuel : nat) (m : Z) : Z :=
  match fuel with
  | O => 1%Z
  | S f => if (m <? 10)%Z then 1%Z else (1 + ndigits_aux f (m / 10))%Z
  end.
Definition ndigits (m : Z) : Z := ndigits_aux (Pos.to_nat (Pos.size (Z.to_pos m))) m.

(** Value of [mantissa * 10^e10] as a float: infinity beyond the double
    range, zero far below it. *)
Definition scaled_value (m : Z) (e : Z) : pyfloat :=
  if (m =? 0)%Z then fzero else
  let mag := (ndigits m + e)%Z in
  if (310 <? mag)%Z then PosInf
  else if (mag <? -400)%Z then fzero
  else
    let q := if (0 <=? e)%Z then inject_Z (m * 10 ^ e) else (m # Z.to_pos (10 ^ (- e))) in
    if Qle_bool overflow_bound q then PosInf else fin q.

Definition lower_chars (cs : list ascii) : list ascii := map lower_char cs.

(** [float(s)] for a string; [None] is the [ValueError] it raises. *)
Definition py_float_of_string (s : string) : option pyfloat :=
  let cs := list_ascii_of_string (strip s) in
  let '(neg, body) := sign_of cs in
  let apply_sign f := if neg then fneg f else f in
  let low := string_of_list_ascii (lower_chars body) in
  if in_list low ["inf"; "infinity"]%string then Some (apply_sign PosInf)
  else if String.eqb low "nan" then Some NaN
  else
    let '(ip, r1) := take_digits body [] in
    let '(fp, r2) :=
      match r1 with
      | "." :: r => take_digits r []
      | _ => ([], r1)
      end in
    let has_dot := match r1 with "." :: _ => true | _ => false end in
    let r2 := if has_dot then r2 else r1 in
    if (List.length ip =? 0)%nat && (List.length fp =? 0)%nat then None else
    let exp_part :=
      match r2 with
      | e :: r =>
          if Ascii.eqb e "e" || Ascii.eqb e "E" then
            let '(eneg, r') := sign_of r in
            let '(ed, r'') := take_digits r' [] in
            match ed, r'' with
            | _ :: _, [] => Some (if eneg then (- digits_value ed)%Z else digits_value ed)
            | _, _ => None
            end
          else None
      | [] => Some 0%Z
      end in
    match exp_part with
    | None => None
    | Some ex =>
        let m := digits_value (ip ++ fp) in
        Some (apply_sign (scaled_value m (ex - Z.of_nat (List.length fp))%Z))
    end.

Local Close Scope char_scope.

(* ------------------------------------------------------------------ *)
(** ** pandas [read_csv] on the cleaned text

    Modelled: pandas' C tokenizer ([tokenizer.c]) with the default dialect
    (comma delimiter, the double-quote character as quote character, a
    doubled one inside a quoted field standing for itself, no escape character, blank lines and lines of spaces and
    tabs skipped) and its [ParserError] for a quoted field still open at
    the end of the text; [EmptyDataError] when no record is left; the
    header row with ["Unnamed: i"] for empty names and [".k"] suffixes for
    repeated names; the implicit index (when the first data row has more
    fields than the header, its leading extra fields are the index, also in
    every later row); [ParserError] for a later row with more fields than
    the first data row (or the header, if longer); padding of short rows
    with NaN; and the default NA strings.  Cells keep their text: pandas'
    dtype inference only changes the text of all-numeric columns (e.g.
    [10] is read back as [10.0]), which [_clean_money] maps to the same
    number. *)

Inductive cell := CNaN | CText (s : string).

Definition na_values : list string :=
  [""; "#N/A"; "#N/A N/A"; "#NA"; "-1.#IND"; "-1.#QNAN"; "-NaN"; "-nan";
   "1.#IND"; "1.#QNAN"; "<NA>"; "N/A"; "NA"; "NULL"; "NaN"; "None"; "n/a";
   "nan"; "null"]%string.

Definition to_cell (s : string) : cell := if in_list s na_values then CNaN else CText s.

Record frame := { columns : list string; rows : list (list cell) }.

Definition is_comma (c : ascii) : bool := Ascii.eqb c ","%char.
Definition is_row_break (c : ascii) : bool := ((code c =? 10) || (code c =? 13))%nat.

Fixpoint nat_digits (fuel n : nat) (acc : string) : string :=
  match fuel with
  | O => acc
  | S f =>
      let acc' := String (ascii_of_nat (48 + n mod 10)) acc in
      if (n <? 10)%nat then acc' else nat_digits f (n / 10) acc'
  end.
Definition string_of_nat (n : nat) : string := nat_digits (S n) n EmptyString.

Fixpoint count_of (counts : list (string * nat)) (k : string) : nat :=
  match counts with
  | [] => 0
  | (k', n) :: r => if String.eqb k k' then n else count_of r k
  end.

(** The [while cur_count > 0] loop of pandas' duplicate-name mangling. *)
Fixpoint dedup_loop (fuel : nat) (counts : list (string * nat)) (col : string)
  : list (string * nat) * string :=
  match fuel with
  | O => (counts, col)
  | S f =>
      let cur := count_of counts col in
      if (cur =? 0)%nat then (counts, col)
      else dedup_loop f ((col, S cur) :: counts) (col ++ "." ++ string_of_nat cur)
  end.

Fixpoint dedup_names_aux (fuel : nat) (counts : list (string * nat)) (names : list string)
  : list string :=
  match names with
  | [] => []
  | col :: r =>
      let '(counts', col') := dedup_loop fuel counts col in
      col' :: dedup_names_aux fuel ((col', S (count_of counts' col')) :: counts') r
  end.
Definition dedup_names (names : list string) : list string :=
  dedup_names_aux (S (List.length names)) [] names.

Fixpoint mapi_aux {A B : Type} (f : nat -> A -> B) (i : nat) (l : list A) : list B :=
  match l with [] => [] | x :: r => f i x :: mapi_aux f (S i) r end.

(** The tokenizer's states. *)
Inductive tok_state :=
  | StartRecord | StartField | InField | InQuotedField | QuoteInQuotedField | WhitespaceLine.

(** One character read: go on in a state with the current field (reversed)
    and the fields of the record so far (reversed), or end the record. *)
Inductive tok_action :=
  | TGo (st : tok_state) (field : list ascii) (fields : list string)
  | TEndLine (record : list string).

Definition is_quote (c : ascii) : bool := (code c =? 34)%nat.
Definition is_blank (c : ascii) : bool := ((code c =? 32) || (code c =? 9))%nat.

Definition end_field (field : list ascii) (fields : list string) : list string :=
  string_of_list_ascii (rev field) :: fields.

(** [IN_FIELD]. *)
Definition in_field_step (field : list ascii) (fields : list string) (c : ascii) : tok_action :=
  if is_row_break c then TEndLine (rev (end_field field fields))
  else if is_comma c then TGo StartField [] (end_field field fields)
  else TGo InField (c :: field) fields.

(** [START_FIELD]. *)
Definition start_field_step (field : list ascii) (fields : list string) (c : ascii) : tok_action :=
  if is_quote c then TGo InQuotedField field fields else in_field_step field fields c.

(** [WHITESPACE_LINE] on a character that is neither blank nor a line end
    goes back to the start of the line and reads it from [START_FIELD]: the
    blanks then begin an unquoted field. *)
Definition tok_step (st : tok_state) (field : list ascii) (fields : list string) (c : ascii)
  : tok_action :=
  match st with
  | StartRecord =>
      if is_row_break c then TGo StartRecord [] []
      else if is_blank c then TGo WhitespaceLine [c] []
      else start_field_step [] [] c
  | StartField => start_field_step field fields c
  | InField => in_field_step field fields c
  | InQuotedField =>
      if is_quote c then TGo QuoteInQuotedField field fields
      else TGo InQuotedField (c :: field) fields
  | QuoteInQuotedField =>
      if is_quote c then TGo InQuotedField (c :: field) fields
      else in_field_step field fields c
  | WhitespaceLine =>
      if is_row_break c then TGo StartRecord [] []
      else if is_blank c then TGo WhitespaceLine (c :: field) []
      else in_field_step field [] c
  end.

(** The records of the text; at the end, [parser_handle_eof]. *)
Fixpoint tokenize (st : tok_state) (field : list ascii) (fields : list string) (cs : list ascii)
  : res (list (list string)) :=
  match cs with
  | [] =>
      match st with
      | StartRecord | WhitespaceLine => Ok []
      | InQuotedField => Err ParserError
      | _ => Ok [rev (end_field field fields)]
      end
  | c :: r =>
      match tok_step st field fields c with
      | TGo st' field' fields' => tokenize st' field' fields' r
      | TEndLine record =>
          let* records := tokenize StartRecord [] [] r in Ok (record :: records)
      end
  end.

Definition read_csv (text : string) : res frame :=
  let* records := tokenize StartRecord [] [] (list_ascii_of_string text) in
  match records with
  | [] => Err EmptyDataError
  | hdr :: body =>
      let named := mapi_aux (fun i n => if String.eqb n "" then ("Unnamed: " ++ string_of_nat i)%string else n) 0 hdr in
      let names := dedup_names named in
      let nh := List.length names in
      let width :=
        match body with
        | r1 :: _ => Nat.max nh (List.length r1)
        | [] => nh
        end in
      let* rs := mapM (fun fs =>
                   if (width <? List.length fs)%nat then Err ParserError
                   else
                     let cells := map to_cell fs ++ repeat CNaN (width - List.length fs) in
                     Ok (skipn (width - nh) cells)) body in
      Ok {| columns := names; rows := rs |}
  end.

(* ------------------------------------------------------------------ *)
(** ** [_COLUMN_ALIASES], [_normalize_columns] *)

Definition column_aliases : list (string * string) :=
  [("symbol", "Symbol"); ("ticker", "Symbol"); ("ticker symbol", "Symbol");
   ("description", "Description"); ("name", "Description");
   ("security name", "Description"); ("security description", "Description");
   ("investment name", "Description"); ("security", "Description");
   ("holding", "Description");
   ("quantity", "Quantity"); ("shares", "Quantity"); ("qty", "Quantity");
   ("share count", "Quantity");
   ("last price", "Last Price"); ("price", "Last Price");
   ("share price", "Last Price"); ("close price", "Last Price");
   ("closing price", "Last Price"); ("last", "Last Price");
   ("market price", "Last Price"); ("current price", "Last Price");
   ("current value", "Current Value"); ("market value", "Current Value");
   ("total value", "Current Value"); ("value", "Current Value");
   ("mkt value", "Current Value"); ("account value", "Current Value");
   ("equity", "Current Value");
   ("cost basis total", "Cost Basis Total"); ("cost basis", "Cost Basis Total");
   ("total cost", "Cost Basis Total"); ("total cost basis", "Cost Basis Total");
   ("cost", "Cost Basis Total"); ("book value", "Cost Basis Total");
   ("purchase value", "Cost Basis Total");
   ("average cost basis", "Average Cost Basis");
   ("cost basis per share", "Average Cost Basis");
   ("avg cost", "Average Cost Basis"); ("average cost", "Average Cost Basis");
   ("avg cost/share", "Average Cost Basis"); ("avg price", "Average Cost Basis");
   ("unit cost", "Average Cost Basis");
   ("total gain/loss dollar", "Total Gain/Loss Dollar");
   ("gain/loss dollar", "Total Gain/Loss Dollar");
   ("gain/loss $", "Total Gain/Loss Dollar");
   ("gain loss $", "Total Gain/Loss Dollar");
   ("unrealized gain/loss", "Total Gain/Loss Dollar");
   ("unrealized p&l", "Total Gain/Loss Dollar");
   ("gain/loss", "Total Gain/Loss Dollar"); ("p&l", "Total Gain/Loss Dollar");
   ("total gain/loss", "Total Gain/Loss Dollar");
   ("total gain/loss percent", "Total Gain/Loss Percent");
   ("gain/loss percent", "Total Gain/Loss Percent");
   ("gain/loss %", "Total Gain/Loss Percent");
   ("gain loss %", "Total Gain/Loss Percent");
   ("unrealized gain/loss %", "Total Gain/Loss Percent");
   ("% gain/loss", "Total Gain/Loss Percent");
   ("percent of account", "Percent Of Account");
   ("% of account", "Percent Of Account"); ("% of portfolio", "Percent Of Account");
   ("weight", "Percent Of Account"); ("portfolio %", "Percent Of Account");
   ("allocation", "Percent Of Account"); ("allocation %", "Percent Of Account")]%string.

Definition canonical_columns : list string :=
  ["Symbol"; "Description"; "Quantity"; "Last Price"; "Current Value";
   "Cost Basis Total"; "Average Cost Basis"; "Total Gain/Loss Dollar";
   "Total Gain/Loss Percent"; "Percent Of Account"]%string.

Fixpoint assoc {A : Type} (k : string) (l : list (string * A)) : option A :=
  match l with
  | [] => None
  | (k', v) :: r => if String.eqb k k' then Some v else assoc k r
  end.

Definition normalize_columns (cols : list string) : list string :=
  let rename_map :=
    fold_left (fun rm col =>
      match assoc (lower (strip col)) column_aliases with
      | Some canonical => if in_list canonical (map snd rm) then rm else rm ++ [(col, canonical)]
      | None => rm
      end) cols [] in
  map (fun c => match assoc c rename_map with Some n => n | None => c end) cols.

(** Keep the cells whose flag is [true] ([df.drop(columns=...)]). *)
Definition project {A : Type} (keep : list bool) (row : list A) : list A :=
  map snd (filter fst (combine keep row)).

(** [row.get(name)]: absent, one cell, or a Series when the name repeats. *)
Inductive got := GMissing | GCell (c : cell) | GSeries (cs : list cell).

Definition row_get (cols : list string) (row : list cell) (name : string) : got :=
  match map snd (filter (fun p => String.eqb (fst p) name) (combine cols row)) with
  | [] => GMissing
  | [c] => GCell c
  | cs => GSeries cs
  end.

(* ------------------------------------------------------------------ *)
(** ** [_clean_money] *)

(** The sentinels of [_clean_money]; the em dash (U+2014) lies above the
    8-bit range of this model. *)
Definition money_sentinels : list string := [""; "--"; "n/a"; "N/A"; "-"]%string.

Definition clean_money_text (s0 : string) : option pyfloat :=
  let s := strip s0 in
  if in_list s money_sentinels then None else
  let negative := startswith s "(" && endswith s ")" in
  let s := if negative then substring 1 (String.length s - 2) s else s in
  let s := replace_char "+" "" (replace_char "," "" (replace_char "%" "" (replace_char "$" "" s))) in
  match py_float_of_string s with
  | Some r => Some (if negative then fneg r else r)
  | None => None
  end.

(** [_clean_money(row.get(col))]: a Series makes [pd.isna(val) or ...]
    raise [ValueError]. *)
Definition clean_money (g : got) : res (option pyfloat) :=
  match g with
  | GMissing | GCell CNaN => Ok None
  | GCell (CText s) => Ok (clean_money_text s)
  | GSeries _ => Err ValueError
  end.

(* ------------------------------------------------------------------ *)
(** ** Canonical holdings and [parse_portfolio_csv] *)

Local Open Scope string_scope.

(** A holding dict as built by [parse_portfolio_csv]; numeric fields are a
    float or [None]. *)
Record holding := {
  symbol : string;
  name : string;
  quantity : option pyfloat;
  lastPrice : option pyfloat;
  currentValue : option pyfloat;
  costBasis : option pyfloat;
  costBasisPerShare : option pyfloat;
  totalGainDollar : option pyfloat;
  totalGainPct : option pyfloat;
  pctOfAccount : option pyfloat
}.

Definition skip_symbols : list string :=
  ["FCASH"; "PENDING ACTIVITY"; "CASH"; "CASH & CASH INVESTMENTS";
   "SPAXX"; "SWVXX"; "VMFXX"; "FDRXX"; "ACCOUNT TOTAL"; "TOTAL"]%string.

(** [symbol.replace("*", "").replace("+", "").strip()] after
    [str(...).strip().upper()]. *)
Definition clean_symbol (raw : string) : string :=
  strip (replace_char "+"%char "" (replace_char "*"%char "" (upper (strip raw)))).

Definition skipped_symbol (symbol : string) : bool :=
  String.eqb symbol "" || in_list symbol skip_symbols || contains "*" symbol
  || startswith symbol "PENDING" || contains "TOTAL" symbol || contains "CASH & CASH" symbol.

Section Csv.
(** [str()] of a pandas Series (a repeated column name); only used as
    some string. *)
Variable series_text : list cell -> string.

Definition got_str (g : got) (default : string) : string :=
  match g with
  | GMissing => default
  | GCell CNaN => "nan"
  | GCell (CText s) => s
  | GSeries cs => series_text cs
  end.

(** The body of the [for _, row in df.iterrows()] loop: [None] is
    [continue]. *)
Definition row_to_holding (cols : list string) (row : list cell) : res (option holding) :=
  let get := row_get cols row in
  let symbol := clean_symbol (got_str (get "Symbol") "") in
  if skipped_symbol symbol then Ok None else
  let name := strip (got_str (get "Description") "") in
  let* quantity := clean_money (get "Quantity") in
  let* last_price := clean_money (get "Last Price") in
  let* current_value := clean_money (get "Current Value") in
  let* cost_basis := clean_money (get "Cost Basis Total") in
  let* cost_basis_per_share := clean_money (get "Average Cost Basis") in
  let* total_gain_dollar := clean_money (get "Total Gain/Loss Dollar") in
  let* total_gain_pct := clean_money (get "Total Gain/Loss Percent") in
  let* pct_of_account := clean_money (get "Percent Of Account") in
  let current_value :=
    match current_value, last_price, quantity with
    | None, Some lp, Some q => Some (fround 2 (fmul lp q))
    | _, _, _ => current_value
    end in
  let cost_basis :=
    match cost_basis, cost_basis_per_share, quantity with
    | None, Some c, Some q => Some (fround 2 (fmul c q))
    | _, _, _ => cost_basis
    end in
  match current_value, quantity with
  | None, None => Ok None
  | _, _ =>
      Ok (Some {| symbol := symbol; name := name; quantity := quantity;
                  lastPrice := last_price; currentValue := Some (or0 current_value);
                  costBasis := cost_basis; costBasisPerShare := cost_basis_per_share;
                  totalGainDollar := total_gain_dollar; totalGainPct := total_gain_pct;
                  pctOfAccount := pct_of_account |})
  end.
End Csv.

(** Consolidation of a duplicate ticker into the first-seen dict [m]. *)
Definition merge_into (m h : holding) : holding :=
  {| symbol := symbol m; name := name m;
     quantity := Some (fadd (or0 (quantity m)) (or0 (quantity h)));
     lastPrice := lastPrice m;
     currentValue := Some (fadd (or0 (currentValue m)) (or0 (currentValue h)));
     costBasis := Some (fadd (or0 (costBasis m)) (or0 (costBasis h)));
     costBasisPerShare := costBasisPerShare m;
     totalGainDollar := Some (fadd (or0 (totalGainDollar m)) (or0 (totalGainDollar h)));
     totalGainPct := totalGainPct m;
     pctOfAccount := pctOfAccount m |}.

(** [merged[sym] = ...]: update in place, or append a new key. *)
Fixpoint upsert (h : holding) (merged : list holding) : list holding :=
  match merged with
  | [] => [h]
  | m :: r => if String.eqb (symbol m) (symbol h) then merge_into m h :: r else m :: upsert h r
  end.

Definition consolidate (hs : list holding) : list holding :=
  fold_left (fun merged h => upsert h merged) hs [].

Definition set_derived (h : holding) (pct : pyfloat) (gpct cbps : option pyfloat) : holding :=
  {| symbol := symbol h; name := name h; quantity := quantity h;
     lastPrice := lastPrice h; currentValue := currentValue h;
     costBasis := costBasis h; costBasisPerShare := cbps;
     totalGainDollar := totalGainDollar h; totalGainPct := gpct;
     pctOfAccount := Some pct |}.

Definition fhundred : pyfloat := fint 100.

(** "Recalculate derived fields after consolidation". *)
Definition recalc_one (total_value : pyfloat) (h : holding) : res holding :=
  let val := or0 (currentValue h) in
  let* pct :=
    if flt fzero total_value then
      let* d := fdiv val total_value in Ok (fround 2 (fmul d fhundred))
    else Ok fzero in
  let* gpct :=
    match costBasis h with
    | Some cost =>
        if truthy cost then
          let* d := fdiv (fsub val cost) cost in Ok (Some (fround 2 (fmul d fhundred)))
        else Ok None
    | None => Ok None
    end in
  let* cbps :=
    match costBasis h, quantity h with
    | Some cost, Some qty =>
        if truthy cost && truthy qty then
          let* d := fdiv cost qty in Ok (Some (fround 2 d))
        else Ok None
    | _, _ => Ok None
    end in
  Ok (set_derived h pct gpct cbps).

Definition total_value_of (hs : list holding) : pyfloat :=
  fsum (map (fun h => or0 (currentValue h)) hs).

Definition recalc (hs : list holding) : res (list holding) :=
  mapM (recalc_one (total_value_of hs)) hs.

(** [content.splitlines()] loop that cuts the trailer after two consecutive
    blank lines and strips trailing commas. *)
Fixpoint strip_trailer (lines clean : list string) (blanks : nat) : list string :=
  match lines with
  | [] => rev clean
  | line :: r =>
      if String.eqb (strip line) "" then
        match clean with
        | [] => strip_trailer r clean blanks
        | _ => if (2 <=? S blanks)%nat then rev clean else strip_trailer r clean (S blanks)
        end
      else strip_trailer r (rstrip_char ","%char line :: clean) 0
  end.

Definition somes {A : Type} (l : list (option A)) : list A :=
  flat_map (fun o => match o with Some x => [x] | None => [] end) l.

(** [parse_portfolio_csv] on the decoded file content. *)
Definition parse_portfolio_csv (series_text : list cell -> string) (content : string)
  : res (list holding) :=
  let clean_lines := strip_trailer (splitlines content) [] 0 in
  let text := concat nl clean_lines in
  let* df := read_csv text in
  let cols := normalize_columns (map strip (columns df)) in
  let keep := map (fun c => in_list c canonical_columns) cols in
  let cols' := project keep cols in
  let* hs := mapM (fun r => row_to_holding series_text cols' (project keep r)) (rows df) in
  recalc (consolidate (somes hs)).

Local Close Scope string_scope.

(* ------------------------------------------------------------------ *)
(** ** [build_holdings_from_manual] *)

Local Open Scope string_scope.

(** A value decoded from the request's JSON body ([request.get_json]); a
    dict is an association list with distinct keys. *)
Inductive pyval :=
  | PNone
  | PBool (b : bool)
  | PInt (z : Z)
  | PFloat (f : pyfloat)
  | PStr (s : string)
  | PList (l : list pyval)
  | PDict (kvs : list (string * pyval)).

(** [entry.get(key, default)]; an entry that is not a dict has no [.get]. *)
Definition dict_get (entry : pyval) (key : string) (default : pyval) : res pyval :=
  match entry with
  | PDict kvs => Ok (match assoc key kvs with Some v => v | None => default end)
  | _ => Err AttributeError
  end.

Fixpoint z_digits (fuel : nat) (m : Z) (acc : string) : string :=
  match fuel with
  | O => acc
  | S f =>
      let acc' := String (ascii_of_nat (48 + Z.to_nat (m mod 10))) acc in
      if (m <? 10)%Z then acc' else z_digits f (m / 10) acc'
  end.

Definition string_of_Z (z : Z) : string :=
  let d := z_digits (Z.to_nat (ndigits (Z.abs z))) (Z.abs z) "" in
  if (z <? 0)%Z then "-" ++ d else d.

(** [str(v)].  A finite float is rendered by its integer part and a
    fraction marker, lists and dicts by their brackets: Python's shortest
    round-trip digits and element reprs are not modelled; every such text
    holds a digit or a bracket, which is all the ticker check below looks
    at. *)
Definition py_str (v : pyval) : string :=
  match v with
  | PNone => "None"
  | PBool true => "True"
  | PBool false => "False"
  | PInt z => string_of_Z z
  | PFloat PosInf => "inf"
  | PFloat NegInf => "-inf"
  | PFloat NaN => "nan"
  | PFloat (Fin q) => string_of_Z (Qnum q / Zpos (Qden q)) ++ ".0"
  | PStr s => s
  | PList _ => "[...]"
  | PDict _ => "{...}"
  end.

(** [float(v)]: [Err TypeError] and [Err ValueError] are the exceptions the
    loop catches; an int too large for a double raises [OverflowError]. *)
Definition py_float (v : pyval) : res pyfloat :=
  match v with
  | PNone | PList _ | PDict _ => Err TypeError
  | PBool b => Ok (if b then fint 1 else fzero)
  | PInt z => if Qle_bool overflow_bound (inject_Z (Z.abs z)) then Err OverflowError else Ok (fint z)
  | PFloat f => Ok f
  | PStr s => match py_float_of_string s with Some f => Ok f | None => Err ValueError end
  end.

(** [try: x = float(v) except (TypeError, ValueError): ...]: [Ok None] is
    the handler. *)
Definition float_or_skip (v : pyval) : res (option pyfloat) :=
  match py_float v with
  | Ok f => Ok (Some f)
  | Err TypeError | Err ValueError => Ok None
  | Err e => Err e
  end.

Definition is_upper_letter (c : ascii) : bool := ((65 <=? code c) && (code c <=? 90))%nat.

(** [re.match(r"^[A-Z]{1,10}$", symbol)] on a stripped symbol (no trailing
    newline for [$] to skip). *)
Definition is_ticker (s : string) : bool :=
  ((1 <=? String.length s) && (String.length s <=? 10))%nat &&
  forallb is_upper_letter (list_ascii_of_string s).

(** One iteration of the first loop; [None] is [continue]. *)
Definition manual_entry (entry : pyval) : res (option holding) :=
  let* sym_v := dict_get entry "symbol" (PStr "") in
  let symbol := upper (strip (py_str sym_v)) in
  if negb (is_ticker symbol) then Ok None else
  if in_list symbol skip_symbols then Ok None else
  let* shares_v := dict_get entry "shares" PNone in
  let* shares := float_or_skip shares_v in
  match shares with
  | None => Ok None
  | Some shares =>
      if fle shares fzero then Ok None else
      let* cps_v := dict_get entry "costPerShare" PNone in
      let* cost_per_share :=
        match cps_v with
        | PNone => Ok None
        | _ =>
            let* c := float_or_skip cps_v in
            Ok (match c with
                | Some c => if flt c fzero then None else Some c
                | None => None
                end)
        end in
      let cost_basis :=
        match cost_per_share with
        | Some c => if truthy c then Some (fround 2 (fmul c shares)) else None
        | None => None
        end in
      Ok (Some {| symbol := symbol; name := ""; quantity := Some shares;
                  lastPrice := None; currentValue := Some fzero;
                  costBasis := cost_basis; costBasisPerShare := cost_per_share;
                  totalGainDollar := None; totalGainPct := None;
                  pctOfAccount := Some fzero |})
  end.

(** Consolidation of a repeated symbol into the first-seen dict [m]. *)
Definition manual_merge (m h : holding) : res holding :=
  let total_qty := fadd (or0 (quantity m)) (or0 (quantity h)) in
  let total_cost := fadd (or0 (costBasis m)) (or0 (costBasis h)) in
  let* cbps :=
    if flt fzero total_cost && flt fzero total_qty then
      let* d := fdiv total_cost total_qty in Ok (Some (fround 2 d))
    else Ok None in
  Ok {| symbol := symbol m; name := name m; quantity := Some total_qty;
        lastPrice := lastPrice m; currentValue := currentValue m;
        costBasis := if flt fzero total_cost then Some total_cost else None;
        costBasisPerShare := cbps;
        totalGainDollar := totalGainDollar m; totalGainPct := totalGainPct m;
        pctOfAccount := pctOfAccount m |}.

Fixpoint manual_upsert (h : holding) (merged : list holding) : res (list holding) :=
  match merged with
  | [] => Ok [h]
  | m :: r =>
      if String.eqb (symbol m) (symbol h) then let* m' := manual_merge m h in Ok (m' :: r)
      else let* r' := manual_upsert h r in Ok (m :: r')
  end.

Fixpoint manual_consolidate (merged raw : list holding) : res (list holding) :=
  match raw with
  | [] => Ok merged
  | h :: r => let* merged' := manual_upsert h merged in manual_consolidate merged' r
  end.

Definition build_holdings_from_manual (entries : list pyval) : res (list holding) :=
  let* raw := mapM manual_entry entries in
  manual_consolidate [] (somes raw).

Definition manual_entries_nan : list pyval :=
  [PDict [("symbol", PStr "AAPL"); ("shares", PStr "nan")]].

Definition manual_entries_big_int : list pyval :=
  [PDict [("symbol", PStr "AAPL"); ("shares", PInt (10 ^ 400))]].

Definition manual_entries_sample : list pyval :=
  [PDict [("symbol", PStr "AAPL"); ("shares", PInt 10)];
   PDict [("symbol", PStr " aapl "); ("shares", PStr "5"); ("costPerShare", PInt 100)];
   PDict [("symbol", PStr "CASH"); ("shares", PInt 3)];
   PDict [("symbol", PStr "MSFT"); ("shares", PInt 2)]].

Local Close Scope string_scope.

(** A rendering of [str(series)] for a row cell that is a Series (two
    columns with one name): the values one per line.  pandas also prints
    the index and a dtype footer; nothing below depends on the exact text. *)
Definition series_str (cs : list cell) : string :=
  concat nl (map (fun c => match c with CNaN => "NaN" | CText s => s end) cs)%string.

(** Sample uploads. *)
Definition csv_two_accounts : string :=
  ("Symbol,Description,Quantity,Current Value,Cost Basis Total" ++ nl ++
   "AAPL,Apple Inc,10,$1500.00,$1000.00" ++ nl ++
   "MSFT,Microsoft Corp,2,$800.00,$900.00" ++ nl ++
   "AAPL,Apple Inc,5,$700.00,$600.00" ++ nl ++
   "FCASH,Cash,1,$50.00,")%string.

Definition csv_short_position : string :=
  ("Symbol,Quantity,Current Value" ++ nl ++
   "AAPL,10,$1000.00" ++ nl ++
   "MSFT,-5,($500.00)")%string.

Definition csv_overflow_value : string :=
  ("Symbol,Quantity,Current Value" ++ nl ++
   "AAPL,10,1e999" ++ nl ++
   "MSFT,5,100")%string.

Definition csv_extra_field : string :=
  ("Symbol,Quantity" ++ nl ++ "AAPL,1" ++ nl ++ "MSFT,5,7,8")%string.

(** The double-quote character. *)
Definition dq : string := String (ascii_of_nat 34) EmptyString.

Definition csv_open_quote : string :=
  ("Symbol,Quantity" ++ nl ++ "AAPL," ++ dq ++ "10")%string.

Definition csv_duplicate_quantity : string :=
  ("Symbol,Quantity, Quantity" ++ nl ++ "AAPL,1,2")%string.

Definition csv_blank_lines : string := ("  " ++ nl ++ nl ++ "   ")%string.

(* ------------------------------------------------------------------ *)
(** ** [analyze_portfolio] (portfolio.py) and [compute_analyst_overview]
    (portfolio_widgets.py) *)

Local Open Scope string_scope.

(** A holding after [enrich_holdings]: the CSV dict updated with the
    enrichment record of [_enrich_one] (the fields [analyze_portfolio]
    reads). *)
Record enriched := {
  base : holding;
  sector : string;
  industry : string;
  industryKey : string;
  currentPrice : option pyfloat;
  targetMeanPrice : option pyfloat;
  nAnalysts : option Z;
  recommendationKey : string;
  sectorWeights : option (list (string * pyfloat));
  isFund : bool;
  dividendYield : option pyfloat;
  fiftyTwoWeekHigh : option pyfloat;
  fiftyTwoWeekLow : option pyfloat;
  beta : option pyfloat;
  trailingPE : option pyfloat
}.

(** [h.update(_ENRICHMENT_FALLBACK)]. *)
Definition enrichment_fallback (h : holding) : enriched :=
  {| base := h; sector := "Unknown"; industry := "Unknown"; industryKey := "";
     currentPrice := None; targetMeanPrice := None; nAnalysts := None;
     recommendationKey := "N/A"; sectorWeights := None; isFund := false;
     dividendYield := None; fiftyTwoWeekHigh := None; fiftyTwoWeekLow := None;
     beta := None; trailingPE := None |}.

(** [s or default] for a string. *)
Definition or_str (s default : string) : string := if String.eqb s "" then default else s.

(** [a or b] for two values that are a float or [None]. *)
Definition or_opt (a b : option pyfloat) : option pyfloat :=
  match a with Some x => if truthy x then a else b | None => b end.

Definition truthy_opt (o : option pyfloat) : bool :=
  match o with Some x => truthy x | None => false end.

(** [a < b] on Python strings (code point order). *)
Fixpoint str_ltb (a b : string) : bool :=
  match a, b with
  | EmptyString, String _ _ => true
  | String c r, String d s =>
      if (nat_of_ascii c <? nat_of_ascii d)%nat then true
      else if (nat_of_ascii c =? nat_of_ascii d)%nat then str_ltb r s else false
  | _, EmptyString => false
  end.

(** [list.sort] / [sorted] as a stable insertion sort that only asks
    [lt x y] ([key(x) < key(y)], or [key(y) < key(x)] for
    [reverse=True]): [x] goes before the first element it is strictly
    less than, after the ones it ties with.  On keys without [nan] every
    stable sort, CPython's included, gives this list. *)
Fixpoint insert_by {A : Type} (lt : A -> A -> bool) (x : A) (l : list A) : list A :=
  match l with
  | [] => [x]
  | y :: r => if lt x y then x :: l else y :: insert_by lt x r
  end.

Definition sort_by {A : Type} (lt : A -> A -> bool) (l : list A) : list A :=
  fold_left (fun acc x => insert_by lt x acc) l [].

Definition value_of (h : enriched) : pyfloat := or0 (currentValue (base h)).

(** [h.get("isFund") or h.get("sectorWeights")] (an empty dict is false). *)
Definition is_fund (h : enriched) : bool :=
  isFund h || match sectorWeights h with Some (_ :: _) => true | _ => false end.

(** [x * 100] and [x / 100]. *)
Definition pct_of (d : pyfloat) : pyfloat := fmul d fhundred.

(** *** Sector breakdown *)

Record sector_entry := { se_sector : string; se_value : pyfloat; se_count : Z }.

Definition has_sector (sec : string) (m : list sector_entry) : bool :=
  existsb (fun e => String.eqb (se_sector e) sec) m.

(** [if sec not in sector_map: sector_map[sec] = {"sector": sec, "value": 0, "count": 0}] *)
Definition ensure_sector (sec : string) (m : list sector_entry) : list sector_entry :=
  if has_sector sec m then m else (m ++ [{| se_sector := sec; se_value := fzero; se_count := 0 |}])%list.

Definition add_value (sec : string) (x : pyfloat) (m : list sector_entry) : list sector_entry :=
  map (fun e => if String.eqb (se_sector e) sec
                then {| se_sector := se_sector e; se_value := fadd (se_value e) x; se_count := se_count e |}
                else e) m.

Definition add_count (sec : string) (m : list sector_entry) : list sector_entry :=
  map (fun e => if String.eqb (se_sector e) sec
                then {| se_sector := se_sector e; se_value := se_value e; se_count := (se_count e + 1)%Z |}
                else e) m.

(** [max(weights, key=weights.get)]: the first key of largest weight. *)
Definition top_sector (w0 : string * pyfloat) (ws : list (string * pyfloat)) : string :=
  fst (fold_left (fun best kw => if flt (snd best) (snd kw) then kw else best) ws w0).

Definition plain_sector (h : enriched) : string :=
  let sec := or_str (sector h) "Unknown" in
  if String.eqb sec "Fund/ETF" then "Unknown" else sec.

(** One iteration of the sector loop. *)
Definition sector_step (m : list sector_entry) (h : enriched) : list sector_entry :=
  let val := value_of h in
  match sectorWeights h with
  | Some ((w0 :: ws') as ws) =>
      let m := fold_left (fun m kw => let '(sec, w) := kw in
                            add_value sec (fmul val w) (ensure_sector sec m)) ws m in
      add_count (top_sector w0 ws') m
  | _ =>
      let sec := plain_sector h in
      add_count sec (add_value sec val (ensure_sector sec m))
  end.

Definition sector_map (hs : list enriched) : list sector_entry := fold_left sector_step hs [].

Record sector_row := { sr_sector : string; sr_value : pyfloat; sr_count : Z; sr_pct : pyfloat }.

(** [round(value / total_value * 100, 1) if total_value > 0 else 0]. *)
Definition share_pct (n : nat) (value total_value : pyfloat) : res pyfloat :=
  if flt fzero total_value then let* d := fdiv value total_value in Ok (fround n (pct_of d))
  else Ok fzero.

Definition by_sector (total_value : pyfloat) (hs : list enriched) : res (list sector_row) :=
  mapM (fun e => let* p := share_pct 1 (se_value e) total_value in
                 Ok {| sr_sector := se_sector e; sr_value := se_value e;
                       sr_count := se_count e; sr_pct := p |})
       (sort_by (fun a b => flt (se_value b) (se_value a)) (sector_map hs)).

(** *** Industry breakdown *)

Record industry_entry := {
  ie_industry : string; ie_industryKey : string; ie_sector : string;
  ie_value : pyfloat; ie_count : Z }.

Definition industry_step (m : list industry_entry) (h : enriched) : list industry_entry :=
  let '(ind, ind_key, sec) :=
    if is_fund h then ("Fund/ETF (look-through in sector view)", "", "Fund/ETF")
    else (or_str (industry h) "Unknown", industryKey h, or_str (sector h) "Unknown") in
  let m := if existsb (fun e => String.eqb (ie_industry e) ind) m then m
           else (m ++ [{| ie_industry := ind; ie_industryKey := ind_key; ie_sector := sec;
                          ie_value := fzero; ie_count := 0 |}])%list in
  map (fun e => if String.eqb (ie_industry e) ind
                then {| ie_industry := ie_industry e; ie_industryKey := ie_industryKey e;
                        ie_sector := ie_sector e; ie_value := fadd (ie_value e) (value_of h);
                        ie_count := (ie_count e + 1)%Z |}
                else e) m.

Record industry_row := {
  ir_industry : string; ir_industryKey : string; ir_sector : string;
  ir_value : pyfloat; ir_count : Z; ir_pct : pyfloat }.

Definition by_industry (total_value : pyfloat) (hs : list enriched) : res (list industry_row) :=
  mapM (fun e => let* p := share_pct 1 (ie_value e) total_value in
                 Ok {| ir_industry := ie_industry e; ir_industryKey := ie_industryKey e;
                       ir_sector := ie_sector e; ir_value := ie_value e;
                       ir_count := ie_count e; ir_pct := p |})
       (sort_by (fun a b => flt (ie_value b) (ie_value a)) (fold_left industry_step hs [])).

(** *** Concentration risk *)

Record conc_row := {
  c_symbol : string; c_name : string; c_pct : pyfloat; c_currentValue : pyfloat;
  c_isFund : bool; c_threshold : Z }.

Definition threshold_of (h : enriched) : Z := if is_fund h then 30%Z else 15%Z.

Definition concentration_of (total_value : pyfloat) (h : enriched) : res (option conc_row) :=
  let* pct :=
    match pctOfAccount (base h) with
    | Some p => Ok (Some p)
    | None =>
        if flt fzero total_value then let* d := fdiv (value_of h) total_value in Ok (Some (pct_of d))
        else Ok None
    end in
  let threshold := threshold_of h in
  match pct with
  | Some p =>
      if truthy p && flt (fint threshold) p then
        Ok (Some {| c_symbol := symbol (base h); c_name := name (base h); c_pct := fround 1 p;
                    c_currentValue := value_of h; c_isFund := is_fund h; c_threshold := threshold |})
      else Ok None
  | None => Ok None
  end.

Definition concentration_rows (total_value : pyfloat) (hs : list enriched) : res (list conc_row) :=
  let* rs := mapM (concentration_of total_value) hs in Ok (somes rs).

(** *** Diversification gaps *)

(** [ALLOWED_INDUSTRIES] (data.py), in source order. *)
Definition allowed_industries : list string :=
  ["semiconductors"; "software-infrastructure"; "software-application";
   "internet-content-information"; "consumer-electronics";
   "drug-manufacturers-general"; "biotechnology"; "medical-devices"; "healthcare-plans";
   "banks-diversified"; "asset-management"; "insurance-diversified";
   "oil-gas-integrated"; "oil-gas-e-p"; "oil-gas-equipment-services";
   "utilities-regulated-electric"; "utilities-renewable";
   "aerospace-defense"; "railroads"; "farm-heavy-construction-machinery";
   "auto-manufacturers"; "specialty-retail"; "restaurants"; "home-improvement-retail";
   "household-personal-products"; "discount-stores"; "telecom-services";
   "reit-specialty"; "specialty-chemicals"].

(** [INDUSTRY_LABELS] (data.py). *)
Definition industry_labels : list (string * string) :=
  [("semiconductors", "Semiconductors");
   ("software-infrastructure", "Software - Infrastructure");
   ("software-application", "Software - Application");
   ("internet-content-information", "Internet Content & Information");
   ("consumer-electronics", "Consumer Electronics");
   ("drug-manufacturers-general", "Drug Manufacturers");
   ("biotechnology", "Biotechnology");
   ("medical-devices", "Medical Devices");
   ("healthcare-plans", "Healthcare Plans");
   ("banks-diversified", "Banks - Diversified");
   ("asset-management", "Asset Management");
   ("insurance-diversified", "Insurance - Diversified");
   ("oil-gas-integrated", "Oil & Gas Integrated");
   ("oil-gas-e-p", "Oil & Gas E&P");
   ("oil-gas-equipment-services", "Oil & Gas Equipment & Services");
   ("utilities-regulated-electric", "Utilities - Regulated Electric");
   ("utilities-renewable", "Utilities - Renewable");
   ("aerospace-defense", "Aerospace & Defense");
   ("railroads", "Railroads");
   ("farm-heavy-construction-machinery", "Farm & Heavy Construction Machinery");
   ("auto-manufacturers", "Auto Manufacturers");
   ("specialty-retail", "Specialty Retail");
   ("restaurants", "Restaurants");
   ("home-improvement-retail", "Home Improvement Retail");
   ("household-personal-products", "Household & Personal Products");
   ("discount-stores", "Discount Stores");
   ("telecom-services", "Telecom Services");
   ("reit-specialty", "REITs - Specialty");
   ("specialty-chemicals", "Specialty Chemicals")].

Definition gap_industries (hs : list enriched) : list string :=
  let portfolio_industry_keys :=
    map industryKey (filter (fun h => negb (String.eqb (industryKey h) "")) hs) in
  filter (fun k => negb (in_list k portfolio_industry_keys)) (sort_by str_ltb allowed_industries).

(** *** Analyst overview (portfolio_widgets.py) *)

Record upside_row := {
  u_symbol : string; u_name : string; u_recommendationKey : string; u_nAnalysts : Z;
  u_targetMeanPrice : option pyfloat; u_currentPrice : option pyfloat;
  u_upsidePct : option pyfloat; u_currentValue : option pyfloat;
  u_pctOfAccount : option pyfloat }.

Record overview := {
  buys : Z; holds : Z; sells : Z; totalCovered : Z; totalHoldings : Z;
  coverageRatio : pyfloat; weightedUpside : option pyfloat;
  holdingsByUpside : list upside_row }.

Definition rec_of (h : enriched) : string :=
  replace_char " "%char "_" (lower (recommendationKey h)).

Definition n_of (h : enriched) : Z := match nAnalysts h with Some n => n | None => 0%Z end.

(** The [continue] test of the loop, negated. *)
Definition covered (h : enriched) : bool :=
  negb (n_of h =? 0)%Z && negb (in_list (rec_of h) ["n/a"; ""]).

Definition count_if {A : Type} (p : A -> bool) (l : list A) : Z := Z.of_nat (List.length (filter p l)).

Definition upside_of (h : enriched) : res upside_row :=
  let target := targetMeanPrice h in
  let current := or_opt (currentPrice h) (lastPrice (base h)) in
  let* upside_pct :=
    match target, current with
    | Some t, Some c =>
        if truthy t && truthy c && flt fzero c then
          let* d := fdiv (fsub t c) c in Ok (Some (fround 1 (pct_of d)))
        else Ok None
    | _, _ => Ok None
    end in
  Ok {| u_symbol := symbol (base h); u_name := name (base h);
        u_recommendationKey := recommendationKey h; u_nAnalysts := n_of h;
        u_targetMeanPrice := target; u_currentPrice := current; u_upsidePct := upside_pct;
        u_currentValue := currentValue (base h); u_pctOfAccount := pctOfAccount (base h) |}.

(** [sum(...)] over values that are a float or [None]: [0 + None] raises. *)
Definition sum_opt (l : list (option pyfloat)) : res pyfloat :=
  fold_left (fun acc o => let* a := acc in
                          match o with Some x => Ok (fadd a x) | None => Err TypeError end) l (Ok fzero).

Definition mul_opt (a b : option pyfloat) : option pyfloat :=
  match a, b with Some x, Some y => Some (fmul x y) | _, _ => None end.

Definition compute_analyst_overview (hs : list enriched) : res overview :=
  let cov := filter covered hs in
  let* upside_data := mapM upside_of cov in
  let with_upside := filter (fun d => match u_upsidePct d with Some _ => true | None => false end) upside_data in
  let* total_value := sum_opt (map u_currentValue with_upside) in
  let* weighted_upside :=
    if flt fzero total_value then
      let* s := sum_opt (map (fun d => mul_opt (u_upsidePct d) (u_currentValue d)) with_upside) in
      let* d := fdiv s total_value in Ok (Some (fround 1 d))
    else Ok None in
  let holdings_by_upside :=
    sort_by (fun a b => match u_upsidePct a, u_upsidePct b with
                        | Some x, Some y => flt y x | _, _ => false end) with_upside in
  let total_covered := Z.of_nat (List.length cov) in
  let* coverage_ratio :=
    match hs with
    | [] => Ok fzero
    | _ => let* d := fdiv (fint total_covered) (fint (Z.of_nat (List.length hs))) in
           Ok (fround 0 (pct_of d))
    end in
  Ok {| buys := count_if (fun h => in_list (rec_of h) ["buy"; "strong_buy"]) cov;
        holds := count_if (fun h => String.eqb (rec_of h) "hold") cov;
        sells := count_if (fun h => in_list (rec_of h) ["sell"; "underperform"; "strong_sell"]) cov;
        totalCovered := total_covered; totalHoldings := Z.of_nat (List.length hs);
        coverageRatio := coverage_ratio; weightedUpside := weighted_upside;
        holdingsByUpside := holdings_by_upside |}.

(** *** Tax-loss harvesting candidates *)

Record tax_row := {
  t_symbol : string; t_name : string; t_currentValue : pyfloat; t_costBasis : pyfloat;
  unrealizedLoss : pyfloat; lossPct : pyfloat; estTaxSavings : pyfloat;
  nearFiftyTwoWeekLow : bool }.

(** [0.24], [0.10], [0.2], [0.6], [12.5]. *)
Definition tax_rate : pyfloat := fin (6 # 25).
Definition ften : pyfloat := fin (1 # 10).
Definition ftwo_tenths : pyfloat := fin (1 # 5).
Definition fsix_tenths : pyfloat := fin (3 # 5).
Definition ftwelve_half : pyfloat := fin (25 # 2).

Definition near_low_of (h : enriched) : res bool :=
  let low52 := fiftyTwoWeekLow h in
  let price := or_opt (lastPrice (base h)) (currentPrice h) in
  match low52, price with
  | Some l, Some p =>
      if truthy l && truthy p && flt fzero l then let* d := fdiv (fsub p l) l in Ok (fle d ften)
      else Ok false
  | _, _ => Ok false
  end.

Definition tax_candidate (h : enriched) : res (option tax_row) :=
  let val := value_of h in
  match costBasis (base h) with
  | Some cost =>
      if truthy cost && flt fzero cost && flt val cost then
        let loss := fsub val cost in
        let* d := fdiv loss cost in
        let loss_pct := pct_of d in
        if fle loss (fint (-100)) && fle loss_pct (fint (-5)) then
          let* near_low := near_low_of h in
          Ok (Some {| t_symbol := symbol (base h); t_name := name (base h);
                      t_currentValue := val; t_costBasis := cost;
                      unrealizedLoss := fround 2 loss; lossPct := fround 1 loss_pct;
                      estTaxSavings := fround 2 (fmul (fabs loss) tax_rate);
                      nearFiftyTwoWeekLow := near_low |})
        else Ok None
      else Ok None
  | None => Ok None
  end.

Definition tax_loss_candidates (hs : list enriched) : res (list tax_row) :=
  let* rs := mapM tax_candidate hs in
  Ok (sort_by (fun a b => flt (unrealizedLoss a) (unrealizedLoss b)) (somes rs)).

(** *** Tax-loss harvesting candidates in binary64 arithmetic

    The loop of [tax_loss_candidates] again, with the holding's numbers as
    the IEEE 754 binary64 values that Python floats are: [-], [/], [*],
    [abs], [<] and [<=] are the primitive floats' (correctly rounded to
    nearest, ties to even), and [round(x, n)] is CPython's: the exact value
    of [x] rounded half to even at [n] decimals, then converted to the
    nearest double.  The int literals [0], [100], [-100], [-5] of the source
    are the doubles of the same value (Python compares an int with a float
    exactly, and converts [100] to [100.0] in [loss / cost * 100]); the
    literals [0.24] and [0.10] are the doubles nearest them. *)

Definition b64 := PrimFloat.float.

(** The integer [z] as a double (exact for [|z| <= 2^53]). *)
Definition b64_of_Z (z : Z) : b64 :=
  FloatOps.SF2Prim (SpecFloat.binary_normalize 53 1024 z 0 false).

(** The rational [m * 2^e]. *)
Definition b64_mag (m : positive) (e : Z) : Q :=
  match e with
  | Zneg p => Zpos m # Pos.pow 2 p
  | _ => inject_Z (Zpos m * 2 ^ e)
  end.

(** [round(x, n)] for [n] in [1], [2]: [x * 10^n] is rounded half to even
    exactly, and the integer [k] obtained is divided by [10^n] in binary64
    (one correct rounding, as CPython's [float(repr)] round trip gives);
    [inf], [nan] and zeros are returned unchanged, a result [0] keeps the
    sign of [x]. *)
Definition b64_round (n : nat) (x : b64) : b64 :=
  match FloatOps.Prim2SF x with
  | SpecFloat.S754_finite s m e =>
      match round_half_even (b64_mag m e * inject_Z (Zpos (pow10 n))) with
      | Zpos k => FloatOps.SF2Prim (SpecFloat.SFdiv 53 1024 (SpecFloat.S754_finite s k 0)
                                      (SpecFloat.S754_finite false (pow10 n) 0))
      | _ => FloatOps.SF2Prim (SpecFloat.S754_zero s)
      end
  | _ => x
  end.

(** [bool(x)] on a float. *)
Definition b64_truthy (x : b64) : bool := negb (PrimFloat.eqb x (b64_of_Z 0)).

(** [0.24] and [0.10]. *)
Definition tax_rate64 : b64 := PrimFloat.div (b64_of_Z 24) (b64_of_Z 100).
Definition ften64 : b64 := PrimFloat.div (b64_of_Z 10) (b64_of_Z 100).

(** The fields of a holding dict that the loop reads ([None] when a key is
    missing or holds [None]). *)
Record holding64 := {
  h64_symbol : string; h64_name : string;
  h64_costBasis : option b64; h64_currentValue : option b64;
  h64_lastPrice : option b64; h64_currentPrice : option b64;
  h64_fiftyTwoWeekLow : option b64 }.

Record tax_row64 := {
  t64_symbol : string; t64_name : string; t64_currentValue : b64; t64_costBasis : b64;
  t64_unrealizedLoss : b64; t64_lossPct : b64; t64_estTaxSavings : b64;
  t64_nearFiftyTwoWeekLow : bool }.

(** [x or y] on optional floats. *)
Definition b64_or (x y : option b64) : option b64 :=
  match x with Some v => if b64_truthy v then x else y | None => y end.

(** [val = h.get("currentValue") or 0]: the int [0] behaves as [+0.0] in
    every later operation of the loop. *)
Definition value64 (h : holding64) : b64 :=
  match b64_or (h64_currentValue h) None with Some v => v | None => b64_of_Z 0 end.

Definition near_low64 (h : holding64) : bool :=
  match h64_fiftyTwoWeekLow h, b64_or (h64_lastPrice h) (h64_currentPrice h) with
  | Some l, Some p =>
      b64_truthy l && b64_truthy p && PrimFloat.ltb (b64_of_Z 0) l &&
      PrimFloat.leb (PrimFloat.div (PrimFloat.sub p l) l) ften64
  | _, _ => false
  end.

Definition tax_candidate64 (h : holding64) : option tax_row64 :=
  let val := value64 h in
  match h64_costBasis h with
  | Some cost =>
      if b64_truthy cost && PrimFloat.ltb (b64_of_Z 0) cost && PrimFloat.ltb val cost then
        let loss := PrimFloat.sub val cost in
        let loss_pct := PrimFloat.mul (PrimFloat.div loss cost) (b64_of_Z 100) in
        if PrimFloat.leb loss (b64_of_Z (-100)) && PrimFloat.leb loss_pct (b64_of_Z (-5)) then
          Some {| t64_symbol := h64_symbol h; t64_name := h64_name h;
                  t64_currentValue := val; t64_costBasis := cost;
                  t64_unrealizedLoss := b64_round 2 loss; t64_lossPct := b64_round 1 loss_pct;
                  t64_estTaxSavings := b64_round 2 (PrimFloat.mul (PrimFloat.abs loss) tax_rate64);
                  t64_nearFiftyTwoWeekLow := near_low64 h |}
        else None
      else None
  | None => None
  end.

Definition tax_loss_candidates64 (hs : list holding64) : list tax_row64 :=
  sort_by (fun a b => PrimFloat.ltb (t64_unrealizedLoss a) (t64_unrealizedLoss b))
          (somes (map tax_candidate64 hs)).

(** *** Health score *)

Record health := {
  total : Z; diversification : Z; concentration_score : Z; sentiment : Z; costHealth : Z }.

Definition compute_health_score (hs : list enriched) (by_sec : list sector_row)
    (concentration : list conc_row) (analyst_overview : overview) : res health :=
  let n_sectors := Z.of_nat (List.length (filter (fun s => negb (String.eqb (sr_sector s) "Unknown")) by_sec)) in
  let* d8 := fdiv (fint n_sectors) (fint 8) in
  let div_score := fmin (fmul d8 (fint 25)) (fint 25) in
  let conc_penalty := (Z.of_nat (List.length concentration) * 8)%Z in
  let conc_score := Z.max (25 - conc_penalty) 0 in
  let total_covered := totalCovered analyst_overview in
  let* buy_ratio :=
    if (0 <? total_covered)%Z then fdiv (fint (buys analyst_overview)) (fint total_covered)
    else Ok (fin (1 # 2)) in
  let* weighted_upside :=
    match weightedUpside analyst_overview with
    | Some w => Ok w
    | None => Err TypeError
    end in
  let* u20 := fdiv (fmin weighted_upside (fint 20)) (fint 20) in
  let sentiment_score := fmin (fadd (fmul buy_ratio (fint 15)) (fmul u20 (fint 10))) (fint 25) in
  let total_val := fsum (map value_of hs) in
  let total_cost := fsum (map (fun h => or0 (costBasis (base h)))
                              (filter (fun h => truthy_opt (costBasis (base h))) hs)) in
  let* cost_score :=
    if flt fzero total_cost then
      let* gain_ratio := fdiv (fsub total_val total_cost) total_cost in
      let* g := fdiv (fadd gain_ratio ftwo_tenths) fsix_tenths in
      Ok (fmin (fmax (fmul g (fint 25)) fzero) (fint 25))
    else Ok ftwelve_half in
  let* total_r := fround_int (fadd (fadd (fadd div_score (fint conc_score)) sentiment_score) cost_score) in
  let* div_r := fround_int div_score in
  let* sent_r := fround_int sentiment_score in
  let* cost_r := fround_int cost_score in
  Ok {| total := Z.min total_r 100; diversification := div_r; concentration_score := conc_score;
        sentiment := sent_r; costHealth := cost_r |}.

(** *** Dividend income *)

Record div_row := {
  d_symbol : string; d_name : string; d_currentValue : pyfloat;
  d_dividendYield : pyfloat; annualIncome : pyfloat; monthlyIncome : pyfloat }.

Record dividend_summary := {
  totalAnnual : pyfloat; totalMonthly : pyfloat; weightedYield : pyfloat;
  d_holdings : list div_row; payingCount : Z; totalCount : Z }.

Definition dividend_row (h : enriched) : res (option div_row) :=
  let val := value_of h in
  match dividendYield h with
  | Some dy =>
      if truthy dy && flt fzero dy && flt fzero val then
        let annual := fround 2 (fmul val dy) in
        let* m := fdiv annual (fint 12) in
        Ok (Some {| d_symbol := symbol (base h); d_name := name (base h); d_currentValue := val;
                    d_dividendYield := fround 2 (pct_of dy); annualIncome := annual;
                    monthlyIncome := fround 2 m |})
      else Ok None
  | None => Ok None
  end.

Definition dividends_of (total_value : pyfloat) (hs : list enriched) : res dividend_summary :=
  let* rs := mapM dividend_row hs in
  let rows := somes rs in
  let total_annual := fsum (map annualIncome rows) in
  let* weighted_yield := if flt fzero total_value then let* d := fdiv total_annual total_value in Ok (pct_of d)
                         else Ok fzero in
  let* monthly := fdiv total_annual (fint 12) in
  Ok {| totalAnnual := fround 2 total_annual; totalMonthly := fround 2 monthly;
        weightedYield := fround 2 weighted_yield;
        d_holdings := sort_by (fun a b => flt (annualIncome b) (annualIncome a)) rows;
        payingCount := Z.of_nat (List.length rows);
        totalCount := count_if (fun h => negb (isFund h)) hs |}.

(** *** Widget metadata *)

Definition jopt (o : option pyfloat) : json := match o with Some f => JFloat f | None => JNone end.

Definition widget_holding (h : enriched) : json :=
  JDict [("symbol", JStr (symbol (base h))); ("name", JStr (name (base h)));
         ("currentValue", jopt (currentValue (base h)));
         ("pctOfAccount", jopt (pctOfAccount (base h)));
         ("isFund", JBool (isFund h)); ("industryKey", JStr (industryKey h));
         ("industry", JStr (industry h));
         ("sectorWeights", match sectorWeights h with
                           | Some ws => JDict (map (fun kw => (fst kw, JFloat (snd kw))) ws)
                           | None => JNone end);
         ("dividendYield", jopt (dividendYield h));
         ("fiftyTwoWeekHigh", jopt (fiftyTwoWeekHigh h));
         ("fiftyTwoWeekLow", jopt (fiftyTwoWeekLow h));
         ("beta", jopt (beta h)); ("trailingPE", jopt (trailingPE h));
         ("targetMeanPrice", jopt (targetMeanPrice h));
         ("recommendationKey", JStr (recommendationKey h));
         ("nAnalysts", match nAnalysts h with Some n => JInt n | None => JNone end);
         ("currentPrice", jopt (currentPrice h)); ("lastPrice", jopt (lastPrice (base h)))].

Definition sector_row_json (s : sector_row) : json :=
  JDict [("sector", JStr (sr_sector s)); ("value", JFloat (sr_value s));
         ("count", JInt (sr_count s)); ("pct", JFloat (sr_pct s))].

Definition conc_row_json (c : conc_row) : json :=
  JDict [("symbol", JStr (c_symbol c)); ("name", JStr (c_name c)); ("pct", JFloat (c_pct c));
         ("currentValue", JFloat (c_currentValue c)); ("isFund", JBool (c_isFund c));
         ("threshold", JInt (c_threshold c))].

Definition upside_row_json (d : upside_row) : json :=
  JDict [("symbol", JStr (u_symbol d)); ("name", JStr (u_name d));
         ("recommendationKey", JStr (u_recommendationKey d)); ("nAnalysts", JInt (u_nAnalysts d));
         ("targetMeanPrice", jopt (u_targetMeanPrice d)); ("currentPrice", jopt (u_currentPrice d));
         ("upsidePct", jopt (u_upsidePct d)); ("currentValue", jopt (u_currentValue d));
         ("pctOfAccount", jopt (u_pctOfAccount d))].

Definition overview_json (o : overview) : json :=
  JDict [("buys", JInt (buys o)); ("holds", JInt (holds o)); ("sells", JInt (sells o));
         ("totalCovered", JInt (totalCovered o)); ("totalHoldings", JInt (totalHoldings o));
         ("coverageRatio", JFloat (coverageRatio o)); ("weightedUpside", jopt (weightedUpside o));
         ("holdingsByUpside", JList (map upside_row_json (holdingsByUpside o)))].

Definition widget_meta_of (hs : list enriched) (by_sec : list sector_row)
    (conc : list conc_row) (ov : overview) : json :=
  sanitize_for_json
    (JDict [("holdings", JList (map widget_holding hs));
            ("portfolioSectors", JDict (map (fun s => (sr_sector s, JFloat (sr_pct s))) by_sec));
            ("bySector", JList (map sector_row_json by_sec));
            ("concentration", JList (map conc_row_json conc));
            ("analystOverview", overview_json ov)]).

(** *** The whole analysis *)

Record analysis := {
  holdings : list enriched;
  totalValue : pyfloat; totalCost : pyfloat; totalGain : pyfloat;
  a_totalGainPct : pyfloat; (* key "totalGainPct" *)
  bySector : list sector_row; byIndustry : list industry_row;
  concentration : list conc_row; gaps : list string; opportunities : list json;
  industryLabels : list (string * string); analystOverview : overview;
  widgetMeta : json; taxLossCandidates : list tax_row; healthScore : health;
  dividends : dividend_summary }.

Section Analyze.
(** The gap-opportunity step: [fetch_industry_picks] for the first 12
    gaps in a thread pool.  It yields the [(industryLabel, result)] of
    every non-empty result in completion order, or [Err TimeoutError]
    when [as_completed(..., timeout=30)] runs out. *)
Variable fetch_gap_opportunities : list string -> res (list (string * json)).

Definition analyze_portfolio (hs0 : list enriched) : res analysis :=
  let hs := sort_by (fun a b => flt (value_of b) (value_of a)) hs0 in
  let total_value := fsum (map value_of hs) in
  let total_cost := fsum (map (fun h => or0 (costBasis (base h))) hs) in
  let total_gain := fsum (map (fun h => or0 (totalGainDollar (base h))) hs) in
  let* total_gain_pct :=
    if flt fzero total_cost then let* d := fdiv (fsub total_value total_cost) total_cost in Ok (pct_of d)
    else Ok fzero in
  let* by_sec := by_sector total_value hs in
  let* by_ind := by_industry total_value hs in
  let* conc := concentration_rows total_value hs in
  let gap_inds := gap_industries hs in
  let* opps := fetch_gap_opportunities (firstn 12 gap_inds) in
  let opps := map snd (sort_by (fun a b => str_ltb (fst a) (fst b)) opps) in
  let* ov := compute_analyst_overview hs in
  let* tax := tax_loss_candidates hs in
  let* hscore := compute_health_score hs by_sec conc ov in
  let* divs := dividends_of total_value hs in
  Ok {| holdings := hs; totalValue := total_value; totalCost := total_cost;
        totalGain := total_gain; a_totalGainPct := fround 2 total_gain_pct;
        bySector := by_sec; byIndustry := by_ind; concentration := conc;
        gaps := gap_inds; opportunities := opps; industryLabels := industry_labels;
        analystOverview := ov; widgetMeta := widget_meta_of hs by_sec conc ov;
        taxLossCandidates := tax; healthScore := hscore; dividends := divs |}.
End Analyze.

(* ------------------------------------------------------------------ *)
(** ** Historical performance ([portfolio_widgets.py]) *)

(** [_VALID_PERIODS]. *)
Definition valid_periods : list string := ["1d"; "1mo"; "1y"].

(** What [_fetch_ticker_history] returns when it finds data. *)
Record history := {
  h_symbol : string; h_dates : list string; h_closes : list pyfloat; h_currentPrice : pyfloat }.

Record perf_row := {
  hr_symbol : string; hr_name : string; hr_startValue : pyfloat; hr_endValue : pyfloat;
  hr_returnPct : pyfloat; hr_weight : option pyfloat }.

(** The result dict.  [benchmarkValues] and [benchmarkReturn] are keys of
    the full result only, [None] stands for the missing key. *)
Record performance := {
  perf_period : string; perf_dates : list string; portfolioValues : list pyfloat;
  p_startValue : pyfloat; p_endValue : pyfloat; periodReturn : pyfloat;
  periodReturnDollar : pyfloat; bestPerformer : option perf_row;
  worstPerformer : option perf_row; holdingReturns : list perf_row; marketClosed : bool;
  benchmarkValues : option (list pyfloat); benchmarkReturn : option (option pyfloat) }.

(** [_empty_performance(period, market_closed)]. *)
Definition empty_performance (period : string) (market_closed : bool) : performance :=
  {| perf_period := period; perf_dates := []; portfolioValues := []; p_startValue := fzero;
     p_endValue := fzero; periodReturn := fzero; periodReturnDollar := fzero;
     bestPerformer := None; worstPerformer := None; holdingReturns := [];
     marketClosed := market_closed; benchmarkValues := None; benchmarkReturn := None |}.

(** [a <= b] on strings. *)
Definition str_leb (a b : string) : bool := negb (str_ltb b a).

(** [l[i]] and [l[-1]]. *)
Definition py_index {A : Type} (l : list A) (i : nat) : res A :=
  match nth_error l i with Some x => Ok x | None => Err IndexError end.
Definition py_last {A : Type} (l : list A) : res A :=
  match rev l with x :: _ => Ok x | [] => Err IndexError end.

(** [l.index(x)] for an [x] known to be in [l]. *)
Fixpoint index_of (x : string) (l : list string) : option nat :=
  match l with
  | [] => None
  | y :: r => if String.eqb x y then Some 0%nat else option_map S (index_of x r)
  end.

(** [history_map.get(symbol)]. *)
Definition lookup_hist (sym : string) (m : list (string * history)) : option history :=
  option_map snd (find (fun p => String.eqb (fst p) sym) m).

(** [for i, d in enumerate(dates): if d <= date_str: best_price = closes[i]]. *)
Fixpoint best_price_aux (date_str : string) (closes : list pyfloat) (ds : list string)
    (i : nat) (best : option pyfloat) : res (option pyfloat) :=
  match ds with
  | [] => Ok best
  | d :: r =>
      if str_leb d date_str then
        let* c := py_index closes i in best_price_aux date_str closes r (S i) (Some c)
      else best_price_aux date_str closes r (S i) best
  end.

(** [_interpolate_value(symbol, date_str, current_value, history_map)]. *)
Definition interpolate_value (sym date_str : string) (current_value : pyfloat)
    (history_map : list (string * history)) : res pyfloat :=
  match lookup_hist sym history_map with
  | None => Ok current_value
  | Some hist =>
      let curr_price := h_currentPrice hist in
      if negb (truthy curr_price) || fle curr_price fzero then Ok current_value else
      match index_of date_str (h_dates hist) with
      | Some idx =>
          let* c := py_index (h_closes hist) idx in
          let* r := fdiv c curr_price in Ok (fmul current_value r)
      | None =>
          let* best_price := best_price_aux date_str (h_closes hist) (h_dates hist) 0 None in
          match best_price with
          | Some b => let* r := fdiv b curr_price in Ok (fmul current_value r)
          | None => Ok current_value
          end
      end
  end.

(** [sorted(all_dates)] for the set of every date of every history. *)
Definition union_dates (hists : list history) : list string :=
  sort_by str_ltb
    (fold_left (fun acc d => if in_list d acc then acc else (acc ++ [d])%list)
               (flat_map h_dates hists) []).

(** [dict(zip(dates, closes))[date_str]] when present: the last pair wins. *)
Definition lookup_last (k : string) (l : list (string * pyfloat)) : option pyfloat :=
  fold_left (fun acc p => if String.eqb (fst p) k then Some (snd p) else acc) l None.

Section Performance.
(** [_fetch_ticker_history(symbol, period)] (cached, it never raises;
    [None] when there is no data). *)
Variable fetch_ticker_history : string -> string -> option history.
(** Whether the [as_completed(futures, timeout=30)] loop over the
    submitted symbols runs out of time; it then raises [TimeoutError],
    which nothing catches. *)
Variable pool_times_out : list string -> string -> bool.

(** One entry of [holding_returns]. *)
Definition holding_return (history_map : list (string * history)) (h : holding) : res perf_row :=
  let sym := symbol h in
  let cv := or0 (currentValue h) in
  let* rs :=
    match lookup_hist sym history_map with
    | Some hist =>
        match h_dates hist, h_closes hist with
        | _ :: _, start_price :: _ =>
            let* end_price := py_last (h_closes hist) in
            let* ret :=
              if truthy start_price && flt fzero start_price then
                let* d := fdiv (fsub end_price start_price) start_price in Ok (fround 2 (pct_of d))
              else Ok fzero in
            let* start_val :=
              if truthy (h_currentPrice hist) then
                let* r := fdiv start_price (h_currentPrice hist) in Ok (fmul cv r)
              else Ok cv in
            Ok (ret, start_val)
        | _, _ => Ok (fzero, cv)
        end
    | None => Ok (fzero, cv)
    end in
  let '(ret, start_val) := rs in
  Ok {| hr_symbol := sym; hr_name := name h; hr_startValue := fround 2 start_val;
        hr_endValue := fround 2 cv; hr_returnPct := ret; hr_weight := pctOfAccount h |}.

(** The SPY overlay: the values appended so far and the return, an
    exception in the [try] keeping the values already appended. *)
Definition benchmark (period : string) (all_dates : list string) (start_value : pyfloat)
    : list pyfloat * option pyfloat :=
  match fetch_ticker_history "SPY" period with
  | Some spy =>
      match h_dates spy, h_closes spy with
      | _ :: _, spy_start :: _ =>
          if truthy spy_start && flt fzero spy_start then
            match fdiv start_value spy_start with
            | Err _ => ([], None)
            | Ok norm =>
                let spy_date_map := combine (h_dates spy) (h_closes spy) in
                let vals :=
                  snd (fold_left (fun st date_str =>
                         let last_spy := match lookup_last date_str spy_date_map with
                                         | Some c => c | None => fst st end in
                         (last_spy, (snd st ++ [fround 2 (fmul last_spy norm)])%list))
                       all_dates (spy_start, [])) in
                match (let* spy_end := py_last (h_closes spy) in
                       let* d := fdiv (fsub spy_end spy_start) spy_start in
                       Ok (fround 2 (pct_of d))) with
                | Ok r => (vals, Some r)
                | Err _ => (vals, None)
                end
            end
          else ([], None)
      | _, _ => ([], None)
      end
  | None => ([], None)
  end.

(** [fetch_portfolio_performance(holdings, period)]. *)
Definition fetch_portfolio_performance (holdings : list holding) (period0 : string)
    : res performance :=
  let period := if in_list period0 valid_periods then period0 else "1mo" in
  let valid := filter (fun h => flt fzero (or0 (currentValue h))) holdings in
  match valid with
  | [] => Ok (empty_performance period false)
  | _ :: _ =>
      if pool_times_out (map symbol valid) period then Err TimeoutError else
      let history_map :=
        flat_map (fun h => match fetch_ticker_history (symbol h) period with
                           | Some r => [(symbol h, r)] | None => [] end) valid in
      match history_map with
      | [] => Ok (empty_performance period (String.eqb period "1d"))
      | _ :: _ =>
          let all_dates := union_dates (map snd history_map) in
          if (List.length all_dates <? 2)%nat
          then Ok (empty_performance period (String.eqb period "1d")) else
          let* portfolio_values :=
            mapM (fun date_str =>
                    let* day_total :=
                      fold_left (fun acc h =>
                                   let* t := acc in
                                   let* v := interpolate_value (symbol h) date_str
                                               (or0 (currentValue h)) history_map in
                                   Ok (fadd t v))
                                valid (Ok fzero) in
                    Ok (fround 2 day_total))
                 all_dates in
          let* start_value := py_index portfolio_values 0 in
          let* end_value := py_last portfolio_values in
          let period_return_dollar := fround 2 (fsub end_value start_value) in
          let* period_return :=
            if truthy start_value then
              let* d := fdiv (fsub end_value start_value) start_value in Ok (fround 2 (pct_of d))
            else Ok fzero in
          let* holding_returns := mapM (holding_return history_map) valid in
          let holding_returns :=
            sort_by (fun a b => flt (hr_returnPct b) (hr_returnPct a)) holding_returns in
          let best := hd_error holding_returns in
          let worst := match rev holding_returns with x :: _ => Some x | [] => None end in
          let '(benchmark_values, benchmark_return) := benchmark period all_dates start_value in
          Ok {| perf_period := period; perf_dates := all_dates;
                portfolioValues := portfolio_values; p_startValue := start_value;
                p_endValue := end_value; periodReturn := period_return;
                periodReturnDollar := period_return_dollar; bestPerformer := best;
                worstPerformer := worst; holdingReturns := holding_returns;
                marketClosed := false; benchmarkValues := Some benchmark_values;
                benchmarkReturn := Some benchmark_return |}
      end
  end.
End Performance.

(* ------------------------------------------------------------------ *)
(** ** Correlation matrix ([compute_correlation_matrix], portfolio_widgets.py) *)

(** A dict with string keys as an association list: [d[k] = v] replaces
    the value of a present key in place and appends a new key. *)
Fixpoint dict_set {A : Type} (k : string) (v : A) (d : list (string * A)) : list (string * A) :=
  match d with
  | [] => [(k, v)]
  | (k', v') :: r => if String.eqb k' k then (k', v) :: r else (k', v') :: dict_set k v r
  end.

Definition dict_has {A : Type} (k : string) (d : list (string * A)) : bool :=
  existsb (fun p => String.eqb (fst p) k) d.

(** [d[k]].  A missing key raises [KeyError]; [exn] has no constructor of
    that name and the model reports [IndexError], the other [LookupError]
    (a theorem below shows that no lookup of [compute_correlation_matrix]
    fails). *)
Definition dict_lookup {A : Type} (k : string) (d : list (string * A)) : res A :=
  match assoc k d with Some v => Ok v | None => Err IndexError end.

(** A [for] loop threading a state through a body that may raise. *)
Fixpoint foldM {A B : Type} (f : A -> B -> res A) (l : list B) (a : A) : res A :=
  match l with
  | [] => Ok a
  | x :: r => let* a' := f a x in foldM f r a'
  end.

(** [l[i] = x]. *)
Definition py_setitem {A : Type} (l : list A) (i : nat) (x : A) : res (list A) :=
  if (i <? List.length l)%nat then Ok (firstn i l ++ x :: skipn (S i) l)%list else Err IndexError.

(** [matrix[i][j] = x]: the row [matrix[i]] is updated in place (each row is
    a list of its own, [[0.0] * n for _ in range(n)]). *)
Definition matrix_set (m : list (list pyfloat)) (i j : nat) (x : pyfloat)
    : res (list (list pyfloat)) :=
  let* row := py_index m i in
  let* row' := py_setitem row j x in
  py_setitem m i row'.

(** [m[i][j]], [None] out of range. *)
Definition cell_at (m : list (list pyfloat)) (i j : nat) : option pyfloat :=
  match nth_error m i with Some row => nth_error row j | None => None end.

(** [a == b] on floats. *)
Definition feq (a b : pyfloat) : bool :=
  match a, b with
  | Fin x, Fin y => Qeq_bool x y
  | PosInf, PosInf | NegInf, NegInf => true
  | _, _ => false
  end.

(** The [targets] loop: individual stocks with a value that is not [<= 0],
    in order, stopping once [len(targets) >= max_holdings] (checked after an
    append). *)
Fixpoint select_targets (max_holdings : Z) (hs targets : list enriched) : list enriched :=
  match hs with
  | [] => targets
  | h :: r =>
      if is_fund h then select_targets max_holdings r targets
      else if fle (value_of h) fzero then select_targets max_holdings r targets
      else
        let targets' := (targets ++ [h])%list in
        if (max_holdings <=? Z.of_nat (List.length targets'))%Z then targets'
        else select_targets max_holdings r targets'
  end.

(** [rets] for one symbol: [(closes[i] - closes[i-1]) / closes[i-1]] for
    [i] in [range(1, len(closes))] when [closes[i-1] > 0]. *)
Definition daily_returns (closes : list pyfloat) : res (list pyfloat) :=
  let* rs := mapM (fun pc => let '(prev, cur) := pc in
                     if flt fzero prev then let* d := fdiv (fsub cur prev) prev in Ok [d]
                     else Ok []) (combine closes (tl closes)) in
  Ok (List.concat rs).

Record high_corr := { hc_pair : string; hc_corr : pyfloat }.

Record corr_result := {
  cm_symbols : list string; cm_matrix : list (list pyfloat); highCorrelations : list high_corr }.

Definition empty_corr : corr_result :=
  {| cm_symbols := []; cm_matrix := []; highCorrelations := [] |}.

Section Correlation.
(** [_fetch_ticker_history(symbol, "3mo")]; [None] also stands for a
    future whose [result(timeout=10)] raised (the handler passes). *)
Variable fetch_ticker_history : string -> string -> option history.
(** Whether [as_completed(futures, timeout=30)] runs out of time on the
    submitted symbols; it then raises [TimeoutError]. *)
Variable pool_times_out : list string -> string -> bool.
(** [x ** 0.5] on a float. *)
Variable fsqrt : pyfloat -> pyfloat.
(** [x ** 2] on a float: its square, or [OverflowError] when the square
    of a finite float is too large for a float. *)
Variable fsquare : pyfloat -> res pyfloat.

(** [_pearson(xs, ys)]. *)
Definition pearson (xs ys : list pyfloat) : res pyfloat :=
  let n := List.length xs in
  if (n <? 3)%nat then Ok fzero else
  let* mean_x := fdiv (fsum xs) (fint (Z.of_nat n)) in
  let* mean_y := fdiv (fsum ys) (fint (Z.of_nat n)) in
  let* cov_terms := mapM (fun i => let* x := py_index xs i in let* y := py_index ys i in
                                  Ok (fmul (fsub x mean_x) (fsub y mean_y))) (seq 0 n) in
  let cov := fsum cov_terms in
  let* sq_x := mapM (fun i => let* x := py_index xs i in fsquare (fsub x mean_x)) (seq 0 n) in
  let std_x := fsqrt (fsum sq_x) in
  let* sq_y := mapM (fun i => let* y := py_index ys i in fsquare (fsub y mean_y)) (seq 0 n) in
  let std_y := fsqrt (fsum sq_y) in
  if feq std_x fzero || feq std_y fzero then Ok fzero else
  let* c := fdiv cov (fmul std_x std_y) in
  Ok (fround 4 c).

(** The body of the double loop at [(i, j)], on the matrix and
    [high_corrs]. *)
Definition corr_step (returns_map : list (string * list pyfloat)) (symbols : list string)
    (i : nat) (st : list (list pyfloat) * list high_corr) (j : nat)
    : res (list (list pyfloat) * list high_corr) :=
  let '(matrix, high_corrs) := st in
  if Nat.eqb i j then
    let* m := matrix_set matrix i j (fint 1) in Ok (m, high_corrs)
  else if (i <? j)%nat then
    let* si := py_index symbols i in
    let* sj := py_index symbols j in
    let* xs := dict_lookup si returns_map in
    let* ys := dict_lookup sj returns_map in
    let* corr := pearson xs ys in
    let* m1 := matrix_set matrix i j corr in
    let* m2 := matrix_set m1 j i corr in
    Ok (m2, if flt (fin (4 # 5)) (fabs corr)
            then (high_corrs ++ [{| hc_pair := si ++ "/" ++ sj; hc_corr := corr |}])%list
            else high_corrs)
  else Ok (matrix, high_corrs).

(** [compute_correlation_matrix(holdings, max_holdings)].  [history_map]
    is filled in the order of [targets] rather than of completion: its
    value for a symbol does not depend on the order. *)
Definition compute_correlation_matrix (holdings : list enriched) (max_holdings : Z)
    : res corr_result :=
  let targets := select_targets max_holdings holdings [] in
  if (List.length targets <? 2)%nat then Ok empty_corr else
  if pool_times_out (map (fun h => symbol (base h)) targets) "3mo" then Err TimeoutError else
  let history_map :=
    fold_left (fun hm h =>
                 let sym := symbol (base h) in
                 match fetch_ticker_history sym "3mo" with
                 | Some result =>
                     if (5 <=? List.length (h_closes result))%nat then dict_set sym result hm else hm
                 | None => hm
                 end) targets [] in
  let symbols := map (fun h => symbol (base h))
                     (filter (fun h => dict_has (symbol (base h)) history_map) targets) in
  if (List.length symbols <? 2)%nat then Ok empty_corr else
  let* returns_map :=
    foldM (fun rm sym =>
             let* hist := dict_lookup sym history_map in
             let* rets := daily_returns (h_closes hist) in
             Ok (dict_set sym rets rm)) symbols [] in
  let* lens := mapM (fun s => let* r := dict_lookup s returns_map in Ok (List.length r)) symbols in
  let* min_len := match lens with
                  | l0 :: lr => Ok (fold_left Nat.min lr l0)
                  | [] => Err ValueError
                  end in
  let* returns_map :=
    foldM (fun rm sym =>
             let* r := dict_lookup sym rm in Ok (dict_set sym (firstn min_len r) rm))
          symbols returns_map in
  let n := List.length symbols in
  let* st := foldM (fun st i => foldM (corr_step returns_map symbols i) (seq 0 n) st)
                   (seq 0 n) (repeat (repeat fzero n) n, []) in
  let '(matrix, high_corrs) := st in
  Ok {| cm_symbols := symbols; cm_matrix := matrix;
        highCorrelations := sort_by (fun a b => flt (fabs (hc_corr b)) (fabs (hc_corr a)))
                                    high_corrs |}.
End Correlation.

(** A matrix equal to its transpose, cell by cell. *)
Definition symmetric (m : list (list pyfloat)) : Prop :=
  forall a b, cell_at m a b = cell_at m b a.

(** The invariant of the double loop of [compute_correlation_matrix]
    after the cells before [(i, j)] have been visited. *)
Definition corr_inv (n i j : nat) (st : list (list pyfloat) * list high_corr) : Prop :=
  List.length (fst st) = n /\ Forall (fun row => List.length row = n) (fst st) /\
  symmetric (fst st) /\
  (forall a, (a < i \/ (a = i /\ a < j))%nat -> cell_at (fst st) a a = Some (fint 1)) /\
  Forall (fun hc => flt (fin (4 # 5)) (fabs (hc_corr hc)) = true) (snd st).

Local Close Scope string_scope.

(* ------------------------------------------------------------------ *)
(** ** Properties as the specification words them *)

Local Open Scope string_scope.

(** The value-weight percentage the concentration check uses: the
    holding's [pctOfAccount] when present, else [currentValue / totalValue
    * 100] (defined when the total is positive). *)
Definition weight_pct_spec (total_value : pyfloat) (h : enriched) : option pyfloat :=
  match pctOfAccount (base h) with
  | Some p => Some p
  | None =>
      if flt fzero total_value then
        match fdiv (value_of h) total_value with Ok d => Some (pct_of d) | Err _ => None end
      else None
  end.

(** 15% for an individual holding, 30% for a fund/ETF. *)
Definition threshold_spec (h : enriched) : Z := if is_fund h then 30%Z else 15%Z.

(** Flagged: the percentage strictly exceeds the threshold. *)
Definition concentration_flag_spec (total_value : pyfloat) (h : enriched) : bool :=
  match weight_pct_spec total_value h with
  | Some p => flt (fint (threshold_spec h)) p
  | None => false
  end.

(** A plain CSV holding worth [v], [pct] of the account, with no
    enrichment data. *)
Definition csv_holding (s : string) (v pct : Q) (cost : option Q) : holding :=
  {| symbol := s; name := s; quantity := Some (fint 1); lastPrice := None;
     currentValue := Some (fin v); costBasis := option_map fin cost; costBasisPerShare := None;
     totalGainDollar := None; totalGainPct := None; pctOfAccount := Some (fin pct) |}.

Definition stock_at (pct : Q) : enriched := enrichment_fallback (csv_holding "XYZ" 1000 pct None).

(** A holding that cost [cost] and is worth [value], as doubles, with no
    price or 52-week data. *)
Definition holding64_at (cost value : b64) : holding64 :=
  {| h64_symbol := "XYZ"; h64_name := "XYZ"; h64_costBasis := Some cost;
     h64_currentValue := Some value; h64_lastPrice := None; h64_currentPrice := None;
     h64_fiftyTwoWeekLow := None |}.

(** The doubles [2^-60] and [895.9375 = 14335 * 2^-4], both exact. *)
Definition b64_two_pow_m60 : b64 := FloatOps.SF2Prim (SpecFloat.S754_finite false 1 (-60)).
Definition b64_895_9375 : b64 := FloatOps.SF2Prim (SpecFloat.S754_finite false 14335 (-4)).

(** A fund worth 10000 with look-through weights. *)
Definition fund_10000 : enriched :=
  {| base := csv_holding "FUND" 10000 100 None; sector := "Fund/ETF"; industry := "Unknown";
     industryKey := ""; currentPrice := None; targetMeanPrice := None; nAnalysts := None;
     recommendationKey := "N/A";
     sectorWeights := Some [("Technology", fin (3 # 5)); ("Healthcare", fin (2 # 5))];
     isFund := true; dividendYield := None; fiftyTwoWeekHigh := None; fiftyTwoWeekLow := None;
     beta := None; trailingPE := None |}.

(** A holding covered by five analysts rating it "sell", target price 1
    against a price of 100, worth 1000 against a cost of 2000, a quarter
    of the account, in no known sector. *)
Definition bearish_holding (s : string) : enriched :=
  {| base := csv_holding s 1000 25 (Some 2000); sector := "Unknown"; industry := "Unknown";
     industryKey := ""; currentPrice := Some (fint 100); targetMeanPrice := Some (fint 1);
     nAnalysts := Some 5%Z; recommendationKey := "sell"; sectorWeights := None; isFund := false;
     dividendYield := None; fiftyTwoWeekHigh := None; fiftyTwoWeekLow := None;
     beta := None; trailingPE := None |}.

(** The sector the code counts a holding in: a fund's first largest
    weight, else its own sector. *)
Definition counted_sector (h : enriched) : string :=
  match sectorWeights h with
  | Some (w0 :: ws') => top_sector w0 ws'
  | _ => plain_sector h
  end.

(** What a holding adds to the bucket of sector [s]: [currentValue *
    weight] for each weight of a fund under [s], its whole value for a
    holding in [s]. *)
Definition contributions (s : string) (h : enriched) : list pyfloat :=
  match sectorWeights h with
  | Some ((_ :: _) as ws) =>
      map (fun kw => fmul (value_of h) (snd kw)) (filter (fun kw => String.eqb (fst kw) s) ws)
  | _ => if String.eqb (plain_sector h) s then [value_of h] else []
  end.

(** Whether [s] gets a bucket because of [h]. *)
Definition mentions (s : string) (h : enriched) : bool :=
  match sectorWeights h with
  | Some ((_ :: _) as ws) => existsb (fun kw => String.eqb (fst kw) s) ws
  | _ => String.eqb (plain_sector h) s
  end.

Fixpoint lookup_sector (s : string) (m : list sector_entry) : option sector_entry :=
  match m with
  | [] => None
  | e :: r => if String.eqb (se_sector e) s then Some e else lookup_sector s r
  end.

Local Close Scope string_scope.

(* ------------------------------------------------------------------ *)
(** ** Helpers and samples for the further properties *)

(** [sum(...)] of integer counts. *)
Definition sumZ (l : list Z) : Z := fold_right Z.add 0%Z l.

(** Sector names and the total count of a [sector_map]. *)
Definition sector_keys (m : list sector_entry) : list string := map se_sector m.
Definition sector_count_sum (m : list sector_entry) : Z := sumZ (map se_count m).

(** The update of an existing entry in the industry loop. *)
Definition industry_bump (e : industry_entry) (v : pyfloat) : industry_entry :=
  {| ie_industry := ie_industry e; ie_industryKey := ie_industryKey e;
     ie_sector := ie_sector e; ie_value := fadd (ie_value e) v;
     ie_count := (ie_count e + 1)%Z |}.

(** An analyst overview with no coverage and a weighted upside of 5%. *)
Definition overview_upside5 : overview :=
  {| buys := 0; holds := 0; sells := 0; totalCovered := 0; totalHoldings := 0;
     coverageRatio := fzero; weightedUpside := Some (fint 5); holdingsByUpside := [] |}.

Local Open Scope string_scope.

(** A dividend payer worth 2000 with a 3% yield. *)
Definition dividend_payer : enriched :=
  {| base := csv_holding "KO" 2000 20 None; sector := "Consumer Defensive";
     industry := "Beverages - Non-Alcoholic"; industryKey := "beverages-non-alcoholic";
     currentPrice := Some (fint 60); targetMeanPrice := Some (fint 66); nAnalysts := Some 20%Z;
     recommendationKey := "buy"; sectorWeights := None; isFund := false;
     dividendYield := Some (fin (3 # 100)); fiftyTwoWeekHigh := None; fiftyTwoWeekLow := None;
     beta := None; trailingPE := None |}.

(** A sample enriched portfolio: a fund, two covered holdings, a dividend
    payer and an uncovered stock. *)
Definition sample_portfolio : list enriched :=
  [fund_10000; bearish_holding "AAPL"; bearish_holding "MSFT"; dividend_payer; stock_at 10].

(** A price-history source with two trading days for AAPL and for SPY. *)
Definition sample_history (sym period : string) : option history :=
  if String.eqb sym "AAPL" then
    Some {| h_symbol := "AAPL"; h_dates := ["2024-01-02"; "2024-01-03"];
            h_closes := [fint 100; fint 110]; h_currentPrice := fint 110 |}
  else if String.eqb sym "SPY" then
    Some {| h_symbol := "SPY"; h_dates := ["2024-01-02"; "2024-01-03"];
            h_closes := [fint 400; fint 420]; h_currentPrice := fint 420 |}
  else None.

Definition sample_perf_holdings : list holding :=
  [csv_holding "AAPL" 1000 80 None; csv_holding "MSFT" 250 20 None; csv_holding "CASH" 0 0 None].

(** [x ** 0.5] approximated by an integer square root:
    [sqrt(p / q)] as [isqrt(p * q) / q]. *)
Definition fsqrt_sample (x : pyfloat) : pyfloat :=
  match x with
  | Fin q => fin (Z.sqrt (Qnum q * Zpos (Qden q))%Z # Qden q)
  | _ => x
  end.

(** A squaring that never overflows. *)
Definition fsquare_sample (x : pyfloat) : res pyfloat := Ok (fmul x x).

Definition closes_history (sym : string) (closes : list Z) : history :=
  {| h_symbol := sym;
     h_dates := firstn (List.length closes)
                  ["2024-01-02"; "2024-01-03"; "2024-01-04"; "2024-01-05"; "2024-01-08"; "2024-01-09"];
     h_closes := map fint closes; h_currentPrice := fint (last closes 0%Z) |}.

(** Three-month histories: AAPL and MSFT move together, XYZ has five
    closes, TSLA too few to be used. *)
Definition corr_history (sym period : string) : option history :=
  if String.eqb sym "AAPL" then Some (closes_history "AAPL" [100; 102; 101; 105; 107; 110]%Z)
  else if String.eqb sym "MSFT" then Some (closes_history "MSFT" [200; 204; 202; 210; 214; 220]%Z)
  else if String.eqb sym "XYZ" then Some (closes_history "XYZ" [50; 49; 51; 50; 52]%Z)
  else if String.eqb sym "TSLA" then Some (closes_history "TSLA" [10; 11; 12]%Z)
  else None.

Definition corr_holdings : list enriched :=
  [fund_10000; enrichment_fallback (csv_holding "AAPL" 1000 40 None);
   enrichment_fallback (csv_holding "MSFT" 500 20 None);
   enrichment_fallback (csv_holding "XYZ" 500 20 None);
   enrichment_fallback (csv_holding "TSLA" 500 20 None);
   enrichment_fallback (csv_holding "CASH" 0 0 None)].

(** A [history_map] with the AAPL and MSFT histories above. *)
Definition sample_history_map : list (string * history) :=
  [("AAPL", closes_history "AAPL" [100; 102; 101; 105; 107; 110]%Z);
   ("MSFT", closes_history "MSFT" [200; 204; 202; 210; 214; 220]%Z)].

Local Close Scope string_scope.

(* ================================================================== *)
(** * Theorems *)

(** ** Sanitization *)

(** C4: for every JSON-like tree of dicts, lists and scalars,
    [_sanitize_for_json] replaces each [nan] or infinite float, at any
    depth, by null and leaves every other value (keys, order, finite floats,
    ints, strings, booleans, null) unchanged; the result holds no
    non-finite float. *)
Theorem sanitize_for_json_sound (t : json) :
  sanitized_from t (sanitize_for_json t) /\ all_finite (sanitize_for_json t) = true.
Proof.
  induction t using json_nested_ind; simpl.
  - split; [constructor | reflexivity].
  - split; [constructor | reflexivity].
  - split; [constructor | reflexivity].
  - destruct f; simpl; split; try reflexivity; constructor; reflexivity.
  - split; [constructor | reflexivity].
  - induction H as [| x l [Hx Fx] _ [IHs IHf]]; simpl.
    + split; [constructor; constructor | reflexivity].
    + inversion IHs; subst. split.
      * constructor. constructor; assumption.
      * simpl in IHf. rewrite Fx, IHf. reflexivity.
  - induction H as [| [k v] kvs [Hx Fx] _ [IHs IHf]]; simpl in *.
    + split; [constructor; constructor | reflexivity].
    + inversion IHs; subst. split.
      * constructor. constructor; [split; [reflexivity | assumption] | assumption].
      * simpl in IHf. rewrite Fx, IHf. reflexivity.
Qed.


(** ** Generic facts: [mapM], rounding *)

Lemma mapM_Forall2 {A B : Type} (f : A -> res B) (l : list A) (l' : list B) :
  mapM f l = Ok l' -> Forall2 (fun a b => f a = Ok b) l l'.
Proof.
  revert l'; induction l as [| x r IH]; simpl; intros l' H.
  - injection H as <-. constructor.
  - destruct (f x) as [y |] eqn:Hf; simpl in H; [| discriminate].
    destruct (mapM f r) as [ys |] eqn:Hr; simpl in H; [| discriminate].
    injection H as <-. constructor; auto.
Qed.

Lemma round_half_even_close (q : Q) :
  Qabs (inject_Z (round_half_even q) - q) <= 1 # 2.
Proof.
  unfold round_half_even.
  pose proof (Qfloor_le q) as H1. pose proof (Qlt_floor q) as H2.
  set (f := Qfloor q) in *.
  rewrite inject_Z_plus in H2. change (inject_Z 1) with 1 in H2.
  apply Qabs_Qle_condition.
  destruct (Qcompare (q - inject_Z f) (1 # 2)) eqn:Hc.
  - apply Qeq_alt in Hc.
    destruct (Z.even f); rewrite ?inject_Z_plus; change (inject_Z 1) with 1; split; lra.
  - apply Qlt_alt in Hc. split; lra.
  - apply Qgt_alt in Hc. rewrite inject_Z_plus. change (inject_Z 1) with 1. split; lra.
Qed.

(** Case analysis of a [res] computation that returned [Ok]. *)
Ltac res_inv H :=
  repeat (cbn [bind] in H;
    match type of H with
    | Err _ = Ok _ => discriminate H
    | bind (Err _) _ = _ => discriminate H
    | bind (if ?c then _ else _) _ = _ => destruct c eqn:?
    | bind (match ?x with _ => _ end) _ = _ => destruct x eqn:?
    | bind ?m _ = _ => destruct m eqn:?
    | (if ?c then _ else _) = _ => destruct c eqn:?
    | (match ?x with _ => _ end) = _ => destruct x eqn:?
    end).

(** ** The CSV normalizer *)

Lemma row_to_holding_value (st : list cell -> string) cols row h :
  row_to_holding st cols row = Ok (Some h) -> exists f, currentValue h = Some f.
Proof.
  intros H. unfold row_to_holding in H. res_inv H; try discriminate H; injection H as <-; eexists; reflexivity.
Qed.

Lemma upsert_symbols (h : holding) (m : list holding) :
  (In (symbol h) (map symbol m) -> map symbol (upsert h m) = map symbol m) /\
  (~ In (symbol h) (map symbol m) -> map symbol (upsert h m) = map symbol m ++ [symbol h]).
Proof.
  induction m as [| m0 r [IH1 IH2]]; simpl.
  - split; [intros [] | reflexivity].
  - destruct (String.eqb_spec (symbol m0) (symbol h)) as [E | E]; simpl.
    + split; intros Hin; [reflexivity | exfalso; apply Hin; left; exact E].
    + split; intros Hin.
      * f_equal. apply IH1. destruct Hin as [Hin | Hin]; [congruence | exact Hin].
      * f_equal. apply IH2. intros Hr; apply Hin; right; exact Hr.
Qed.

Lemma upsert_nodup (h : holding) (m : list holding) :
  NoDup (map symbol m) -> NoDup (map symbol (upsert h m)).
Proof.
  intros Hnd. destruct (upsert_symbols h m) as [H1 H2].
  destruct (in_dec string_dec (symbol h) (map symbol m)) as [Hin | Hin].
  - rewrite H1; auto.
  - rewrite H2 by exact Hin. apply NoDup_app; auto.
    + constructor; [intros [] | constructor].
    + intros x Hx [<- | []]. contradiction.
Qed.

Lemma upsert_forall (P : holding -> Prop) (h : holding) (m : list holding) :
  (forall a b, P a -> P b -> P (merge_into a b)) ->
  P h -> Forall P m -> Forall P (upsert h m).
Proof.
  intros HP Ph; induction 1 as [| m0 r Pm0 Pr IH]; simpl.
  - constructor; auto.
  - destruct (String.eqb (symbol m0) (symbol h)); constructor; auto.
Qed.

Lemma consolidate_inv (P : holding -> Prop) (hs : list holding) :
  (forall a b, P a -> P b -> P (merge_into a b)) ->
  Forall P hs ->
  NoDup (map symbol (consolidate hs)) /\ Forall P (consolidate hs).
Proof.
  intros HP Hhs. unfold consolidate.
  assert (G : forall acc, NoDup (map symbol acc) -> Forall P acc ->
            NoDup (map symbol (fold_left (fun merged h => upsert h merged) hs acc)) /\
            Forall P (fold_left (fun merged h => upsert h merged) hs acc)).
  { induction Hhs as [| x r Px _ IH]; simpl; intros acc Hn Hf.
    - auto.
    - apply IH; [apply upsert_nodup; exact Hn | apply upsert_forall; auto]. }
  apply G; constructor.
Qed.

Lemma recalc_one_shape (tv : pyfloat) (h h' : holding) :
  recalc_one tv h = Ok h' ->
  symbol h' = symbol h /\ currentValue h' = currentValue h /\
  (flt fzero tv = true -> exists d, fdiv (or0 (currentValue h)) tv = Ok d /\
                                   pctOfAccount h' = Some (fround 2 (fmul d fhundred))).
Proof.
  intros H. unfold recalc_one in H.
  destruct (flt fzero tv) eqn:Hpos.
  - destruct (fdiv (or0 (currentValue h)) tv) as [d |] eqn:Hd; simpl in H; [| discriminate].
    res_inv H; injection H as <-; simpl; repeat split; eauto.
  - res_inv H; injection H as <-; simpl; repeat split; intros; discriminate.
Qed.

Lemma Forall2_map_eq {A B C : Type} (R : A -> B -> Prop) (f : A -> C) (g : B -> C) l l' :
  (forall a b, R a b -> g b = f a) -> Forall2 R l l' -> map g l' = map f l.
Proof. intros Hfg; induction 1; simpl; f_equal; auto. Qed.

Lemma somes_Forall {A B : Type} (f : A -> res (option B)) (P : B -> Prop) l l' :
  (forall a b, f a = Ok (Some b) -> P b) ->
  Forall2 (fun a o => f a = Ok o) l l' -> Forall P (somes l').
Proof.
  intros Hf; induction 1 as [| a o l l' Ha _ IH]; simpl; [constructor |].
  destruct o as [b |]; simpl; [constructor; eauto | exact IH].
Qed.


(** ** Exceptions of [parse_portfolio_csv] *)

Lemma bind_err {A B : Type} (m : res A) (k : A -> res B) e :
  bind m k = Err e -> m = Err e \/ exists a, m = Ok a /\ k a = Err e.
Proof. destruct m as [a | e']; simpl; intros H; [right; eauto | left; congruence]. Qed.

Lemma mapM_err {A B : Type} (f : A -> res B) l e :
  mapM f l = Err e -> exists x, In x l /\ f x = Err e.
Proof.
  induction l as [| x r IH]; simpl; [discriminate |]. intros H.
  apply bind_err in H as [H | (y & _ & H)]; [eauto |].
  apply bind_err in H as [H | (ys & _ & H)]; [| discriminate].
  destruct (IH H) as (z & Hz & Hfz); eauto.
Qed.

Lemma mapM_ok {A B : Type} (f : A -> res B) l :
  (forall x, In x l -> exists y, f x = Ok y) -> exists l', mapM f l = Ok l'.
Proof.
  induction l as [| x r IH]; simpl; intros H; [eauto |].
  destruct (H x (or_introl eq_refl)) as (y & ->). simpl.
  destruct IH as (ys & ->); [intros; apply H; auto |]. simpl; eauto.
Qed.

Lemma tokenize_err st field fields cs e :
  tokenize st field fields cs = Err e -> e = ParserError.
Proof.
  revert st field fields. induction cs as [| c r IH]; intros st field fields; simpl.
  - destruct st; congruence.
  - destruct (tok_step st field fields c) as [st' field' fields' | record]; [apply IH |].
    intros H. apply bind_err in H as [H | (rs & _ & H)]; [exact (IH _ _ _ H) | discriminate].
Qed.

Lemma read_csv_err text e :
  read_csv text = Err e -> e = EmptyDataError \/ e = ParserError.
Proof.
  unfold read_csv. intros H. apply bind_err in H as [H | (recs & _ & H)].
  { right. exact (tokenize_err _ _ _ _ _ H). }
  destruct recs as [| hdr body]; [injection H; auto |].
  apply bind_err in H as [H | (rs & _ & H)]; [| discriminate].
  apply mapM_err in H as (line & _ & H).
  destruct (_ <? _)%nat in H; [injection H; auto | discriminate].
Qed.

Lemma clean_money_err g e : clean_money g = Err e -> e = ValueError.
Proof. destruct g as [| [|] |]; simpl; try discriminate. congruence. Qed.

Lemma row_to_holding_err st cols row e :
  row_to_holding st cols row = Err e -> e = ValueError.
Proof.
  unfold row_to_holding. destruct (skipped_symbol _); [discriminate |]. intros H.
  repeat (apply bind_err in H as [H | (? & _ & H)]; [exact (clean_money_err _ _ H) |]).
  repeat match type of H with context [match ?x with _ => _ end] => destruct x end;
    discriminate H.
Qed.

Lemma fdiv_ok (a b : pyfloat) :
  (forall y, b = Fin y -> Qeq_bool y 0 = false) -> exists d, fdiv a b = Ok d.
Proof.
  intros H. destruct b as [y | | |]; simpl; [rewrite (H y eq_refl) | ..]; destruct a; eauto.
Qed.

Lemma truthy_nonzero (f : pyfloat) y : truthy f = true -> f = Fin y -> Qeq_bool y 0 = false.
Proof. intros H ->. simpl in H. destruct (Qeq_bool y 0); [discriminate | reflexivity]. Qed.

Lemma fzero_lt_nonzero (tv : pyfloat) y : flt fzero tv = true -> tv = Fin y -> Qeq_bool y 0 = false.
Proof.
  intros H ->. unfold flt, fzero, fint, fin, Qltb in H. change (Qred (inject_Z 0)) with 0 in H.
  destruct (Qcompare_spec 0 y) as [E | E | E]; try discriminate.
  apply not_true_iff_false. intros E'. apply Qeq_bool_eq in E'. rewrite E' in E. discriminate.
Qed.

Lemma recalc_one_ok tv h : exists h', recalc_one tv h = Ok h'.
Proof.
  unfold recalc_one.
  destruct (flt fzero tv) eqn:Hpos.
  - destruct (fdiv_ok (or0 (currentValue h)) tv (fun y => fzero_lt_nonzero tv y Hpos)) as (d & ->).
    simpl. shelve.
  - simpl. shelve.
  Unshelve.
  all: destruct (costBasis h) as [cost |] eqn:Hc;
    [destruct (truthy cost) eqn:Htc;
      [destruct (fdiv_ok (fsub (or0 (currentValue h)) cost) cost
                  (fun y => truthy_nonzero cost y Htc)) as (d' & ->) | ] | ];
    simpl;
    destruct (quantity h) as [qty |]; simpl; eauto;
    rewrite ?Htc; simpl; eauto;
    destruct (truthy qty) eqn:Htq; simpl; eauto;
    destruct (fdiv_ok cost qty (fun y => truthy_nonzero qty y Htq)) as (d'' & ->); simpl; eauto.
Qed.

Lemma strip_trailer_blank (lines : list string) (k : nat) :
  Forall (fun l => strip l = EmptyString) lines -> strip_trailer lines [] k = [].
Proof.
  induction 1 as [| l r Hl _ IH]; [reflexivity |].
  simpl. rewrite Hl. apply IH.
Qed.






(** ** Manual entry *)

(** C9 counterexample: [shares = "nan"] passes the [shares <= 0] test
    ([nan <= 0] is false), so the holding is kept with quantity [nan]; an
    int [10**400] as shares makes [float()] raise [OverflowError], which
    the [except (TypeError, ValueError)] clause does not catch. *)
Lemma build_holdings_from_manual_nan_shares :
  match build_holdings_from_manual manual_entries_nan with
  | Ok [h] => quantity h = Some NaN
  | _ => False
  end /\
  build_holdings_from_manual manual_entries_big_int = Err OverflowError.
Proof. split; vm_compute; reflexivity. Qed.

(** ** Concentration risk *)

Lemma truthy_false_flt (k : Z) (p : pyfloat) :
  (0 <= k)%Z -> truthy p = false -> flt (fint k) p = false.
Proof.
  intros Hk Hp. destruct p as [q | | |]; try discriminate. simpl in Hp.
  apply negb_false_iff, Qeq_bool_eq in Hp.
  unfold flt, fint, fin, Qltb. rewrite Hp.
  destruct (Qcompare_spec (Qred (inject_Z k)) 0) as [E | E | E]; [reflexivity | | reflexivity].
  rewrite Qred_correct in E. rewrite Zle_Qle in Hk. exfalso. change (inject_Z 0) with 0 in Hk. lra.
Qed.

Lemma concentration_of_spec (tv : pyfloat) (h : enriched) :
  exists o, concentration_of tv h = Ok o /\
    match o with
    | Some r => concentration_flag_spec tv h = true /\ c_symbol r = symbol (base h) /\
                c_threshold r = threshold_spec h
    | None => concentration_flag_spec tv h = false
    end.
Proof.
  unfold concentration_of, concentration_flag_spec, weight_pct_spec, threshold_spec, threshold_of.
  assert (Hk : (0 <= (if is_fund h then 30 else 15))%Z) by (destruct (is_fund h); lia).
  set (k := if is_fund h then 30%Z else 15%Z) in *.
  assert (G : forall p, exists o,
             (if truthy p && flt (fint k) p then
                Ok (Some {| c_symbol := symbol (base h); c_name := name (base h); c_pct := fround 1 p;
                            c_currentValue := value_of h; c_isFund := is_fund h; c_threshold := k |})
              else Ok None) = Ok o /\
             match o with
             | Some r => flt (fint k) p = true /\ c_symbol r = symbol (base h) /\ c_threshold r = k
             | None => flt (fint k) p = false
             end).
  { intros p. destruct (truthy p) eqn:Ht; cbn [andb].
    - destruct (flt (fint k) p) eqn:Hf; eexists; (split; [reflexivity | simpl; repeat split; auto]).
    - eexists; split; [reflexivity |]. apply truthy_false_flt; assumption. }
  destruct (pctOfAccount (base h)) as [p |]; cbn [bind]; [apply G |].
  destruct (flt fzero tv) eqn:Hpos; cbn [bind]; [| eexists; split; [reflexivity | reflexivity]].
  destruct (fdiv_ok (value_of h) tv (fun y => fzero_lt_nonzero tv y Hpos)) as (d & Hd).
  rewrite Hd. cbn [bind]. apply G.
Qed.

(** C8: for every total value and holdings list, the concentration step
    never raises, and it flags exactly the holdings whose value-weight
    percentage ([pctOfAccount] when present, else [currentValue /
    totalValue * 100]) strictly exceeds the threshold (30 for a fund/ETF,
    15 otherwise), in holdings order, each row carrying its threshold.  A
    non-fund holding at exactly 15.00% is not flagged; one at 15.01% is. *)
Theorem concentration_rows_spec (tv : pyfloat) (hs : list enriched) :
  (exists rows, concentration_rows tv hs = Ok rows /\
     map c_symbol rows = map (fun h => symbol (base h)) (filter (concentration_flag_spec tv) hs) /\
     map c_threshold rows = map threshold_spec (filter (concentration_flag_spec tv) hs)) /\
  concentration_rows tv [stock_at 15] = Ok [] /\
  map c_symbol (match concentration_rows tv [stock_at (1501 # 100)] with Ok r => r | Err _ => [] end)
    = ["XYZ"%string].
Proof.
  split; [| split; [reflexivity | reflexivity]].
  unfold concentration_rows. induction hs as [| h r IH]; simpl.
  - exists []. auto.
  - destruct IH as (rows & Hr & Hs & Ht).
    destruct (mapM (concentration_of tv) r) as [rs |] eqn:Hrs; simpl in Hr; [| discriminate].
    injection Hr as <-.
    destruct (concentration_of_spec tv h) as (o & Ho & Hspec). rewrite Ho. simpl.
    destruct o as [row |]; simpl.
    + destruct Hspec as (Hf & Hsym & Hth). rewrite Hf.
      exists (row :: somes rs). simpl. rewrite Hsym, Hth, Hs, Ht. auto.
    + rewrite Hspec. exists (somes rs). auto.
Qed.

(** ** Sorting *)

Lemma insert_by_perm {A : Type} (lt : A -> A -> bool) x l :
  Permutation (insert_by lt x l) (x :: l).
Proof.
  induction l as [| y r IH]; simpl; [reflexivity |].
  destruct (lt x y); [reflexivity |].
  rewrite IH. apply perm_swap.
Qed.

Lemma sort_by_perm {A : Type} (lt : A -> A -> bool) l :
  Permutation (sort_by lt l) l.
Proof.
  unfold sort_by.
  assert (G : forall acc, Permutation (fold_left (fun acc x => insert_by lt x acc) l acc) (acc ++ l)).
  { induction l as [| x r IH]; intros acc; simpl; [rewrite app_nil_r; reflexivity |].
    rewrite IH, insert_by_perm. simpl. apply Permutation_middle. }
  apply G.
Qed.

Lemma flt_asym (a b : pyfloat) : flt a b = true -> flt b a = false.
Proof.
  destruct a as [x | | |], b as [y | | |]; simpl; try discriminate; try reflexivity.
  unfold Qltb. destruct (Qcompare_spec x y) as [E | E | E]; try discriminate.
  intros _. destruct (Qcompare_spec y x) as [E' | E' | E']; try reflexivity; lra.
Qed.

Lemma Sorted_Forall_impl {A : Type} (P : A -> Prop) (R R' : A -> A -> Prop) l :
  (forall a b, P a -> P b -> R a b -> R' a b) -> Forall P l -> Sorted R l -> Sorted R' l.
Proof.
  intros HRR' HP HS. induction HS as [| a l HS IH Hhd]; constructor.
  - inversion HP; auto.
  - inversion HP as [| a' l' Pa Pl]; subst.
    destruct Hhd as [| b l'' Hab]; constructor.
    inversion Pl; auto.
Qed.

Lemma insert_by_sorted_gen {A : Type} (lt : A -> A -> bool) x l :
  (forall a b, lt a b = true -> lt b a = false) ->
  Sorted (fun a b => lt b a = false) l ->
  Sorted (fun a b => lt b a = false) (insert_by lt x l).
Proof.
  intros Hasym. induction 1 as [| y r Hr IH Hhd]; simpl; [repeat constructor |].
  destruct (lt x y) eqn:Hxy.
  - constructor; [constructor; assumption |]. constructor. apply Hasym; exact Hxy.
  - constructor; [exact IH |].
    destruct r as [| z r']; simpl; [constructor; exact Hxy |].
    destruct (lt x z); constructor; [exact Hxy |]. inversion Hhd; assumption.
Qed.

Lemma sort_by_sorted_gen {A : Type} (lt : A -> A -> bool) l :
  (forall a b, lt a b = true -> lt b a = false) ->
  Sorted (fun a b => lt b a = false) (sort_by lt l).
Proof.
  intros Hasym. unfold sort_by.
  assert (G : forall acc, Sorted (fun a b => lt b a = false) acc ->
              Sorted (fun a b => lt b a = false) (fold_left (fun acc x => insert_by lt x acc) l acc)).
  { induction l as [| x r IH]; intros acc Hacc; simpl; [exact Hacc |].
    apply IH, insert_by_sorted_gen, Hacc. exact Hasym. }
  apply G; constructor.
Qed.

(** ** Division by a truthy float; comparison of rationals *)

Lemma truthy_fdiv_ok (a c : pyfloat) : truthy c = true -> exists d, fdiv a c = Ok d.
Proof. intros H. apply fdiv_ok. intros y Hy. exact (truthy_nonzero c y H Hy). Qed.

Lemma Qltb_iff (x y : Q) : Qltb x y = true <-> x < y.
Proof.
  unfold Qltb. destruct (Qcompare_spec x y) as [E | E | E]; split; intros H;
    try discriminate; try reflexivity; lra.
Qed.

(** ** Tax-loss candidates in binary64 arithmetic *)

Lemma b64_zero_SF : FloatOps.Prim2SF (b64_of_Z 0) = SpecFloat.S754_zero false.
Proof. vm_compute. reflexivity. Qed.

Lemma SFcompare_swap (x y : SpecFloat.spec_float) :
  SpecFloat.SFcompare y x = option_map CompOpp (SpecFloat.SFcompare x y).
Proof.
  destruct x as [[] | [] | | [] m1 e1], y as [[] | [] | | [] m2 e2]; try reflexivity;
    simpl; f_equal; rewrite (Z.compare_antisym e1 e2);
    destruct (Z.compare e1 e2); simpl; try reflexivity;
    change (Pos.compare_cont Eq m2 m1) with (Pos.compare m2 m1);
    change (Pos.compare_cont Eq m1 m2) with (Pos.compare m1 m2);
    rewrite (Pos.compare_antisym m1 m2); rewrite ?CompOpp_involutive; reflexivity.
Qed.

Lemma b64_ltb_asym (a b : b64) : PrimFloat.ltb a b = true -> PrimFloat.ltb b a = false.
Proof.
  rewrite !FloatAxioms.ltb_spec. unfold SpecFloat.SFltb.
  rewrite (SFcompare_swap (FloatOps.Prim2SF a)).
  destruct (SpecFloat.SFcompare _ _) as [[] |]; simpl; congruence.
Qed.

Lemma b64_pos_truthy (c : b64) : PrimFloat.ltb (b64_of_Z 0) c = true -> b64_truthy c = true.
Proof.
  unfold b64_truthy. rewrite FloatAxioms.ltb_spec, FloatAxioms.eqb_spec, b64_zero_SF.
  unfold SpecFloat.SFltb, SpecFloat.SFeqb.
  destruct (FloatOps.Prim2SF c) as [[] | [] | | [] m e]; simpl; congruence.
Qed.

(** C7 (in binary64): a holding whose cost basis [c] is a float above 0 is
    a candidate exactly when, with [v] its value ([currentValue or 0]) and
    the loss [v - c] and loss percentage [(v - c) / c * 100] computed in
    floating point, [v < c], the loss is at most [-100] and the percentage
    at most [-5]; its [unrealizedLoss] is [round(loss, 2)] and its
    [estTaxSavings] is [round(abs(loss) * 0.24, 2)], in floating point.
    The list holds exactly the candidates, sorted ascending by
    [unrealizedLoss].  At cost 1000, value 949 is excluded and value 850 is
    kept with an estimated saving of [36.0]. *)
Theorem tax_loss_candidates64_spec :
  (forall (h : holding64) (c : b64),
      h64_costBasis h = Some c -> PrimFloat.ltb (b64_of_Z 0) c = true ->
      ((exists r, tax_candidate64 h = Some r /\ t64_symbol r = h64_symbol h /\
                  t64_unrealizedLoss r = b64_round 2 (PrimFloat.sub (value64 h) c) /\
                  t64_estTaxSavings r =
                    b64_round 2 (PrimFloat.mul (PrimFloat.abs (PrimFloat.sub (value64 h) c)) tax_rate64))
       <-> (PrimFloat.ltb (value64 h) c = true /\
            PrimFloat.leb (PrimFloat.sub (value64 h) c) (b64_of_Z (-100)) = true /\
            PrimFloat.leb (PrimFloat.mul (PrimFloat.div (PrimFloat.sub (value64 h) c) c) (b64_of_Z 100))
                          (b64_of_Z (-5)) = true))) /\
  (forall hs : list holding64,
      Permutation (tax_loss_candidates64 hs) (somes (map tax_candidate64 hs)) /\
      Sorted (fun a b => PrimFloat.ltb (t64_unrealizedLoss b) (t64_unrealizedLoss a) = false)
             (tax_loss_candidates64 hs)) /\
  tax_candidate64 (holding64_at (b64_of_Z 1000) (b64_of_Z 949)) = None /\
  (exists r, tax_loss_candidates64 [holding64_at (b64_of_Z 1000) (b64_of_Z 850)] = [r] /\
             t64_estTaxSavings r = b64_of_Z 36).
Proof.
  split.
  { intros h c Hc Hpos. unfold tax_candidate64. rewrite Hc, (b64_pos_truthy c Hpos), Hpos.
    cbn [andb].
    destruct (PrimFloat.ltb (value64 h) c) eqn:Hvc.
    2:{ split; [intros (r & E & _); discriminate | intros (E & _); discriminate]. }
    destruct (PrimFloat.leb (PrimFloat.sub (value64 h) c) (b64_of_Z (-100))) eqn:H1; cbn [andb].
    2:{ split; [intros (r & E & _); discriminate | intros (_ & E & _); discriminate]. }
    destruct (PrimFloat.leb _ (b64_of_Z (-5))) eqn:H2.
    2:{ split; [intros (r & E & _); discriminate | intros (_ & _ & E); discriminate]. }
    split; [intros _; auto |]. intros _. eexists. repeat split. }
  split.
  { intros hs. split; [apply sort_by_perm |].
    apply (sort_by_sorted_gen (fun a b => PrimFloat.ltb (t64_unrealizedLoss a) (t64_unrealizedLoss b))).
    intros a b. apply b64_ltb_asym. }
  split; [vm_compute; reflexivity |].
  eexists; split; vm_compute; reflexivity.
Qed.

(** Witness for C7: the holding bought for 1000 and worth 850. *)
Lemma tax_loss_candidates64_spec_witness :
  h64_costBasis (holding64_at (b64_of_Z 1000) (b64_of_Z 850)) = Some (b64_of_Z 1000) /\
  PrimFloat.ltb (b64_of_Z 0) (b64_of_Z 1000) = true /\
  ((exists r, tax_candidate64 (holding64_at (b64_of_Z 1000) (b64_of_Z 850)) = Some r /\
              t64_symbol r = h64_symbol (holding64_at (b64_of_Z 1000) (b64_of_Z 850)) /\
              t64_unrealizedLoss r =
                b64_round 2 (PrimFloat.sub (value64 (holding64_at (b64_of_Z 1000) (b64_of_Z 850)))
                                           (b64_of_Z 1000)) /\
              t64_estTaxSavings r =
                b64_round 2 (PrimFloat.mul (PrimFloat.abs
                   (PrimFloat.sub (value64 (holding64_at (b64_of_Z 1000) (b64_of_Z 850))) (b64_of_Z 1000)))
                   tax_rate64))
   <-> (PrimFloat.ltb (value64 (holding64_at (b64_of_Z 1000) (b64_of_Z 850))) (b64_of_Z 1000) = true /\
        PrimFloat.leb (PrimFloat.sub (value64 (holding64_at (b64_of_Z 1000) (b64_of_Z 850))) (b64_of_Z 1000))
                      (b64_of_Z (-100)) = true /\
        PrimFloat.leb (PrimFloat.mul (PrimFloat.div
                         (PrimFloat.sub (value64 (holding64_at (b64_of_Z 1000) (b64_of_Z 850))) (b64_of_Z 1000))
                         (b64_of_Z 1000)) (b64_of_Z 100))
                      (b64_of_Z (-5)) = true)).
Proof.
  assert (Hc : h64_costBasis (holding64_at (b64_of_Z 1000) (b64_of_Z 850)) = Some (b64_of_Z 1000))
    by reflexivity.
  assert (Hp : PrimFloat.ltb (b64_of_Z 0) (b64_of_Z 1000) = true) by (vm_compute; reflexivity).
  split; [exact Hc |]. split; [exact Hp |].
  exact (proj1 tax_loss_candidates64_spec (holding64_at (b64_of_Z 1000) (b64_of_Z 850))
           (b64_of_Z 1000) Hc Hp).
Defined.

(** C7 as written, with exact arithmetic, departs from the code in two
    ways.  A holding bought for 100 and worth [2^-60], less than 100 below
    its cost, is a candidate: [2^-60 - 100] rounds to [-100.0].  A holding
    bought for 1000 and worth [895.9375] (a loss of [104.0625]) gets an
    estimated saving of [24.97], not [24.98]: [104.0625 * 0.24] is [24.975]
    exactly, but the double nearest [0.24] is below [0.24], and the product
    is just below [24.975].  [Prim2SF] shows the two values with a
    normalised significand: [2^52 * 2^-112] and [14335 * 2^39 * 2^-43]. *)
Lemma tax_loss_candidates64_rounding :
  FloatOps.Prim2SF b64_two_pow_m60 = SpecFloat.S754_finite false (Pos.pow 2 52) (-112) /\
  (exists r, tax_candidate64 (holding64_at (b64_of_Z 100) b64_two_pow_m60) = Some r /\
             t64_unrealizedLoss r = b64_of_Z (-100)) /\
  FloatOps.Prim2SF b64_895_9375 = SpecFloat.S754_finite false (14335 * Pos.pow 2 39) (-43) /\
  round_nd 2 ((1000 - (14335 # 16)) * (24 # 100)) == 2498 # 100 /\
  (exists r, tax_candidate64 (holding64_at (b64_of_Z 1000) b64_895_9375) = Some r /\
             t64_estTaxSavings r = PrimFloat.div (b64_of_Z 2497) (b64_of_Z 100) /\
             PrimFloat.eqb (t64_estTaxSavings r) (PrimFloat.div (b64_of_Z 2498) (b64_of_Z 100)) = false).
Proof.
  split; [vm_compute; reflexivity |].
  split; [eexists; split; vm_compute; reflexivity |].
  split; [vm_compute; reflexivity |].
  split; [vm_compute; reflexivity |].
  eexists; split; [vm_compute; reflexivity |]. split; vm_compute; reflexivity.
Qed.

(** ** Sector breakdown *)

(** What the sector map holds for sector [s]: its value and count. *)
Definition view (s : string) (m : list sector_entry) : option (pyfloat * Z) :=
  option_map (fun e => (se_value e, se_count e)) (lookup_sector s m).

Lemma lookup_sector_key s m e : lookup_sector s m = Some e -> se_sector e = s.
Proof.
  induction m as [| e' r IH]; simpl; [discriminate |].
  destruct (String.eqb_spec (se_sector e') s); [congruence | exact IH].
Qed.

Lemma has_sector_lookup sec m : has_sector sec m = false -> lookup_sector sec m = None.
Proof.
  unfold has_sector. induction m as [| e r IH]; simpl; [reflexivity |].
  intros H. apply orb_false_iff in H as [H1 H2]. rewrite H1. exact (IH H2).
Qed.

Lemma lookup_sector_has sec m : lookup_sector sec m = None -> has_sector sec m = false.
Proof.
  unfold has_sector. induction m as [| e r IH]; simpl; [reflexivity |].
  destruct (String.eqb (se_sector e) sec); [discriminate | exact IH].
Qed.

Lemma lookup_sector_app s m m' :
  lookup_sector s (m ++ m')%list =
  match lookup_sector s m with Some e => Some e | None => lookup_sector s m' end.
Proof.
  induction m as [| e r IH]; simpl; [reflexivity |].
  destruct (String.eqb (se_sector e) s); [reflexivity | exact IH].
Qed.

Lemma view_ensure s sec m :
  view s (ensure_sector sec m) =
  match view s m with Some p => Some p | None => if String.eqb sec s then Some (fzero, 0%Z) else None end.
Proof.
  unfold view, ensure_sector.
  destruct (has_sector sec m) eqn:Hh.
  - destruct (lookup_sector s m) eqn:Hl; simpl; [reflexivity |].
    destruct (String.eqb_spec sec s) as [<- | _]; [| reflexivity].
    rewrite lookup_sector_has in Hh by exact Hl. discriminate.
  - rewrite lookup_sector_app.
    destruct (lookup_sector s m) eqn:Hl; simpl; [reflexivity |].
    destruct (String.eqb sec s); reflexivity.
Qed.

Lemma view_add_value s sec x m :
  view s (add_value sec x m) =
  if String.eqb sec s then option_map (fun p => (fadd (fst p) x, snd p)) (view s m) else view s m.
Proof.
  unfold view, add_value. induction m as [| e r IH]; simpl.
  - destruct (String.eqb sec s); reflexivity.
  - destruct (String.eqb_spec (se_sector e) sec) as [E1 | E1];
      destruct (String.eqb_spec (se_sector e) s) as [E2 | E2]; simpl.
    + subst. rewrite !String.eqb_refl. reflexivity.
    + subst sec. apply String.eqb_neq in E2. rewrite E2, IH, E2. reflexivity.
    + subst s.
      assert (E3 : String.eqb sec (se_sector e) = false) by (apply String.eqb_neq; congruence).
      rewrite E3. reflexivity.
    + rewrite IH.
      destruct (String.eqb sec s); reflexivity.
Qed.

Lemma view_add_count s sec m :
  view s (add_count sec m) =
  if String.eqb sec s then option_map (fun p => (fst p, (snd p + 1)%Z)) (view s m) else view s m.
Proof.
  unfold view, add_count. induction m as [| e r IH]; simpl.
  - destruct (String.eqb sec s); reflexivity.
  - destruct (String.eqb_spec (se_sector e) sec) as [E1 | E1];
      destruct (String.eqb_spec (se_sector e) s) as [E2 | E2]; simpl.
    + subst. rewrite !String.eqb_refl. reflexivity.
    + subst sec. apply String.eqb_neq in E2. rewrite E2, IH, E2. reflexivity.
    + subst s.
      assert (E3 : String.eqb sec (se_sector e) = false) by (apply String.eqb_neq; congruence).
      rewrite E3. reflexivity.
    + rewrite IH.
      destruct (String.eqb sec s); reflexivity.
Qed.

Definition view_base (o : option (pyfloat * Z)) : pyfloat * Z :=
  match o with Some p => p | None => (fzero, 0%Z) end.

Lemma existsb_filter_nil {A : Type} (f : A -> bool) l : existsb f l = false -> filter f l = [].
Proof.
  induction l as [| x r IH]; simpl; [reflexivity |].
  intros H. apply orb_false_iff in H as [H1 H2]. rewrite H1. exact (IH H2).
Qed.

Lemma view_weights s val ws m :
  view s (fold_left (fun m kw => let '(sec, w) := kw in
                       add_value sec (fmul val w) (ensure_sector sec m)) ws m) =
  if existsb (fun kw => String.eqb (fst kw) s) ws
  then Some (fold_left fadd (map (fun kw => fmul val (snd kw))
                               (filter (fun kw => String.eqb (fst kw) s) ws))
                       (fst (view_base (view s m))),
             snd (view_base (view s m)))
  else view s m.
Proof.
  revert m; induction ws as [| [sec w] r IH]; intros m; simpl; [reflexivity |].
  rewrite IH, view_add_value, view_ensure.
  destruct (String.eqb sec s) eqn:E; simpl.
  - destruct (existsb _ r) eqn:Er; [| rewrite (existsb_filter_nil _ _ Er)];
      destruct (view s m) as [[v c] |]; cbn; reflexivity.
  - destruct (existsb _ r); destruct (view s m) as [[v c] |]; cbn; reflexivity.
Qed.

Lemma top_sector_in w0 ws : In (top_sector w0 ws) (map fst (w0 :: ws)).
Proof.
  unfold top_sector. revert w0; induction ws as [| kw r IH]; intros w0; simpl; [left; reflexivity |].
  destruct (flt (snd w0) (snd kw)).
  - specialize (IH kw). simpl in IH. tauto.
  - specialize (IH w0). simpl in IH |- *. destruct IH as [E | E]; [tauto |].
    right; right; exact E.
Qed.

Lemma mentions_counted s h : String.eqb (counted_sector h) s = true -> mentions s h = true.
Proof.
  unfold counted_sector, mentions.
  destruct (sectorWeights h) as [[| w0 ws'] |]; try exact (fun H => H).
  intros H. apply String.eqb_eq in H.
  apply existsb_exists. pose proof (top_sector_in w0 ws') as Hin.
  apply in_map_iff in Hin as (kw & Hk & Hkw). exists kw. split; [exact Hkw |].
  apply String.eqb_eq. congruence.
Qed.

(** What one holding does to the bucket of sector [s]. *)
Definition step_view (s : string) (h : enriched) (o : option (pyfloat * Z)) : option (pyfloat * Z) :=
  match (if mentions s h then Some (view_base o) else o) with
  | Some p => Some (fold_left fadd (contributions s h) (fst p),
                    if String.eqb (counted_sector h) s then (snd p + 1)%Z else snd p)
  | None => None
  end.

Lemma view_step s m h : view s (sector_step m h) = step_view s h (view s m).
Proof.
  unfold sector_step, step_view, mentions, contributions, counted_sector.
  destruct (sectorWeights h) as [[| w0 ws'] |] eqn:Hw.
  - rewrite view_add_count, view_add_value, view_ensure.
    destruct (String.eqb (plain_sector h) s); simpl; destruct (view s m) as [[v c] |]; reflexivity.
  - rewrite view_add_count, view_weights.
    destruct (existsb _ (w0 :: ws')) eqn:E.
    + destruct (String.eqb (top_sector w0 ws') s); reflexivity.
    + rewrite (existsb_filter_nil _ _ E). simpl.
      assert (Et : String.eqb (top_sector w0 ws') s = false).
      { destruct (String.eqb_spec (top_sector w0 ws') s) as [Et | _]; [| reflexivity].
        exfalso. pose proof (top_sector_in w0 ws') as Hin.
        apply in_map_iff in Hin as (kw & Hk & Hkw).
        assert (existsb (fun kw => String.eqb (fst kw) s) (w0 :: ws') = true) as C
          by (apply existsb_exists; exists kw; split; [exact Hkw | apply String.eqb_eq; congruence]).
        congruence. }
      rewrite Et. destruct (view s m) as [[v c] |]; reflexivity.
  - rewrite view_add_count, view_add_value, view_ensure.
    destruct (String.eqb (plain_sector h) s); simpl; destruct (view s m) as [[v c] |]; reflexivity.
Qed.

Lemma view_sector_fold s hs m :
  view s (fold_left sector_step hs m) = fold_left (fun o h => step_view s h o) hs (view s m).
Proof.
  revert m; induction hs as [| h r IH]; intros m; simpl; [reflexivity |].
  rewrite IH, view_step. reflexivity.
Qed.

Lemma mentions_false s h :
  mentions s h = false -> contributions s h = [] /\ String.eqb (counted_sector h) s = false.
Proof.
  intros H. split.
  - unfold mentions, contributions in *.
    destruct (sectorWeights h) as [[| w0 ws'] |]; try (rewrite H; reflexivity).
    rewrite (existsb_filter_nil _ _ H). reflexivity.
  - destruct (String.eqb (counted_sector h) s) eqn:E; [| reflexivity].
    rewrite (mentions_counted s h E) in H. discriminate.
Qed.

Lemma step_view_fold s hs o :
  fold_left (fun o h => step_view s h o) hs o =
  match (if existsb (mentions s) hs then Some (view_base o) else o) with
  | Some p => Some (fold_left fadd (flat_map (contributions s) hs) (fst p),
                    (snd p + Z.of_nat (List.length (filter (fun h => String.eqb (counted_sector h) s) hs)))%Z)
  | None => None
  end.
Proof.
  revert o; induction hs as [| h r IH]; intros o.
  - destruct o as [[v c] |]; cbn; [rewrite Z.add_0_r |]; reflexivity.
  - cbn [fold_left existsb flat_map filter]. rewrite IH. unfold step_view.
    destruct (mentions s h) eqn:Mh; cbn [orb].
    + rewrite fold_left_app.
      destruct (existsb (mentions s) r); cbn [view_base fst snd];
        destruct (String.eqb (counted_sector h) s); cbn [List.length];
        f_equal; f_equal; lia.
    + destruct (mentions_false s h Mh) as [Hc Hn]. rewrite Hc, Hn. cbn [app fold_left].
      destruct (existsb (mentions s) r); destruct o as [[v c] |]; reflexivity.
Qed.

(** C6: in the sector map, the bucket of a sector [s] exists exactly when
    some holding mentions [s]; its value is the running sum, from 0, of
    [currentValue * weight] over every weight a fund gives [s] and of the
    whole value of every plain holding in [s]; its count is the number of
    holdings counted in [s], a fund being counted once, in its first
    largest-weight sector.  A fund worth 10000 weighted 0.6 Technology and
    0.4 Healthcare gives the rows Technology 6000 (count 1) and Healthcare
    4000 (count 0), which add back up to 10000. *)
Theorem sector_map_lookthrough :
  (forall (hs : list enriched) (s : string),
      option_map (fun e => (se_sector e, se_value e, se_count e)) (lookup_sector s (sector_map hs)) =
      if existsb (mentions s) hs
      then Some (s, fold_left fadd (flat_map (contributions s) hs) fzero,
                 Z.of_nat (List.length (filter (fun h => String.eqb (counted_sector h) s) hs)))
      else None) /\
  (exists rows, by_sector (value_of fund_10000) [fund_10000] = Ok rows /\
     map sr_sector rows = ["Technology"; "Healthcare"]%string /\
     map sr_value rows = [fint 6000; fint 4000] /\
     map sr_count rows = [1%Z; 0%Z] /\
     fsum (map sr_value rows) = value_of fund_10000).
Proof.
  split.
  - intros hs s.
    pose proof (view_sector_fold s hs []) as V.
    rewrite step_view_fold in V. unfold view in V. unfold sector_map.
    destruct (lookup_sector s (fold_left sector_step hs [])) as [e |] eqn:L;
      destruct (existsb (mentions s) hs); cbn in V |- *; try discriminate.
    + injection V as Hv Hc. rewrite (lookup_sector_key _ _ _ L), Hv, Hc. reflexivity.
    + reflexivity.
  - eexists. split; [vm_compute; reflexivity |]. vm_compute. repeat split.
Qed.

(** ** Analysis of holdings without analyst data *)

(** C1 (counterexample): one CSV holding that kept only the fallback
    enrichment record.  No holding has an upside, so the analyst overview
    holds [weightedUpside = None]; [.get("weightedUpside", 0)] returns that
    [None] and [min(None, 20)] raises [TypeError]. *)
Lemma analyze_portfolio_fallback_raises :
  analyze_portfolio (fun _ => Ok []) [enrichment_fallback (csv_holding "AAPL" 1000 100 None)] =
  Err TypeError.
Proof. vm_compute. reflexivity. Qed.

(** C5 (counterexample): four holdings a quarter of the account each, rated
    "sell" with a target 99% under the price and worth half their cost.  The
    sentiment sub-score is [round(0 * 15 + (-99) / 20 * 10) = -50], which is
    not clamped at 0, and so is the total. *)
Lemma analyze_portfolio_negative_health :
  exists a, analyze_portfolio (fun _ => Ok [])
              (map bearish_holding ["A"; "B"; "C"; "D"]%string) = Ok a /\
    total (healthScore a) = (-50)%Z /\ sentiment (healthScore a) = (-50)%Z /\
    diversification (healthScore a) = 0%Z /\ concentration_score (healthScore a) = 0%Z /\
    costHealth (healthScore a) = 0%Z.
Proof. eexists. split; [vm_compute; reflexivity |]. vm_compute. repeat split. Qed.

(** ** Historical performance *)

Lemma fetch_portfolio_performance_period fth pto hs p r :
  fetch_portfolio_performance fth pto hs p = Ok r ->
  perf_period r = if in_list p valid_periods then p else "1mo"%string.
Proof.
  unfold fetch_portfolio_performance. intros H.
  res_inv H; injection H as <-; reflexivity.
Qed.

(** C10: for a period outside ["1d"], ["1mo"], ["1y"],
    [fetch_portfolio_performance] gives exactly what it gives for ["1mo"],
    and every result it returns carries the period ["1mo"]. *)
Theorem fetch_portfolio_performance_invalid_period fth pto hs p :
  in_list p valid_periods = false ->
  fetch_portfolio_performance fth pto hs p = fetch_portfolio_performance fth pto hs "1mo" /\
  (forall r, fetch_portfolio_performance fth pto hs p = Ok r -> perf_period r = "1mo"%string).
Proof.
  intros Hp. split.
  - unfold fetch_portfolio_performance. rewrite Hp. reflexivity.
  - intros r Hr. rewrite (fetch_portfolio_performance_period _ _ _ _ _ Hr), Hp. reflexivity.
Qed.

(** Witness for C10: the period ["5y"], one holding, no history data. *)
Lemma fetch_portfolio_performance_invalid_period_witness :
  in_list "5y" valid_periods = false /\
  fetch_portfolio_performance (fun _ _ => None) (fun _ _ => false)
    [csv_holding "AAPL" 1000 100 None] "5y" =
  fetch_portfolio_performance (fun _ _ => None) (fun _ _ => false)
    [csv_holding "AAPL" 1000 100 None] "1mo" /\
  (forall r, fetch_portfolio_performance (fun _ _ => None) (fun _ _ => false)
               [csv_holding "AAPL" 1000 100 None] "5y" = Ok r ->
             perf_period r = "1mo"%string).
Proof.
  assert (Hp : in_list "5y" valid_periods = false) by reflexivity.
  split; [exact Hp |].
  exact (fetch_portfolio_performance_invalid_period _ _ _ _ Hp).
Defined.

(* ------------------------------------------------------------------ *)
(** ** Further properties of the code *)

(** *** [_sanitize_for_json] *)

Lemma sanitize_for_json_fixes (t : json) :
  all_finite (sanitize_for_json t) = true /\ sanitize_for_json (sanitize_for_json t) = sanitize_for_json t.
Proof.
  induction t as [| b | z | f | s | l IH | kvs IH] using json_nested_ind; simpl; try tauto.
  - destruct (is_nan f || is_inf f) eqn:E; simpl; [tauto |]. rewrite E. tauto.
  - split.
    + induction IH as [| x l [H1 _] _ IH']; simpl; [reflexivity |]. rewrite H1. exact IH'.
    + rewrite map_map. f_equal. induction IH as [| x l [_ H2] _ IH']; simpl; [reflexivity |].
      rewrite H2, IH'. reflexivity.
  - split.
    + induction IH as [| [k v] l [H1 _] _ IH']; simpl; [reflexivity |]. simpl in H1. rewrite H1. exact IH'.
    + rewrite map_map. f_equal. induction IH as [| [k v] l [_ H2] _ IH']; simpl; [reflexivity |].
      simpl in H2. rewrite H2, IH'. reflexivity.
Qed.

(** X1: [_sanitize_for_json] is idempotent: sanitizing its output again
    changes nothing. *)
Theorem sanitize_for_json_idempotent (t : json) :
  sanitize_for_json (sanitize_for_json t) = sanitize_for_json t.
Proof. exact (proj2 (sanitize_for_json_fixes t)). Qed.

(** *** [parse_portfolio_csv]: skipped rows never come out *)

Lemma row_to_holding_symbol (st : list cell -> string) cols row h :
  row_to_holding st cols row = Ok (Some h) -> skipped_symbol (symbol h) = false.
Proof.
  intros H. unfold row_to_holding in H.
  destruct (skipped_symbol _) eqn:Es in H; [discriminate |].
  res_inv H; try discriminate H; injection H as <-; exact Es.
Qed.

Lemma recalc_symbols (Q : string -> Prop) tv l l' :
  Forall2 (fun a b => recalc_one tv a = Ok b) l l' ->
  Forall (fun h => Q (symbol h)) l -> Forall (fun h => Q (symbol h)) l'.
Proof.
  induction 1 as [| a b l l' Hab _ IH]; intros Hall; [constructor |].
  apply Forall_cons_iff in Hall as [Ha Hl]. constructor; [| exact (IH Hl)].
  apply recalc_one_shape in Hab as [Hs _]. rewrite Hs. exact Ha.
Qed.

(** X2: no holding returned by [parse_portfolio_csv] has an empty symbol, a
    symbol of the skip list, a symbol containing ["*"], ["TOTAL"] or
    ["CASH & CASH"], or one starting with ["PENDING"]. *)
Theorem parse_portfolio_csv_no_skipped (st : list cell -> string) (content : string)
    (hs : list holding) :
  parse_portfolio_csv st content = Ok hs ->
  Forall (fun h => skipped_symbol (symbol h) = false) hs.
Proof.
  unfold parse_portfolio_csv. intros H.
  destruct (read_csv _) as [df |] in H; simpl in H; [| discriminate].
  match type of H with
  | (let* _ := ?m in _) = _ => destruct m as [rs |] eqn:Hrs; simpl in H; [| discriminate]
  end.
  apply mapM_Forall2 in Hrs.
  set (P := fun h : holding => skipped_symbol (symbol h) = false).
  assert (HP : Forall P (somes rs)).
  { eapply somes_Forall; [| exact Hrs]. intros a b Hb. eapply row_to_holding_symbol; exact Hb. }
  destruct (consolidate_inv P (somes rs)) as [_ Hall]; [intros a b Ha _; exact Ha | exact HP |].
  unfold recalc in H. apply mapM_Forall2 in H.
  exact (recalc_symbols (fun s => skipped_symbol s = false) _ _ _ H Hall).
Qed.

(** Witness for X2: a statement with a cash row, a pending row and a
    trailer. *)
Lemma parse_portfolio_csv_no_skipped_witness :
  exists hs, parse_portfolio_csv series_str csv_two_accounts = Ok hs /\
    Forall (fun h => skipped_symbol (symbol h) = false) hs.
Proof.
  destruct (parse_portfolio_csv series_str csv_two_accounts) as [hs | e] eqn:E.
  - exists hs. split; [reflexivity | exact (parse_portfolio_csv_no_skipped _ _ hs E)].
  - exfalso. vm_compute in E. discriminate E.
Defined.

(** *** [_compute_health_score] *)

Lemma round_half_even_le (q : Q) (k : Z) : q <= inject_Z k -> (round_half_even q <= k)%Z.
Proof.
  intros Hq. pose proof (round_half_even_close q) as H.
  apply Qabs_Qle_condition in H as [_ H].
  assert (Hlt : inject_Z (round_half_even q) < inject_Z (k + 1)).
  { rewrite inject_Z_plus. change (inject_Z 1) with 1. lra. }
  rewrite <- Zlt_Qlt in Hlt. lia.
Qed.

Lemma round_half_even_ge (q : Q) (k : Z) : inject_Z k <= q -> (k <= round_half_even q)%Z.
Proof.
  intros Hq. pose proof (round_half_even_close q) as H.
  apply Qabs_Qle_condition in H as [H _].
  assert (Hlt : inject_Z k < inject_Z (round_half_even q + 1)).
  { rewrite inject_Z_plus. change (inject_Z 1) with 1. lra. }
  rewrite <- Zlt_Qlt in Hlt. lia.
Qed.

Lemma Qred_inject_Z (k : Z) : Qred (inject_Z k) = inject_Z k.
Proof.
  unfold Qred, inject_Z. simpl Qnum; simpl Qden.
  pose proof (Z.ggcd_gcd k 1) as Hg. pose proof (Z.ggcd_correct_divisors k 1) as Hd.
  destruct (Z.ggcd k 1) as [g [a b]]. simpl in Hg, Hd |- *.
  rewrite Z.gcd_1_r in Hg. subst g. destruct Hd as [Ha Hb].
  rewrite Z.mul_1_l in Ha, Hb. subst. reflexivity.
Qed.

Lemma fround_int_fmin_le (x : pyfloat) (k : Z) (r : Z) :
  fround_int (fmin x (fint k)) = Ok r -> (r <= k)%Z.
Proof.
  unfold fmin, fint, fin. rewrite Qred_inject_Z. intros H.
  destruct x as [q | | |]; cbn [flt] in H.
  - destruct (Qltb (inject_Z k) q) eqn:E; cbn [fround_int] in H; injection H as <-;
      apply round_half_even_le.
    + apply Qle_refl.
    + apply Bool.not_true_iff_false in E. rewrite Qltb_iff in E. lra.
  - cbn [fround_int] in H. injection H as <-. apply round_half_even_le. apply Qle_refl.
  - discriminate H.
  - discriminate H.
Qed.

Lemma fround_int_fmin_ge (qx : Q) (k r : Z) :
  0 <= qx -> (0 <= k)%Z -> fround_int (fmin (Fin qx) (fint k)) = Ok r -> (0 <= r)%Z.
Proof.
  unfold fmin, fint, fin. rewrite Qred_inject_Z. intros Hq Hk H. cbn [flt] in H.
  destruct (Qltb (inject_Z k) qx); cbn [fround_int] in H; injection H as <-;
    apply round_half_even_ge; change (inject_Z 0) with 0; [| exact Hq].
  change 0 with (inject_Z 0). rewrite <- Zle_Qle. exact Hk.
Qed.

Lemma fround_int_clamp25 (x : pyfloat) (r : Z) :
  fround_int (fmin (fmax x fzero) (fint 25)) = Ok r -> (0 <= r <= 25)%Z.
Proof.
  intros H. split; [| exact (fround_int_fmin_le _ _ _ H)].
  unfold fmax in H. destruct x as [q | | |]; cbn [flt fzero fint fin] in H.
  - destruct (Qltb q (Qred (inject_Z 0))) eqn:E.
    + exact (fround_int_fmin_ge _ 25 _ (Qle_refl 0) ltac:(lia) H).
    + apply (fround_int_fmin_ge q 25); [| lia | exact H].
      apply Bool.not_true_iff_false in E. rewrite Qltb_iff in E. change (Qred (inject_Z 0)) with 0 in E. lra.
  - vm_compute in H. injection H as <-. lia.
  - exact (fround_int_fmin_ge _ 25 _ (Qle_refl 0) ltac:(lia) H).
  - vm_compute in H. discriminate H.
Qed.

Lemma fdiv_fint_nonneg (n m : Z) (d : pyfloat) :
  (0 <= n)%Z -> (0 < m)%Z -> fdiv (fint n) (fint m) = Ok d -> exists q, d = Fin q /\ 0 <= q.
Proof.
  unfold fdiv, fint, fin. rewrite !Qred_inject_Z. intros Hn Hm H.
  destruct (Qeq_bool (inject_Z m) 0); [discriminate H |].
  injection H as <-. exists (Qred (inject_Z n / inject_Z m)). split; [reflexivity |].
  rewrite Qred_correct. apply Qle_shift_div_l.
  - change 0 with (inject_Z 0). rewrite <- Zlt_Qlt. exact Hm.
  - rewrite Qmult_0_l. change 0 with (inject_Z 0). rewrite <- Zle_Qle. exact Hn.
Qed.

Lemma Ok_inj {A : Type} (a b : A) : Ok a = Ok b -> a = b.
Proof. intros H. injection H. tauto. Qed.

Ltac bind_step H x E :=
  cbn [bind] in H;
  match type of H with
  | bind ?m _ = _ => destruct m as [x |] eqn:E; cbn [bind] in H; [| discriminate H]
  end.



Lemma filter3_length {A : Type} (p q r : A -> bool) (l : list A) :
  (forall x, (if p x then 1 else 0) + (if q x then 1 else 0) + (if r x then 1 else 0) <= 1)%nat ->
  (List.length (filter p l) + List.length (filter q l) + List.length (filter r l) <= List.length l)%nat.
Proof.
  intros H. induction l as [| x l IH]; simpl; [lia |].
  specialize (H x). destruct (p x), (q x), (r x); simpl in *; lia.
Qed.

Lemma in_list_cons_iff (s a : string) (l : list string) :
  in_list s (a :: l) = true <-> s = a \/ in_list s l = true.
Proof.
  unfold in_list. simpl. rewrite Bool.orb_true_iff.
  destruct (String.eqb_spec s a); intuition congruence.
Qed.

Lemma rec_classes_disjoint (s : string) :
  ((if in_list s ["buy"; "strong_buy"]%string then 1 else 0) +
   (if String.eqb s "hold"%string then 1 else 0) +
   (if in_list s ["sell"; "underperform"; "strong_sell"]%string then 1 else 0) <= 1)%nat.
Proof.
  destruct (in_list s ["buy"; "strong_buy"]%string) eqn:E1.
  - apply in_list_cons_iff in E1 as [-> | E1]; [reflexivity |].
    apply in_list_cons_iff in E1 as [-> | E1]; [reflexivity | discriminate E1].
  - destruct (String.eqb_spec s "hold"%string) as [-> | _]; [reflexivity |].
    destruct (in_list s ["sell"; "underperform"; "strong_sell"]%string); simpl; lia.
Qed.

Lemma fdiv_count_ratio (c n : Z) (d : pyfloat) :
  (0 <= c <= n)%Z -> (0 < n)%Z -> fdiv (fint c) (fint n) = Ok d ->
  exists q, d = Fin q /\ 0 <= q <= 1.
Proof.
  unfold fdiv, fint, fin. rewrite !Qred_inject_Z. intros Hc Hn H.
  destruct (Qeq_bool (inject_Z n) 0); [discriminate H |].
  injection H as <-. exists (Qred (inject_Z c / inject_Z n)). split; [reflexivity |].
  rewrite Qred_correct.
  assert (Hn' : 0 < inject_Z n) by (change 0 with (inject_Z 0); rewrite <- Zlt_Qlt; exact Hn).
  split.
  - apply Qle_shift_div_l; [exact Hn' |].
    rewrite Qmult_0_l. change 0 with (inject_Z 0). rewrite <- Zle_Qle. lia.
  - apply Qle_shift_div_r; [exact Hn' |]. rewrite Qmult_1_l. rewrite <- Zle_Qle. lia.
Qed.

Lemma round_nd0_bounds (q : Q) (lo hi : Z) :
  inject_Z lo <= q <= inject_Z hi -> inject_Z lo <= round_nd 0 q <= inject_Z hi.
Proof.
  intros [Hlo Hhi]. unfold round_nd. rewrite Qred_correct.
  change (pow10 0) with 1%positive. change (inject_Z (Z.pos 1)) with 1.
  change (round_half_even (q * 1) # 1) with (inject_Z (round_half_even (q * 1))).
  split; rewrite <- Zle_Qle; [apply round_half_even_ge | apply round_half_even_le];
    rewrite Qmult_1_r; assumption.
Qed.

(** X4: when [compute_analyst_overview] returns, [totalHoldings] is the
    number of holdings, the buy, hold and sell counts are disjoint parts of
    the covered holdings ([buys + holds + sells <= totalCovered <=
    totalHoldings]), and [coverageRatio] is a finite number between 0 and
    100. *)
Theorem compute_analyst_overview_counts (hs : list enriched) (o : overview) :
  compute_analyst_overview hs = Ok o ->
  totalHoldings o = Z.of_nat (List.length hs) /\
  (0 <= buys o /\ 0 <= holds o /\ 0 <= sells o)%Z /\
  (buys o + holds o + sells o <= totalCovered o <= totalHoldings o)%Z /\
  exists r, coverageRatio o = Fin r /\ 0 <= r <= 100.
Proof.
  unfold compute_analyst_overview. intros H.
  bind_step H ud Eud. bind_step H tv Etv. bind_step H wu Ewu. bind_step H cr Ecr.
  apply Ok_inj in H. subst o. cbn [totalHoldings buys holds sells totalCovered coverageRatio].
  assert (Hcov : (List.length (filter covered hs) <= List.length hs)%nat) by apply filter_length_le.
  split; [reflexivity |]. split; [unfold count_if; lia |].
  split.
  - split; [| lia]. unfold count_if.
    pose proof (filter3_length (fun h => in_list (rec_of h) ["buy"; "strong_buy"]%string)
                  (fun h => String.eqb (rec_of h) "hold"%string)
                  (fun h => in_list (rec_of h) ["sell"; "underperform"; "strong_sell"]%string)
                  (filter covered hs) (fun h => rec_classes_disjoint (rec_of h))). lia.
  - destruct hs as [| h0 hs'] eqn:Ehs.
    + injection Ecr as <-. exists 0. split; [reflexivity | split; [apply Qle_refl | discriminate]].
    + rewrite <- Ehs in *. cbn [bind] in Ecr.
      destruct (fdiv (fint _) (fint _)) as [d |] eqn:Ed; [| discriminate Ecr].
      injection Ecr as <-.
      apply fdiv_count_ratio in Ed as (q & -> & Hq); [| lia | subst hs; simpl; lia].
      exists (round_nd 0 (Qred (q * Qred (inject_Z 100)))). split; [reflexivity |].
      apply (round_nd0_bounds _ 0 100). rewrite Qred_correct, Qred_inject_Z.
      change (inject_Z 0) with 0. change (inject_Z 100) with 100. split; nra.
Qed.

(** Witness for X4: the sample portfolio. *)
Lemma compute_analyst_overview_counts_witness :
  exists o, compute_analyst_overview sample_portfolio = Ok o /\
  totalHoldings o = Z.of_nat (List.length sample_portfolio) /\
  (0 <= buys o /\ 0 <= holds o /\ 0 <= sells o)%Z /\
  (buys o + holds o + sells o <= totalCovered o <= totalHoldings o)%Z /\
  exists r, coverageRatio o = Fin r /\ 0 <= r <= 100.
Proof.
  destruct (compute_analyst_overview sample_portfolio) as [o | e] eqn:E.
  - exists o. split; [reflexivity | exact (compute_analyst_overview_counts _ _ E)].
  - exfalso. vm_compute in E. discriminate E.
Defined.

(** X5: every row of [holdingsByUpside] has an upside, no row's upside is
    below the next row's, and there are at most [totalCovered] rows. *)
Theorem compute_analyst_overview_by_upside (hs : list enriched) (o : overview) :
  compute_analyst_overview hs = Ok o ->
  Forall (fun d => exists x, u_upsidePct d = Some x) (holdingsByUpside o) /\
  Sorted (fun a b => match u_upsidePct a, u_upsidePct b with
                     | Some x, Some y => flt x y = false
                     | _, _ => False end) (holdingsByUpside o) /\
  (Z.of_nat (List.length (holdingsByUpside o)) <= totalCovered o)%Z.
Proof.
  unfold compute_analyst_overview. intros H.
  bind_step H ud Eud. bind_step H tv Etv. bind_step H wu Ewu. bind_step H cr Ecr.
  apply Ok_inj in H. subst o. cbn [holdingsByUpside totalCovered].
  set (lt := fun a b : upside_row => match u_upsidePct a, u_upsidePct b with
                                     | Some x, Some y => flt y x | _, _ => false end).
  set (w := filter _ ud).
  assert (Hw : Forall (fun d => exists x, u_upsidePct d = Some x) w).
  { apply Forall_forall. intros d Hd. apply filter_In in Hd as [_ Hd].
    destruct (u_upsidePct d) as [x |]; [eexists; reflexivity | discriminate Hd]. }
  assert (Hs : Forall (fun d => exists x, u_upsidePct d = Some x) (sort_by lt w)).
  { apply Forall_forall. intros d Hd. rewrite Forall_forall in Hw.
    apply Hw. exact (Permutation_in d (sort_by_perm lt w) Hd). }
  split; [exact Hs |]. split.
  - apply (Sorted_Forall_impl (fun d => exists x, u_upsidePct d = Some x) (fun a b => lt b a = false)); [| exact Hs |].
    + intros a b [x Ha] [y Hb]. unfold lt. rewrite Ha, Hb. tauto.
    + apply sort_by_sorted_gen. intros a b. unfold lt.
      destruct (u_upsidePct a), (u_upsidePct b); [apply flt_asym | discriminate ..].
  - rewrite (Permutation_length (sort_by_perm lt w)).
    apply mapM_Forall2, Forall2_length in Eud.
    pose proof (filter_length_le (fun d : upside_row => match u_upsidePct d with Some _ => true | None => false end) ud).
    fold w in H. lia.
Qed.

(** Witness for X5: the sample portfolio. *)
Lemma compute_analyst_overview_by_upside_witness :
  exists o, compute_analyst_overview sample_portfolio = Ok o /\
  Forall (fun d => exists x, u_upsidePct d = Some x) (holdingsByUpside o) /\
  Sorted (fun a b => match u_upsidePct a, u_upsidePct b with
                     | Some x, Some y => flt x y = false
                     | _, _ => False end) (holdingsByUpside o) /\
  (Z.of_nat (List.length (holdingsByUpside o)) <= totalCovered o)%Z.
Proof.
  destruct (compute_analyst_overview sample_portfolio) as [o | e] eqn:E.
  - exists o. split; [reflexivity | exact (compute_analyst_overview_by_upside _ _ E)].
  - exfalso. vm_compute in E. discriminate E.
Defined.

Lemma dividend_row_ok (h : enriched) : exists o, dividend_row h = Ok o.
Proof.
  unfold dividend_row.
  destruct (dividendYield h) as [dy |]; [| eauto].
  destruct (_ && _ && _); [| eauto].
  destruct (fdiv_ok (fround 2 (fmul (value_of h) dy)) (fint 12)) as (m & ->).
  - intros y Hy. injection Hy as <-. reflexivity.
  - cbn [bind]. eauto.
Qed.

Lemma dividend_row_value (h : enriched) (r : div_row) :
  dividend_row h = Ok (Some r) -> flt fzero (d_currentValue r) = true.
Proof.
  unfold dividend_row. intros H.
  destruct (dividendYield h) as [dy |]; [| discriminate H].
  destruct (truthy dy && flt fzero dy && flt fzero (value_of h)) eqn:E; [| discriminate H].
  apply andb_true_iff in E as [_ E].
  destruct (fdiv _ _) as [m |]; cbn [bind] in H; [| discriminate H].
  apply Ok_inj in H. injection H as <-. exact E.
Qed.

(** X6: the dividend block of [analyze_portfolio] never raises; its rows
    are ordered by annual income, largest first, each has a positive
    current value, and [payingCount] is the number of rows, at most the
    number of holdings. *)
Theorem dividends_of_spec (tv : pyfloat) (hs : list enriched) :
  (exists s, dividends_of tv hs = Ok s) /\
  forall s, dividends_of tv hs = Ok s ->
    Sorted (fun a b => flt (annualIncome a) (annualIncome b) = false) (d_holdings s) /\
    Forall (fun r => flt fzero (d_currentValue r) = true) (d_holdings s) /\
    payingCount s = Z.of_nat (List.length (d_holdings s)) /\
    (List.length (d_holdings s) <= List.length hs)%nat.
Proof.
  split.
  - unfold dividends_of.
    destruct (mapM_ok dividend_row hs (fun h _ => dividend_row_ok h)) as (rs & ->). cbn [bind].
    destruct (flt fzero tv) eqn:Etv.
    + destruct (fdiv_ok (fsum (map annualIncome (somes rs))) tv) as (d & ->).
      { intros y Hy. exact (fzero_lt_nonzero tv y Etv Hy). }
      cbn [bind].
      destruct (fdiv_ok (fsum (map annualIncome (somes rs))) (fint 12)) as (m & ->).
      { intros y Hy. injection Hy as <-. reflexivity. }
      cbn [bind]. eauto.
    + cbn [bind].
      destruct (fdiv_ok (fsum (map annualIncome (somes rs))) (fint 12)) as (m & ->).
      { intros y Hy. injection Hy as <-. reflexivity. }
      cbn [bind]. eauto.
  - intros s H. unfold dividends_of in H.
    bind_step H rs Ers. bind_step H wy Ewy. bind_step H m Em.
    apply Ok_inj in H. subst s. cbn [d_holdings payingCount].
    set (lt := fun a b : div_row => flt (annualIncome b) (annualIncome a)).
    apply mapM_Forall2 in Ers.
    assert (Hv : Forall (fun r => flt fzero (d_currentValue r) = true) (somes rs)).
    { eapply somes_Forall; [| exact Ers]. intros a b Hb. exact (dividend_row_value a b Hb). }
    split; [| split; [| split]].
    + apply (sort_by_sorted_gen lt). intros a b. unfold lt. apply flt_asym.
    + apply Forall_forall. intros r Hr. rewrite Forall_forall in Hv.
      apply Hv. exact (Permutation_in r (sort_by_perm lt _) Hr).
    + rewrite (Permutation_length (sort_by_perm lt _)). reflexivity.
    + rewrite (Permutation_length (sort_by_perm lt _)).
      clear -Ers. induction Ers as [| a o l l' _ _ IH]; [simpl; lia |].
      destruct o; simpl; lia.
Qed.

Lemma dividends_of_spec_witness :
  exists s, dividends_of (fint 16000) sample_portfolio = Ok s /\
    Sorted (fun a b => flt (annualIncome a) (annualIncome b) = false) (d_holdings s) /\
    Forall (fun r => flt fzero (d_currentValue r) = true) (d_holdings s) /\
    payingCount s = Z.of_nat (List.length (d_holdings s)) /\
    (List.length (d_holdings s) <= List.length sample_portfolio)%nat.
Proof.
  destruct (proj1 (dividends_of_spec (fint 16000) sample_portfolio)) as [s E].
  exists s. split; [exact E |]. exact (proj2 (dividends_of_spec (fint 16000) sample_portfolio) s E).
Defined.


Section Keyed.
Context {A : Type} (key : A -> string).

Lemma existsb_key (k : string) (l : list A) :
  existsb (fun e => String.eqb (key e) k) l = true <-> In k (map key l).
Proof.
  induction l as [| e l IH]; simpl; [split; [discriminate | tauto] |].
  rewrite Bool.orb_true_iff, IH. destruct (String.eqb_spec (key e) k); intuition congruence.
Qed.

Lemma bump_keys (k : string) (f : A -> A) (l : list A) :
  (forall e, key (f e) = key e) ->
  map key (map (fun e => if String.eqb (key e) k then f e else e) l) = map key l.
Proof.
  intros Hf. induction l as [| e l IH]; simpl; [reflexivity |].
  rewrite IH. destruct (String.eqb (key e) k); rewrite ?Hf; reflexivity.
Qed.

Lemma bump_absent (k : string) (f : A -> A) (l : list A) :
  ~ In k (map key l) -> map (fun e => if String.eqb (key e) k then f e else e) l = l.
Proof.
  induction l as [| e l IH]; simpl; [reflexivity |]. intros Hn.
  destruct (String.eqb_spec (key e) k) as [E | _]; [exfalso; tauto |].
  rewrite IH; [reflexivity | tauto].
Qed.

Lemma bump_sum (cnt : A -> Z) (k : string) (f : A -> A) (l : list A) :
  (forall e, cnt (f e) = (cnt e + 1)%Z) -> NoDup (map key l) -> In k (map key l) ->
  sumZ (map cnt (map (fun e => if String.eqb (key e) k then f e else e) l)) =
  (sumZ (map cnt l) + 1)%Z.
Proof.
  intros Hf. induction l as [| e l IH]; simpl; [tauto |].
  intros Hnd Hin. inversion Hnd as [| ? ? Hnin Hnd']; subst.
  destruct (String.eqb_spec (key e) k) as [<- | Hne].
  - rewrite bump_absent by exact Hnin. rewrite Hf. lia.
  - destruct Hin as [E | Hin]; [congruence |]. rewrite IH by assumption. lia.
Qed.

Lemma append_absent_nodup (k : string) (x : A) (l : list A) :
  key x = k -> existsb (fun e => String.eqb (key e) k) l = false -> NoDup (map key l) ->
  NoDup (map key (l ++ [x])).
Proof.
  intros Hx Hex Hnd. rewrite map_app. simpl. rewrite Hx.
  apply NoDup_app; [exact Hnd | repeat constructor; simpl; tauto |].
  intros y Hy [<- | []]. apply Bool.not_true_iff_false in Hex. apply Hex, existsb_key, Hy.
Qed.
End Keyed.

Lemma Sorted_map_iff {A B : Type} (R : B -> B -> Prop) (f : A -> B) (l : list A) :
  Sorted R (map f l) <-> Sorted (fun a b => R (f a) (f b)) l.
Proof.
  induction l as [| x l IH]; simpl; [split; constructor |].
  split; intros H; inversion H as [| ? ? Hs Hhd]; subst; constructor; try (apply IH; exact Hs).
  - destruct l as [| y l]; constructor. inversion Hhd; assumption.
  - destruct l as [| y l]; simpl; constructor. inversion Hhd; assumption.
Qed.


Lemma ensure_sector_inv sec m :
  NoDup (sector_keys m) ->
  NoDup (sector_keys (ensure_sector sec m)) /\
  sector_count_sum (ensure_sector sec m) = sector_count_sum m /\
  (forall k, k = sec \/ In k (sector_keys m) -> In k (sector_keys (ensure_sector sec m))).
Proof.
  intros Hnd. unfold ensure_sector, has_sector.
  destruct (existsb _ m) eqn:E.
  - split; [exact Hnd |]. split; [reflexivity |].
    intros k [-> | Hk]; [apply (existsb_key se_sector), E | exact Hk].
  - refine (conj (append_absent_nodup se_sector sec
                     {| se_sector := sec; se_value := fzero; se_count := 0 |} m eq_refl E Hnd) (conj _ _)).
    + unfold sector_count_sum, sumZ. rewrite map_app, fold_right_app. reflexivity.
    + unfold sector_keys. rewrite map_app.
      intros k [-> | Hk]; apply in_or_app; [right; left; reflexivity | left; exact Hk].
Qed.

Lemma add_value_keys sec x m : sector_keys (add_value sec x m) = sector_keys m.
Proof. unfold add_value, sector_keys. apply bump_keys. reflexivity. Qed.

Lemma add_value_counts sec x m : sector_count_sum (add_value sec x m) = sector_count_sum m.
Proof.
  unfold add_value, sector_count_sum. f_equal. induction m as [| e m IH]; simpl; [reflexivity |].
  rewrite IH. destruct (String.eqb (se_sector e) sec); reflexivity.
Qed.

Lemma add_count_keys sec m : sector_keys (add_count sec m) = sector_keys m.
Proof. unfold add_count, sector_keys. apply bump_keys. reflexivity. Qed.

Lemma add_count_sum sec m :
  NoDup (sector_keys m) -> In sec (sector_keys m) ->
  sector_count_sum (add_count sec m) = (sector_count_sum m + 1)%Z.
Proof. intros Hnd Hin. apply (bump_sum se_sector se_count); [reflexivity | exact Hnd | exact Hin]. Qed.

Lemma weights_fold_inv val ws m :
  NoDup (sector_keys m) ->
  let m' := fold_left (fun m kw => let '(sec, w) := kw in
                         add_value sec (fmul val w) (ensure_sector sec m)) ws m in
  NoDup (sector_keys m') /\ sector_count_sum m' = sector_count_sum m /\
  (forall k, In k (map fst ws) \/ In k (sector_keys m) -> In k (sector_keys m')).
Proof.
  revert m. induction ws as [| [sec w] ws IH]; intros m Hnd; simpl.
  - split; [exact Hnd |]. split; [reflexivity |]. intros k [[] | Hk]; exact Hk.
  - destruct (ensure_sector_inv sec m Hnd) as (Hnd1 & Hs1 & Hk1).
    rewrite <- (add_value_keys sec (fmul val w)) in Hnd1.
    destruct (IH _ Hnd1) as (Hnd2 & Hs2 & Hk2).
    split; [exact Hnd2 |]. split; [rewrite Hs2, add_value_counts; exact Hs1 |].
    intros k Hk. apply Hk2. rewrite add_value_keys.
    destruct Hk as [[E | Hk] | Hk]; [right; apply Hk1; left; symmetry; exact E | left; exact Hk |].
    right; apply Hk1; right; exact Hk.
Qed.

Lemma sector_step_inv m h :
  NoDup (sector_keys m) ->
  NoDup (sector_keys (sector_step m h)) /\
  sector_count_sum (sector_step m h) = (sector_count_sum m + 1)%Z.
Proof.
  intros Hnd. unfold sector_step.
  destruct (sectorWeights h) as [[| w0 ws'] |].
  3: idtac.
  all: try (destruct (ensure_sector_inv (plain_sector h) m Hnd) as (Hnd1 & Hs1 & Hk1);
            rewrite add_count_keys; rewrite add_value_keys;
            split; [exact Hnd1 |];
            rewrite add_count_sum by (rewrite ?add_value_keys; auto);
            rewrite add_value_counts, Hs1; reflexivity).
  destruct (weights_fold_inv (value_of h) (w0 :: ws') m Hnd) as (Hnd1 & Hs1 & Hk1).
  cbv zeta in Hnd1, Hs1, Hk1.
  rewrite add_count_keys. split; [exact Hnd1 |].
  rewrite add_count_sum; [rewrite Hs1; reflexivity | exact Hnd1 |].
  apply Hk1. left. apply top_sector_in.
Qed.

Lemma sector_map_inv hs :
  NoDup (sector_keys (sector_map hs)) /\ sector_count_sum (sector_map hs) = Z.of_nat (List.length hs).
Proof.
  unfold sector_map.
  assert (G : forall m, NoDup (sector_keys m) ->
    NoDup (sector_keys (fold_left sector_step hs m)) /\
    sector_count_sum (fold_left sector_step hs m) = (sector_count_sum m + Z.of_nat (List.length hs))%Z).
  { induction hs as [| h hs IH]; intros m Hnd; simpl; [split; [exact Hnd | lia] |].
    destruct (sector_step_inv m h Hnd) as [Hnd1 Hs1].
    destruct (IH _ Hnd1) as [Hnd2 Hs2]. split; [exact Hnd2 | lia]. }
  destruct (G [] (NoDup_nil _)) as [H1 H2]. split; [exact H1 | rewrite H2; reflexivity].
Qed.

Lemma sumZ_perm (l l' : list Z) : Permutation l l' -> sumZ l = sumZ l'.
Proof. induction 1; simpl; lia. Qed.

(** X7: the sector breakdown of [analyze_portfolio] lists each sector once,
    its counts add up to the number of holdings (a fund is counted once,
    in its top look-through sector), and its rows are ordered by value,
    largest first. *)
Theorem by_sector_shape (tv : pyfloat) (hs : list enriched) (rows : list sector_row) :
  by_sector tv hs = Ok rows ->
  NoDup (map sr_sector rows) /\
  sumZ (map sr_count rows) = Z.of_nat (List.length hs) /\
  Sorted (fun a b => flt (sr_value a) (sr_value b) = false) rows.
Proof.
  unfold by_sector. intros H. apply mapM_Forall2 in H.
  set (lt := fun a b : sector_entry => flt (se_value b) (se_value a)) in H.
  set (srt := sort_by lt (sector_map hs)) in H.
  assert (Hsec : map sr_sector rows = map se_sector srt).
  { eapply Forall2_map_eq; [| exact H]. intros a b Hab.
    cbv beta in Hab. destruct (share_pct 1 (se_value a) tv) in Hab; cbn [bind] in Hab; [| discriminate Hab].
    apply Ok_inj in Hab. subst b. reflexivity. }
  assert (Hcnt : map sr_count rows = map se_count srt).
  { eapply Forall2_map_eq; [| exact H]. intros a b Hab.
    cbv beta in Hab. destruct (share_pct 1 (se_value a) tv) in Hab; cbn [bind] in Hab; [| discriminate Hab].
    apply Ok_inj in Hab. subst b. reflexivity. }
  assert (Hval : map sr_value rows = map se_value srt).
  { eapply Forall2_map_eq; [| exact H]. intros a b Hab.
    cbv beta in Hab. destruct (share_pct 1 (se_value a) tv) in Hab; cbn [bind] in Hab; [| discriminate Hab].
    apply Ok_inj in Hab. subst b. reflexivity. }
  destruct (sector_map_inv hs) as [Hnd Hsum].
  pose proof (sort_by_perm lt (sector_map hs)) as Hp. fold srt in Hp.
  split; [| split].
  - rewrite Hsec. refine (Permutation_NoDup _ Hnd). apply Permutation_map. symmetry. exact Hp.
  - rewrite Hcnt, <- Hsum. unfold sector_count_sum. apply sumZ_perm, Permutation_map, Hp.
  - apply (Sorted_map_iff (fun x y => flt x y = false) sr_value). rewrite Hval.
    apply (Sorted_map_iff (fun x y => flt x y = false) se_value).
    apply (sort_by_sorted_gen lt). intros a b. unfold lt. apply flt_asym.
Qed.

(** Witness for X7: the sample portfolio, worth 16000. *)
Lemma by_sector_shape_witness :
  exists rows, by_sector (fint 16000) sample_portfolio = Ok rows /\
  NoDup (map sr_sector rows) /\
  sumZ (map sr_count rows) = Z.of_nat (List.length sample_portfolio) /\
  Sorted (fun a b => flt (sr_value a) (sr_value b) = false) rows.
Proof.
  destruct (by_sector (fint 16000) sample_portfolio) as [rows | e] eqn:E.
  - exists rows. split; [reflexivity | exact (by_sector_shape _ _ _ E)].
  - exfalso. vm_compute in E. discriminate E.
Defined.


Lemma industry_step_inv m h :
  NoDup (map ie_industry m) ->
  NoDup (map ie_industry (industry_step m h)) /\
  sumZ (map ie_count (industry_step m h)) = (sumZ (map ie_count m) + 1)%Z.
Proof.
  intros Hnd. unfold industry_step.
  destruct (if is_fund h then _ else _) as [[ind ik] sec].
  change (fun e : industry_entry => if String.eqb (ie_industry e) ind
            then {| ie_industry := ie_industry e; ie_industryKey := ie_industryKey e;
                    ie_sector := ie_sector e; ie_value := fadd (ie_value e) (value_of h);
                    ie_count := (ie_count e + 1)%Z |} else e)
    with (fun e : industry_entry => if String.eqb (ie_industry e) ind
            then (fun e => industry_bump e (value_of h)) e else e).
  set (m1 := if existsb _ m then m else _).
  assert (H1 : NoDup (map ie_industry m1) /\ In ind (map ie_industry m1) /\
               sumZ (map ie_count m1) = sumZ (map ie_count m)).
  { unfold m1. destruct (existsb _ m) eqn:E.
    - split; [exact Hnd |]. split; [apply (existsb_key ie_industry), E | reflexivity].
    - split; [exact (append_absent_nodup ie_industry ind
                       {| ie_industry := ind; ie_industryKey := ik; ie_sector := sec;
                          ie_value := fzero; ie_count := 0 |} m eq_refl E Hnd) |].
      rewrite !map_app. split; [apply in_or_app; right; left; reflexivity |].
      unfold sumZ. rewrite fold_right_app. reflexivity. }
  destruct H1 as (Hnd1 & Hin1 & Hs1).
  split.
  - rewrite bump_keys; [exact Hnd1 | reflexivity].
  - rewrite (bump_sum ie_industry ie_count); [rewrite Hs1; reflexivity | reflexivity | exact Hnd1 | exact Hin1].
Qed.

Lemma industry_fold_inv hs m0 :
  NoDup (map ie_industry m0) ->
  NoDup (map ie_industry (fold_left industry_step hs m0)) /\
  sumZ (map ie_count (fold_left industry_step hs m0)) =
  (sumZ (map ie_count m0) + Z.of_nat (List.length hs))%Z.
Proof.
  revert m0. induction hs as [| h hs IH]; intros m0 Hnd; simpl; [split; [exact Hnd | lia] |].
  destruct (industry_step_inv m0 h Hnd) as [Hnd1 Hs1].
  destruct (IH _ Hnd1) as [Hnd2 Hs2]. split; [exact Hnd2 | lia].
Qed.

(** X8: the industry breakdown of [analyze_portfolio] lists each industry
    once, its counts add up to the number of holdings, and its rows are
    ordered by value, largest first. *)
Theorem by_industry_shape (tv : pyfloat) (hs : list enriched) (rows : list industry_row) :
  by_industry tv hs = Ok rows ->
  NoDup (map ir_industry rows) /\
  sumZ (map ir_count rows) = Z.of_nat (List.length hs) /\
  Sorted (fun a b => flt (ir_value a) (ir_value b) = false) rows.
Proof.
  unfold by_industry. intros H. apply mapM_Forall2 in H.
  set (lt := fun a b : industry_entry => flt (ie_value b) (ie_value a)) in H.
  set (m := fold_left industry_step hs []) in H.
  set (srt := sort_by lt m) in H.
  assert (Hinv : NoDup (map ie_industry m) /\ sumZ (map ie_count m) = Z.of_nat (List.length hs)).
  { unfold m. destruct (industry_fold_inv hs [] (NoDup_nil _)) as [H1 H2].
    split; [exact H1 | rewrite H2; reflexivity]. }
  destruct Hinv as [Hnd Hsum].
  assert (Hrow : forall a b, (let* p := share_pct 1 (ie_value a) tv in
                   Ok {| ir_industry := ie_industry a; ir_industryKey := ie_industryKey a;
                         ir_sector := ie_sector a; ir_value := ie_value a;
                         ir_count := ie_count a; ir_pct := p |}) = Ok b ->
                 ir_industry b = ie_industry a /\ ir_count b = ie_count a /\ ir_value b = ie_value a).
  { intros a b Hab. destruct (share_pct 1 (ie_value a) tv) in Hab; cbn [bind] in Hab; [| discriminate Hab].
    apply Ok_inj in Hab. subst b. auto. }
  assert (Hind : map ir_industry rows = map ie_industry srt).
  { eapply Forall2_map_eq; [| exact H]. intros a b Hab. apply Hrow in Hab. tauto. }
  assert (Hcnt : map ir_count rows = map ie_count srt).
  { eapply Forall2_map_eq; [| exact H]. intros a b Hab. apply Hrow in Hab. tauto. }
  assert (Hval : map ir_value rows = map ie_value srt).
  { eapply Forall2_map_eq; [| exact H]. intros a b Hab. apply Hrow in Hab. tauto. }
  pose proof (sort_by_perm lt m) as Hp. fold srt in Hp.
  split; [| split].
  - rewrite Hind. refine (Permutation_NoDup _ Hnd). apply Permutation_map. symmetry. exact Hp.
  - rewrite Hcnt, <- Hsum. apply sumZ_perm, Permutation_map, Hp.
  - apply (Sorted_map_iff (fun x y => flt x y = false) ir_value). rewrite Hval.
    apply (Sorted_map_iff (fun x y => flt x y = false) ie_value).
    apply (sort_by_sorted_gen lt). intros a b. unfold lt. apply flt_asym.
Qed.

(** Witness for X8: the sample portfolio, worth 16000. *)
Lemma by_industry_shape_witness :
  exists rows, by_industry (fint 16000) sample_portfolio = Ok rows /\
  NoDup (map ir_industry rows) /\
  sumZ (map ir_count rows) = Z.of_nat (List.length sample_portfolio) /\
  Sorted (fun a b => flt (ir_value a) (ir_value b) = false) rows.
Proof.
  destruct (by_industry (fint 16000) sample_portfolio) as [rows | e] eqn:E.
  - exists rows. split; [reflexivity | exact (by_industry_shape _ _ _ E)].
  - exfalso. vm_compute in E. discriminate E.
Defined.

Lemma str_ltb_trans (a b c : string) : str_ltb a b = true -> str_ltb b c = true -> str_ltb a c = true.
Proof.
  revert b c. induction a as [| x a IH]; intros [| y b] [| z c]; simpl; try discriminate; auto.
  destruct (Nat.ltb_spec (nat_of_ascii x) (nat_of_ascii y));
  destruct (Nat.ltb_spec (nat_of_ascii y) (nat_of_ascii z));
  destruct (Nat.ltb_spec (nat_of_ascii x) (nat_of_ascii z)); auto;
  destruct (Nat.eqb_spec (nat_of_ascii x) (nat_of_ascii y));
  destruct (Nat.eqb_spec (nat_of_ascii y) (nat_of_ascii z));
  destruct (Nat.eqb_spec (nat_of_ascii x) (nat_of_ascii z)); try lia; try discriminate; eauto.
Qed.

Lemma str_ltb_irrefl (a : string) : str_ltb a a = false.
Proof.
  induction a as [| x a IH]; simpl; [reflexivity |].
  rewrite Nat.ltb_irrefl, Nat.eqb_refl. exact IH.
Qed.

Lemma in_list_In (s : string) (l : list string) : in_list s l = true <-> In s l.
Proof.
  unfold in_list. rewrite existsb_exists. split.
  - intros (x & Hx & E). apply String.eqb_eq in E. subst. exact Hx.
  - intros H. exists s. split; [exact H | apply String.eqb_refl].
Qed.

Lemma StronglySorted_filter {A : Type} (R : A -> A -> Prop) (p : A -> bool) l :
  StronglySorted R l -> StronglySorted R (filter p l).
Proof.
  induction 1 as [| x l _ IH Hx]; simpl; [constructor |].
  destruct (p x); [| exact IH]. constructor; [exact IH |].
  rewrite Forall_forall in *. intros y Hy. apply filter_In in Hy. apply Hx, Hy.
Qed.

Lemma allowed_industries_sorted :
  Sorted (fun a b => str_ltb a b = true) (sort_by str_ltb allowed_industries).
Proof. vm_compute. repeat constructor. Qed.

Lemma allowed_industries_nonempty k : In k allowed_industries -> k <> EmptyString.
Proof. intros H ->. vm_compute in H. repeat (destruct H as [H | H]; [discriminate H |]). exact H. Qed.

(** X9: [gap_industries] lists exactly the allowed industries that no
    holding carries as its industry key, without repetition, in ascending
    string order. *)
Theorem gap_industries_spec (hs : list enriched) :
  (forall k, In k (gap_industries hs) <->
             In k allowed_industries /\ ~ In k (map industryKey hs)) /\
  StronglySorted (fun a b => str_ltb a b = true) (gap_industries hs).
Proof.
  unfold gap_industries. split.
  - intros k. rewrite filter_In.
    split.
    + intros [Hk Hn]. apply Bool.negb_true_iff in Hn.
      assert (Ha : In k allowed_industries) by exact (Permutation_in k (sort_by_perm _ _) Hk).
      split; [exact Ha |]. intros Hin. apply Bool.not_true_iff_false in Hn. apply Hn, in_list_In.
      apply in_map_iff in Hin as (h & Hh & Hin). apply in_map_iff. exists h. split; [exact Hh |].
      apply filter_In. split; [exact Hin |]. rewrite Hh.
      apply Bool.negb_true_iff, String.eqb_neq, allowed_industries_nonempty, Ha.
    + intros [Ha Hn]. split.
      * exact (Permutation_in k (Permutation_sym (sort_by_perm _ _)) Ha).
      * apply Bool.negb_true_iff, Bool.not_true_iff_false. intros Hin. apply in_list_In in Hin.
        apply Hn. apply in_map_iff in Hin as (h & Hh & Hin). apply filter_In in Hin as [Hin _].
        apply in_map_iff. exists h. tauto.
  - apply StronglySorted_filter. apply Sorted_StronglySorted; [| exact allowed_industries_sorted].
    intros a b c. apply str_ltb_trans.
Qed.

Lemma manual_merge_shape (a b c : holding) :
  manual_merge a b = Ok c ->
  symbol c = symbol a /\ currentValue c = currentValue a /\ pctOfAccount c = pctOfAccount a.
Proof.
  unfold manual_merge. intros H. bind_step H cb Ecb. apply Ok_inj in H. subst c. auto.
Qed.

Lemma manual_upsert_inv (P : holding -> Prop) (h : holding) (m m' : list holding) :
  (forall a b c, manual_merge a b = Ok c -> P a -> P c) ->
  manual_upsert h m = Ok m' ->
  map symbol m' = map symbol (upsert h m) /\ (P h -> Forall P m -> Forall P m').
Proof.
  intros HP. revert m'. induction m as [| m0 r IH]; intros m' H; simpl in H |- *.
  - apply Ok_inj in H. subst m'. split; [reflexivity |]. intros Ph _. constructor; auto.
  - destruct (String.eqb (symbol m0) (symbol h)).
    + bind_step H c Ec. apply Ok_inj in H. subst m'.
      pose proof (manual_merge_shape _ _ _ Ec) as (Hs & _ & _). simpl. rewrite Hs.
      split; [reflexivity |]. intros Ph Hm. inversion Hm; subst. constructor; eauto.
    + bind_step H r' Er. apply Ok_inj in H. subst m'.
      destruct (IH r' eq_refl) as [IH1 IH2]. simpl. rewrite IH1.
      split; [reflexivity |]. intros Ph Hm. inversion Hm; subst. constructor; auto.
Qed.

Lemma manual_consolidate_inv (P : holding -> Prop) (merged raw out : list holding) :
  (forall a b c, manual_merge a b = Ok c -> P a -> P c) ->
  manual_consolidate merged raw = Ok out ->
  NoDup (map symbol merged) -> Forall P merged -> Forall P raw ->
  NoDup (map symbol out) /\ Forall P out.
Proof.
  intros HP. revert merged. induction raw as [| h r IH]; intros merged H Hnd Hm Hr; simpl in H.
  - apply Ok_inj in H. subst. auto.
  - bind_step H m' Em. inversion Hr as [| ? ? Ph Pr]; subst.
    destruct (manual_upsert_inv P h merged m' HP Em) as [Hs Hf].
    apply (IH m'); [exact H | | exact (Hf Ph Hm) | exact Pr].
    rewrite Hs. apply upsert_nodup, Hnd.
Qed.

Lemma manual_entry_shape (e : pyval) (h : holding) :
  manual_entry e = Ok (Some h) ->
  is_ticker (symbol h) = true /\ in_list (symbol h) skip_symbols = false /\
  currentValue h = Some fzero /\ pctOfAccount h = Some fzero.
Proof.
  unfold manual_entry. intros H. bind_step H sv Esv.
  destruct (is_ticker _) eqn:Et; cbn [negb] in H; [| discriminate H].
  destruct (in_list _ skip_symbols) eqn:Es; [discriminate H |].
  bind_step H shv Eshv. bind_step H sh Esh.
  destruct sh as [sh |]; [| discriminate H].
  destruct (fle sh fzero); [discriminate H |].
  bind_step H cv Ecv. bind_step H cps Ecps.
  apply Ok_inj in H. injection H as <-. auto.
Qed.

(** X10: when [build_holdings_from_manual] succeeds, its holdings have
    distinct symbols, each symbol is an upper-case ticker of 1 to 10 letters
    outside the skip list, and every holding has current value 0 and account
    share 0. *)
Theorem build_holdings_from_manual_shape (entries : list pyval) (hs : list holding) :
  build_holdings_from_manual entries = Ok hs ->
  NoDup (map symbol hs) /\
  Forall (fun h => is_ticker (symbol h) = true /\ in_list (symbol h) skip_symbols = false /\
                   currentValue h = Some fzero /\ pctOfAccount h = Some fzero) hs.
Proof.
  unfold build_holdings_from_manual. intros H. bind_step H raw Eraw.
  apply (manual_consolidate_inv _ [] (somes raw)); [| exact H | constructor | constructor |].
  - intros a b c Hc Pa. apply manual_merge_shape in Hc as (-> & -> & ->). exact Pa.
  - apply mapM_Forall2 in Eraw. eapply somes_Forall; [| exact Eraw].
    intros a b Hb. exact (manual_entry_shape a b Hb).
Qed.

Lemma build_holdings_from_manual_shape_witness :
  exists hs, build_holdings_from_manual manual_entries_sample = Ok hs /\
  NoDup (map symbol hs) /\
  Forall (fun h => is_ticker (symbol h) = true /\ in_list (symbol h) skip_symbols = false /\
                   currentValue h = Some fzero /\ pctOfAccount h = Some fzero) hs.
Proof.
  destruct (build_holdings_from_manual manual_entries_sample) as [hs | e] eqn:E.
  - exists hs. split; [reflexivity |]. exact (build_holdings_from_manual_shape _ _ E).
  - vm_compute in E. discriminate E.
Defined.

Lemma str_ltb_asym (a b : string) : str_ltb a b = true -> str_ltb b a = false.
Proof.
  intros Hab. destruct (str_ltb b a) eqn:Hba; [| reflexivity].
  pose proof (str_ltb_trans a b a Hab Hba) as H. rewrite str_ltb_irrefl in H. discriminate H.
Qed.

Lemma str_ltb_total (a b : string) : a <> b -> str_ltb a b = true \/ str_ltb b a = true.
Proof.
  revert b. induction a as [| x a IH]; intros [| y b] Hne; simpl; auto.
  destruct (Nat.ltb_spec (nat_of_ascii x) (nat_of_ascii y)); auto.
    destruct (Nat.ltb_spec (nat_of_ascii y) (nat_of_ascii x)); auto.
    assert (Hxy : nat_of_ascii x = nat_of_ascii y) by lia.
    rewrite Hxy, Nat.eqb_refl. apply IH. intros ->. apply Hne.
    rewrite <- (ascii_nat_embedding x), <- (ascii_nat_embedding y), Hxy. reflexivity.
Qed.

Lemma dedup_fold_spec (l acc : list string) :
  NoDup acc ->
  let r := fold_left (fun acc d => if in_list d acc then acc else (acc ++ [d])%list) l acc in
  NoDup r /\ (forall x, In x r <-> In x acc \/ In x l).
Proof.
  revert acc. induction l as [| d l IH]; intros acc Hnd; simpl.
  - split; [exact Hnd | intros x; tauto].
  - destruct (in_list d acc) eqn:Ed.
    + apply in_list_In in Ed. destruct (IH acc Hnd) as [H1 H2]. split; [exact H1 |].
      intros x. rewrite H2. split; [tauto |]. intros [? | [<- | ?]]; tauto.
    + assert (Hn : ~ In d acc) by (intros Hi; apply in_list_In in Hi; congruence).
      assert (Hnd' : NoDup (acc ++ [d])).
      { apply NoDup_app; [exact Hnd | repeat constructor; simpl; tauto |].
        intros x Hx [<- | []]. exact (Hn Hx). }
      destruct (IH _ Hnd') as [H1 H2]. split; [exact H1 |].
      intros x. rewrite H2, in_app_iff. simpl. tauto.
Qed.

Lemma Sorted_strict {A : Type} (R R' : A -> A -> Prop) (l : list A) :
  (forall a b, R a b -> a <> b -> R' a b) -> Sorted R l -> NoDup l -> Sorted R' l.
Proof.
  intros HR. induction 1 as [| x l Hs IH Hhd]; intros Hnd; constructor.
  - inversion Hnd; subst. auto.
  - inversion Hnd as [| ? ? Hx _]; subst. destruct Hhd as [| y l' Hxy]; constructor.
    apply HR; [exact Hxy |]. intros ->. apply Hx. left. reflexivity.
Qed.


Lemma union_dates_spec (hists : list history) :
  (forall d, In d (union_dates hists) <-> In d (flat_map h_dates hists)) /\
  StronglySorted (fun a b => str_ltb a b = true) (union_dates hists).
Proof.
  unfold union_dates.
  destruct (dedup_fold_spec (flat_map h_dates hists) [] (NoDup_nil _)) as [Hnd Hin].
  cbv zeta in Hnd, Hin.
  split.
  - intros d. split; intros H.
    + apply (Permutation_in d (sort_by_perm _ _)) in H. apply Hin in H. simpl in H. tauto.
    + apply (Permutation_in d (Permutation_sym (sort_by_perm _ _))). apply Hin. tauto.
  - apply Sorted_StronglySorted; [intros a b c; apply str_ltb_trans |].
    apply (Sorted_strict (fun a b => str_ltb b a = false)).
    + intros a b Hba Hne. destruct (str_ltb_total a b Hne) as [H | H]; [exact H | congruence].
    + apply sort_by_sorted_gen. apply str_ltb_asym.
    + exact (Permutation_NoDup (Permutation_sym (sort_by_perm _ _)) Hnd).
Qed.

Lemma holding_return_symbol (hm : list (string * history)) (h : holding) (r : perf_row) :
  holding_return hm h = Ok r -> hr_symbol r = symbol h.
Proof.
  unfold holding_return. intros H. bind_step H rs Ers. destruct rs as [ret sv].
  apply Ok_inj in H. subst r. reflexivity.
Qed.

Lemma holding_returns_symbols (hm : list (string * history)) (l : list holding) (l' : list perf_row) :
  Forall2 (fun a b => holding_return hm a = Ok b) l l' -> map hr_symbol l' = map symbol l.
Proof.
  induction 1 as [| a b l l' Hab _ IH]; [reflexivity |].
  simpl. rewrite (holding_return_symbol _ _ _ Hab), IH. reflexivity.
Qed.

Lemma history_map_dates (fth : string -> string -> option history) (period : string)
    (valid : list holding) (d : string) :
  In d (flat_map h_dates (map snd (flat_map (fun h => match fth (symbol h) period with
                                                   | Some r => [(symbol h, r)] | None => [] end) valid))) <->
  exists h hist, In h valid /\ fth (symbol h) period = Some hist /\ In d (h_dates hist).
Proof.
  rewrite in_flat_map. split.
  - intros (hist & Hh & Hd). apply in_map_iff in Hh as ([s hist'] & Hs & Hin). simpl in Hs. subst hist'.
    apply in_flat_map in Hin as (h & Hh & Hin).
    destruct (fth (symbol h) period) as [r |] eqn:Ef; [| destruct Hin].
    destruct Hin as [Hin | []]. injection Hin as <- <-. exists h, r. auto.
  - intros (h & hist & Hh & Hf & Hd). exists hist. split; [| exact Hd].
    apply in_map_iff. exists (symbol h, hist). split; [reflexivity |].
    apply in_flat_map. exists h. split; [exact Hh |]. rewrite Hf. left. reflexivity.
Qed.

Lemma fold_snd_length {B C X : Type} (f : B * list C -> X -> B * list C) (xs : list X) st :
  (forall st x, List.length (snd (f st x)) = S (List.length (snd st))) ->
  List.length (snd (fold_left f xs st)) = (List.length (snd st) + List.length xs)%nat.
Proof.
  intros Hf. revert st. induction xs as [| x xs IH]; intros st; simpl; [lia |].
  rewrite IH, Hf. lia.
Qed.

Lemma benchmark_length fth period dates sv :
  fst (benchmark fth period dates sv) = [] \/
  List.length (fst (benchmark fth period dates sv)) = List.length dates.
Proof.
  unfold benchmark.
  destruct (fth "SPY"%string period) as [spy |]; [| left; reflexivity].
  destruct (h_dates spy) as [| d0 ds]; [left; reflexivity |].
  destruct (h_closes spy) as [| c0 cs]; [left; reflexivity |].
  destruct (truthy c0 && flt fzero c0); [| left; reflexivity].
  destruct (fdiv sv c0) as [norm | e]; [| left; reflexivity].
  right. match goal with
  | |- context [fold_left ?f dates ?st] => assert (E := fold_snd_length f dates st)
  end.
  match goal with
  | |- context [match ?m with Ok _ => _ | Err _ => _ end] => destruct m
  end; cbn [fst];
  (rewrite E; [reflexivity | intros st x; cbn [snd]; rewrite length_app; simpl; lia]).
Qed.

(** X11: a result of [fetch_portfolio_performance] has a valid period and
    strictly ascending dates with one portfolio value per date; its holding
    returns are sorted by descending return, best and worst being the first
    and the last; the benchmark series is empty or has one value per date.
    Either the result is the empty one (no dates, no holding returns), or it
    has at least two dates, which are exactly the dates of the fetched
    histories of the holdings with a positive value, and one holding return
    for each such holding. *)
Theorem fetch_portfolio_performance_shape
    (fetch_ticker_history : string -> string -> option history)
    (pool_times_out : list string -> string -> bool)
    (holdings : list holding) (period0 : string) (p : performance) :
  fetch_portfolio_performance fetch_ticker_history pool_times_out holdings period0 = Ok p ->
  In (perf_period p) valid_periods /\
  StronglySorted (fun a b => str_ltb a b = true) (perf_dates p) /\
  List.length (portfolioValues p) = List.length (perf_dates p) /\
  Sorted (fun a b => flt (hr_returnPct a) (hr_returnPct b) = false) (holdingReturns p) /\
  bestPerformer p = hd_error (holdingReturns p) /\
  worstPerformer p = hd_error (rev (holdingReturns p)) /\
  match benchmarkValues p with
  | Some v => v = [] \/ List.length v = List.length (perf_dates p)
  | None => perf_dates p = []
  end /\
  ((perf_dates p = [] /\ holdingReturns p = []) \/
   ((2 <= List.length (perf_dates p))%nat /\
    (forall d, In d (perf_dates p) <->
       exists h hist, In h holdings /\ flt fzero (or0 (currentValue h)) = true /\
                      fetch_ticker_history (symbol h) (perf_period p) = Some hist /\
                      In d (h_dates hist)) /\
    Permutation (map hr_symbol (holdingReturns p))
                (map symbol (filter (fun h => flt fzero (or0 (currentValue h))) holdings)))).
Proof.
  intros H. unfold fetch_portfolio_performance in H. cbv zeta in H.
  set (period := if in_list period0 valid_periods then period0 else "1mo"%string) in H.
  assert (Hper : In period valid_periods).
  { unfold period. destruct (in_list period0 valid_periods) eqn:E.
    - apply in_list_In. exact E.
    - simpl. tauto. }
  remember (filter (fun h => flt fzero (or0 (currentValue h))) holdings) as valid eqn:Ev.
  destruct valid as [| v0 vr].
  { apply Ok_inj in H. subst p. cbn. repeat split; auto; constructor. }
  destruct (pool_times_out _ _); [discriminate H |].
  remember (flat_map _ (v0 :: vr)) as hm eqn:Ehm.
  destruct hm as [| hm0 hmr].
  { apply Ok_inj in H. subst p. cbn. repeat split; auto; constructor. }
  destruct (Nat.ltb_spec (List.length (union_dates (map snd (hm0 :: hmr)))) 2) as [Hl | Hl].
  { apply Ok_inj in H. subst p. cbn. repeat split; auto; constructor. }
  bind_step H pv Epv. bind_step H sv Esv. bind_step H ev Eev. bind_step H pr Epr.
  bind_step H hr Ehr.
  pose proof (benchmark_length fetch_ticker_history period (union_dates (map snd (hm0 :: hmr))) sv) as Hb.
  destruct (benchmark _ _ _ _) as [bv br]. cbn [fst] in Hb.
  apply Ok_inj in H. subst p. cbn [perf_period perf_dates portfolioValues holdingReturns
    bestPerformer worstPerformer benchmarkValues].
  destruct (union_dates_spec (map snd (hm0 :: hmr))) as [Hd Hs].
  set (lt := fun a b : perf_row => flt (hr_returnPct b) (hr_returnPct a)).
  split; [exact Hper |]. split; [exact Hs |].
  split; [apply mapM_Forall2, Forall2_length in Epv; exact (eq_sym Epv) |].
  split; [apply (sort_by_sorted_gen lt); intros a b; apply flt_asym |].
  split; [reflexivity |]. split; [reflexivity |]. split; [exact Hb |].
  right. split; [exact Hl |]. split.
  - intros d. rewrite Hd, Ehm, history_map_dates. rewrite Ev.
    split.
    + intros (h & hist & Hh & Hf & Hin). apply filter_In in Hh as [Hh Hp]. exists h, hist. auto.
    + intros (h & hist & Hh & Hp & Hf & Hin). exists h, hist. rewrite filter_In. auto.
  - rewrite (Permutation_map hr_symbol (sort_by_perm lt hr)).
    apply mapM_Forall2, holding_returns_symbols in Ehr. rewrite Ehr. reflexivity.
Qed.

Lemma fetch_portfolio_performance_shape_witness :
  exists p, fetch_portfolio_performance sample_history (fun _ _ => false) sample_perf_holdings
              "1mo"%string = Ok p /\
  In (perf_period p) valid_periods /\
  StronglySorted (fun a b => str_ltb a b = true) (perf_dates p) /\
  List.length (portfolioValues p) = List.length (perf_dates p) /\
  Sorted (fun a b => flt (hr_returnPct a) (hr_returnPct b) = false) (holdingReturns p) /\
  bestPerformer p = hd_error (holdingReturns p) /\
  worstPerformer p = hd_error (rev (holdingReturns p)) /\
  match benchmarkValues p with
  | Some v => v = [] \/ List.length v = List.length (perf_dates p)
  | None => perf_dates p = []
  end /\
  ((perf_dates p = [] /\ holdingReturns p = []) \/
   ((2 <= List.length (perf_dates p))%nat /\
    (forall d, In d (perf_dates p) <->
       exists h hist, In h sample_perf_holdings /\ flt fzero (or0 (currentValue h)) = true /\
                      sample_history (symbol h) (perf_period p) = Some hist /\
                      In d (h_dates hist)) /\
    Permutation (map hr_symbol (holdingReturns p))
                (map symbol (filter (fun h => flt fzero (or0 (currentValue h))) sample_perf_holdings)))).
Proof.
  destruct (fetch_portfolio_performance sample_history (fun _ _ => false) sample_perf_holdings
              "1mo"%string) as [p | e] eqn:E.
  - exists p. split; [reflexivity | exact (fetch_portfolio_performance_shape _ _ _ _ _ E)].
  - exfalso. vm_compute in E. discriminate E.
Defined.

Lemma py_setitem_spec {A : Type} (l l' : list A) (i : nat) (x : A) :
  py_setitem l i x = Ok l' ->
  (i < List.length l)%nat /\ List.length l' = List.length l /\
  forall k, nth_error l' k = if Nat.eqb k i then Some x else nth_error l k.
Proof.
  unfold py_setitem. destruct (Nat.ltb_spec i (List.length l)) as [Hi | Hi]; [| discriminate].
  intros H. apply Ok_inj in H. subst l'. split; [exact Hi |]. split.
  - rewrite length_app, length_firstn. cbn [List.length]. rewrite length_skipn. lia.
  - intros k. rewrite nth_error_app, length_firstn, nth_error_firstn.
    replace (Nat.min i (List.length l)) with i by lia.
    destruct (Nat.ltb_spec k i) as [Hk | Hk].
    + destruct (Nat.eqb_spec k i); [lia | reflexivity].
    + destruct (Nat.eqb_spec k i) as [-> | Hne].
      * rewrite Nat.sub_diag. reflexivity.
      * replace (k - i)%nat with (S (k - S i)) by lia. cbn [nth_error].
        rewrite nth_error_skipn. f_equal. lia.
Qed.

Lemma matrix_set_spec (m m' : list (list pyfloat)) (i j : nat) (x : pyfloat) (n : nat) :
  matrix_set m i j x = Ok m' ->
  List.length m = n -> Forall (fun row => List.length row = n) m ->
  List.length m' = n /\ Forall (fun row => List.length row = n) m' /\
  forall a b, cell_at m' a b = if Nat.eqb a i && Nat.eqb b j then Some x else cell_at m a b.
Proof.
  unfold matrix_set, py_index. intros H Hl Hr.
  destruct (nth_error m i) as [row |] eqn:Erow; cbn [bind] in H; [| discriminate H].
  bind_step H row' Erow'.
  apply py_setitem_spec in Erow' as (Hj & Hlen' & Hrow').
  apply py_setitem_spec in H as (Hi & Hlen & Hm').
  split; [lia |]. split.
  - apply Forall_forall. intros r Hr'. apply In_nth_error in Hr' as (k & Hk).
    rewrite Hm' in Hk. destruct (Nat.eqb k i).
    + injection Hk as <-. rewrite Hlen'. rewrite Forall_forall in Hr. apply Hr.
      exact (nth_error_In _ _ Erow).
    + rewrite Forall_forall in Hr. apply Hr. exact (nth_error_In _ _ Hk).
  - intros a b. unfold cell_at. rewrite Hm'.
    destruct (Nat.eqb_spec a i) as [-> | _]; simpl.
    + rewrite Erow, Hrow'. destruct (Nat.eqb b j); reflexivity.
    + reflexivity.
Qed.

Lemma corr_step_inv fsqrt fsquare rm syms n i j st st' :
  corr_inv n i j st -> corr_step fsqrt fsquare rm syms i st j = Ok st' -> corr_inv n i (S j) st'.
Proof.
  destruct st as [m high]. unfold corr_inv; cbn [fst snd].
  intros (Hl & Hr & Hs & Hd & Hh) H. unfold corr_step in H.
  destruct (Nat.eqb_spec i j) as [<- | Hne].
  - bind_step H m' Em. apply Ok_inj in H. subst st'. cbn [fst snd].
    destruct (matrix_set_spec _ _ _ _ _ _ Em Hl Hr) as (Hl' & Hr' & Hc).
    split; [exact Hl' |]. split; [exact Hr' |]. split; [| split; [| exact Hh]].
    + intros a b. rewrite !Hc. rewrite (Hs a b).
      destruct (Nat.eqb_spec a i), (Nat.eqb_spec b i); subst; reflexivity.
    + intros a Ha. rewrite Hc. destruct (Nat.eqb_spec a i) as [-> | Hai]; [reflexivity |].
      apply Hd. lia.
  - destruct (Nat.ltb_spec i j) as [Hij | Hij].
    + bind_step H si Esi. bind_step H sj Esj. bind_step H xs Exs. bind_step H ys Eys.
      bind_step H corr Ecorr. bind_step H m1 Em1. bind_step H m2 Em2.
      apply Ok_inj in H. subst st'. cbn [fst snd].
      destruct (matrix_set_spec _ _ _ _ _ _ Em1 Hl Hr) as (Hl1 & Hr1 & Hc1).
      destruct (matrix_set_spec _ _ _ _ _ _ Em2 Hl1 Hr1) as (Hl2 & Hr2 & Hc2).
      split; [exact Hl2 |]. split; [exact Hr2 |]. split; [| split].
      * intros a b. rewrite !Hc2, !Hc1, (Hs a b).
        destruct (Nat.eqb_spec a i), (Nat.eqb_spec b i), (Nat.eqb_spec a j), (Nat.eqb_spec b j);
          subst; try reflexivity; lia.
      * intros a Ha. rewrite Hc2, Hc1.
        assert (Eaj : Nat.eqb a j = false) by (apply Nat.eqb_neq; lia).
        rewrite Eaj, andb_false_r. cbn [andb]. apply Hd. lia.
      * destruct (flt _ _) eqn:Ef; [| exact Hh].
        apply Forall_app. split; [exact Hh |]. constructor; [exact Ef | constructor].
    + apply Ok_inj in H. subst st'. cbn [fst snd].
      split; [exact Hl |]. split; [exact Hr |]. split; [exact Hs |]. split; [| exact Hh].
      intros a Ha. apply Hd. lia.
Qed.

Lemma foldM_seq_inv {A : Type} (P : nat -> A -> Prop) (f : A -> nat -> res A) (start len : nat) a a' :
  (forall k x y, (start <= k < start + len)%nat -> P k x -> f x k = Ok y -> P (S k) y) ->
  P start a -> foldM f (seq start len) a = Ok a' -> P (start + len)%nat a'.
Proof.
  revert start a. induction len as [| len IH]; intros start a Hf Ha H; simpl in H.
  - apply Ok_inj in H. subst. rewrite Nat.add_0_r. exact Ha.
  - bind_step H b Eb. replace (start + S len)%nat with (S start + len)%nat by lia.
    apply (IH (S start) b); [| exact (Hf start a b ltac:(lia) Ha Eb) | exact H].
    intros k x y Hk. apply Hf. lia.
Qed.

Lemma cell_at_repeat (z : pyfloat) (n a b : nat) :
  cell_at (repeat (repeat z n) n) a b = if (a <? n)%nat && (b <? n)%nat then Some z else None.
Proof.
  unfold cell_at. destruct (Nat.ltb_spec a n) as [Ha | Ha].
  - rewrite (nth_error_repeat _ Ha). destruct (Nat.ltb_spec b n) as [Hb | Hb].
    + exact (nth_error_repeat _ Hb).
    + apply nth_error_None. rewrite repeat_length. exact Hb.
  - rewrite (proj2 (nth_error_None _ _)); [reflexivity |]. rewrite repeat_length. exact Ha.
Qed.

Lemma matrix_loop_inv fsqrt fsquare rm syms n m high :
  foldM (fun st i => foldM (corr_step fsqrt fsquare rm syms i) (seq 0 n) st) (seq 0 n)
        (repeat (repeat fzero n) n, []) = Ok (m, high) ->
  corr_inv n n 0 (m, high).
Proof.
  intros H.
  apply (foldM_seq_inv (fun i st => corr_inv n i 0 st)
           (fun st i => foldM (corr_step fsqrt fsquare rm syms i) (seq 0 n) st) 0 n
           (repeat (repeat fzero n) n, [])); [| | exact H].
  - intros i st st' Hi Hst Hin.
    assert (G := foldM_seq_inv (fun j st => corr_inv n i j st) (corr_step fsqrt fsquare rm syms i) 0 n st st').
    simpl in G. destruct (G (fun j x y _ Hx Hy => corr_step_inv fsqrt fsquare rm syms n i j x y Hx Hy) Hst Hin)
      as (Hl & Hr & Hs & Hd & Hh).
    split; [exact Hl |]. split; [exact Hr |]. split; [exact Hs |]. split; [| exact Hh].
    intros a Ha. apply Hd. lia.
  - unfold corr_inv; cbn [fst snd]. split; [apply repeat_length |]. split.
    { apply Forall_forall. intros r Hr. apply repeat_spec in Hr. subst r. apply repeat_length. }
    split; [| split; [intros a Ha; lia | constructor]].
    intros a b. rewrite !cell_at_repeat. rewrite andb_comm. reflexivity.
Qed.

Lemma select_targets_in (mx : Z) (hs acc : list enriched) (h : enriched) :
  In h (select_targets mx hs acc) ->
  In h acc \/ (In h hs /\ is_fund h = false /\ fle (value_of h) fzero = false).
Proof.
  revert acc. induction hs as [| x r IH]; intros acc Hin; simpl in Hin; [left; exact Hin |].
  destruct (is_fund x) eqn:Ef.
  { destruct (IH acc Hin) as [H | (H1 & H2)]; [left; exact H | right; simpl; auto]. }
  destruct (fle (value_of x) fzero) eqn:Ev.
  { destruct (IH acc Hin) as [H | (H1 & H2)]; [left; exact H | right; simpl; auto]. }
  assert (Hacc : forall y, In y (acc ++ [x]) -> In y acc \/ (In y (x :: r) /\ is_fund y = false /\
                                                   fle (value_of y) fzero = false)).
  { intros y Hy. apply in_app_iff in Hy as [Hy | [<- | []]]; [left; exact Hy |]. right. simpl. auto. }
  destruct (mx <=? Z.of_nat (List.length (acc ++ [x])))%Z; [exact (Hacc h Hin) |].
  destruct (IH _ Hin) as [H | (H1 & H2)]; [exact (Hacc h H) | right; simpl; auto].
Qed.

Lemma select_targets_len (mx : Z) (hs acc : list enriched) :
  (Z.of_nat (List.length acc) < Z.max mx 1)%Z ->
  (Z.of_nat (List.length (select_targets mx hs acc)) <= Z.max mx 1)%Z.
Proof.
  revert acc. induction hs as [| x r IH]; intros acc Hacc; simpl; [lia |].
  destruct (is_fund x); [exact (IH acc Hacc) |].
  destruct (fle (value_of x) fzero); [exact (IH acc Hacc) |].
  destruct (Z.leb_spec mx (Z.of_nat (List.length (acc ++ [x])))) as [Hle | Hlt].
  - rewrite length_app. cbn [List.length]. lia.
  - apply IH. rewrite length_app in *. cbn [List.length] in *. lia.
Qed.

Lemma dict_has_set {A : Type} (k k' : string) (v : A) (d : list (string * A)) :
  dict_has k' (dict_set k v d) = String.eqb k k' || dict_has k' d.
Proof.
  unfold dict_has. induction d as [| [k0 v0] r IH]; simpl.
  - rewrite orb_false_r. reflexivity.
  - destruct (String.eqb_spec k0 k) as [-> | Hne]; simpl.
    + destruct (String.eqb k k'); reflexivity.
    + rewrite IH. destruct (String.eqb k0 k'), (String.eqb k k'); reflexivity.
Qed.

Lemma history_map_has (fth : string -> string -> option history) (ts : list enriched)
    (hm : list (string * history)) (k : string) :
  dict_has k (fold_left (fun hm h =>
                 let sym := symbol (base h) in
                 match fth sym "3mo"%string with
                 | Some result =>
                     if (5 <=? List.length (h_closes result))%nat then dict_set sym result hm else hm
                 | None => hm
                 end) ts hm) = true ->
  dict_has k hm = true \/
  exists hist, fth k "3mo"%string = Some hist /\ (5 <= List.length (h_closes hist))%nat.
Proof.
  revert hm. induction ts as [| t ts IH]; intros hm H; cbn [fold_left] in H; [left; exact H |].
  destruct (IH _ H) as [H1 | H1]; [| right; exact H1]. cbv zeta in H1.
  destruct (fth (symbol (base t)) "3mo"%string) as [res0 |] eqn:Ef; [| left; exact H1].
  destruct (Nat.leb_spec 5 (List.length (h_closes res0))) as [Hl | Hl]; [| left; exact H1].
  rewrite dict_has_set in H1. apply orb_true_iff in H1 as [H1 | H1]; [| left; exact H1].
  apply String.eqb_eq in H1. subst k. right. exists res0. auto.
Qed.

Ltac empty_corr_case :=
  cbn [cm_symbols cm_matrix highCorrelations empty_corr List.length];
  split; [left; reflexivity |]; split; [intros ? [] |]; split; [reflexivity |];
  split; [constructor |]; split; [intros ? Hi; lia |];
  split; [intros [|] [|]; reflexivity |]; split; constructor.

(** X12: when [compute_correlation_matrix] returns a result, its symbols
    are empty or at least two and at most [max_holdings]; each symbol is
    that of a non-fund holding that the [(currentValue or 0) <= 0] test
    lets through (a positive value, or a NaN one, for which the test is
    false) and that has a history of at least five closes; the matrix is square of the symbols' size, with
    [1.0] on the diagonal, and symmetric; every high correlation has an
    absolute value above [0.8], and they are sorted by decreasing absolute
    value. *)
Theorem compute_correlation_matrix_shape
    (fetch_ticker_history : string -> string -> option history)
    (pool_times_out : list string -> string -> bool) (fsqrt : pyfloat -> pyfloat)
    (fsquare : pyfloat -> res pyfloat)
    (holdings : list enriched) (max_holdings : Z) (r : corr_result) :
  compute_correlation_matrix fetch_ticker_history pool_times_out fsqrt fsquare holdings max_holdings = Ok r ->
  (cm_symbols r = [] \/
   (2 <= List.length (cm_symbols r))%nat /\ (Z.of_nat (List.length (cm_symbols r)) <= max_holdings)%Z) /\
  (forall s, In s (cm_symbols r) ->
     exists h hist, In h holdings /\ symbol (base h) = s /\ is_fund h = false /\
                    fle (value_of h) fzero = false /\
                    fetch_ticker_history s "3mo"%string = Some hist /\
                    (5 <= List.length (h_closes hist))%nat) /\
  List.length (cm_matrix r) = List.length (cm_symbols r) /\
  Forall (fun row => List.length row = List.length (cm_symbols r)) (cm_matrix r) /\
  (forall i, (i < List.length (cm_symbols r))%nat -> cell_at (cm_matrix r) i i = Some (fint 1)) /\
  (forall i j, cell_at (cm_matrix r) i j = cell_at (cm_matrix r) j i) /\
  Forall (fun hc => flt (fin (4 # 5)) (fabs (hc_corr hc)) = true) (highCorrelations r) /\
  Sorted (fun a b => flt (fabs (hc_corr a)) (fabs (hc_corr b)) = false) (highCorrelations r).
Proof.
  intros H. unfold compute_correlation_matrix in H. cbv zeta in H.
  set (targets := select_targets max_holdings holdings []) in H.
  destruct (Nat.ltb_spec (List.length targets) 2) as [Ht | Ht].
  { apply Ok_inj in H. subst r. empty_corr_case. }
  destruct (pool_times_out _ _); [discriminate H |].
  set (hm := fold_left _ targets []) in H.
  set (symbols := map (fun h => symbol (base h)) (filter _ targets)) in H.
  destruct (Nat.ltb_spec (List.length symbols) 2) as [Hs | Hs].
  { apply Ok_inj in H. subst r. empty_corr_case. }
  bind_step H rm Erm. bind_step H lens Elens. bind_step H min_len Emin. bind_step H rm2 Erm2.
  bind_step H st Est. destruct st as [m high].
  apply Ok_inj in H. subst r. cbn [cm_symbols cm_matrix highCorrelations].
  destruct (matrix_loop_inv _ _ _ _ _ _ _ Est) as (Hl & Hr & Hsym & Hd & Hh). cbn [fst snd] in *.
  split; [| split; [| split; [exact Hl | split; [exact Hr | split; [| split; [exact Hsym | split]]]]]].
  - right. split; [exact Hs |].
    assert (Hlen : (Z.of_nat (List.length targets) <= Z.max max_holdings 1)%Z).
    { apply select_targets_len. simpl. lia. }
    assert (Hsl : (List.length symbols <= List.length targets)%nat).
    { unfold symbols. rewrite length_map. apply filter_length_le. }
    lia.
  - intros s Hin. unfold symbols in Hin. apply in_map_iff in Hin as (h & <- & Hin).
    apply filter_In in Hin as [Hin Hhas].
    destruct (select_targets_in _ _ _ _ Hin) as [[] | (Hh1 & Hf & Hv)].
    destruct (history_map_has _ _ _ _ Hhas) as [Hn | (hist & Hf' & H5)]; [discriminate Hn |].
    exists h, hist. repeat split; assumption.
  - intros i Hi. apply Hd. left. exact Hi.
  - apply Forall_forall. intros x Hx. rewrite Forall_forall in Hh. apply Hh.
    exact (Permutation_in x (sort_by_perm _ _) Hx).
  - apply (sort_by_sorted_gen (fun a b => flt (fabs (hc_corr b)) (fabs (hc_corr a)))).
    intros a b. apply flt_asym.
Qed.

Lemma compute_correlation_matrix_shape_witness :
  exists r, compute_correlation_matrix corr_history (fun _ _ => false) fsqrt_sample fsquare_sample corr_holdings 15%Z = Ok r /\
  (cm_symbols r = [] \/
   (2 <= List.length (cm_symbols r))%nat /\ (Z.of_nat (List.length (cm_symbols r)) <= 15%Z)%Z) /\
  (forall s, In s (cm_symbols r) ->
     exists h hist, In h corr_holdings /\ symbol (base h) = s /\ is_fund h = false /\
                    fle (value_of h) fzero = false /\
                    corr_history s "3mo"%string = Some hist /\
                    (5 <= List.length (h_closes hist))%nat) /\
  List.length (cm_matrix r) = List.length (cm_symbols r) /\
  Forall (fun row => List.length row = List.length (cm_symbols r)) (cm_matrix r) /\
  (forall i, (i < List.length (cm_symbols r))%nat -> cell_at (cm_matrix r) i i = Some (fint 1)) /\
  (forall i j, cell_at (cm_matrix r) i j = cell_at (cm_matrix r) j i) /\
  Forall (fun hc => flt (fin (4 # 5)) (fabs (hc_corr hc)) = true) (highCorrelations r) /\
  Sorted (fun a b => flt (fabs (hc_corr a)) (fabs (hc_corr b)) = false) (highCorrelations r).
Proof.
  destruct (compute_correlation_matrix corr_history (fun _ _ => false) fsqrt_sample fsquare_sample corr_holdings 15%Z)
    as [r | e] eqn:E.
  - exists r. split; [reflexivity | exact (compute_correlation_matrix_shape _ _ _ _ _ _ _ E)].
  - exfalso. vm_compute in E. discriminate E.
Defined.


Lemma py_index_ok {A : Type} (l : list A) (i : nat) : (i < List.length l)%nat -> exists x, py_index l i = Ok x.
Proof.
  intros H. unfold py_index. destruct (nth_error l i) eqn:E; [eauto |].
  apply nth_error_None in E. lia.
Qed.

(** *** [_clean_money]: parenthesised negatives *)


Lemma list_ascii_of_string_app (a b : string) :
  list_ascii_of_string (a ++ b) = (list_ascii_of_string a ++ list_ascii_of_string b)%list.
Proof. induction a as [| c a IH]; cbn; [reflexivity | rewrite IH; reflexivity]. Qed.

Lemma substring_app_length (s t : string) : substring 0 (String.length s) (s ++ t) = s.
Proof. induction s as [| c s IH]; cbn; [destruct t; reflexivity | rewrite IH; reflexivity]. Qed.

Lemma string_length_app (a b : string) : String.length (a ++ b) = (String.length a + String.length b)%nat.
Proof. induction a as [| c a IH]; cbn; [reflexivity | rewrite IH; reflexivity]. Qed.

Local Open Scope string_scope.

Lemma string_of_list_ascii_app (a b : list ascii) :
  string_of_list_ascii (a ++ b) = string_of_list_ascii a ++ string_of_list_ascii b.
Proof. induction a as [| c a IH]; cbn; [reflexivity | rewrite IH; reflexivity]. Qed.

Lemma strip_parens (s : string) : strip ("(" ++ s ++ ")") = "(" ++ s ++ ")".
Proof.
  unfold strip, lstrip, rstrip.
  change (list_ascii_of_string ("(" ++ s ++ ")")) with ("("%char :: list_ascii_of_string (s ++ ")")).
  cbn [drop_while]. change (is_space "("%char) with false. cbn iota.
  rewrite list_ascii_of_string_app. cbn [list_ascii_of_string].
  rewrite list_ascii_of_string_of_list_ascii.
  change ("("%char :: list_ascii_of_string s ++ [")"%char])%list
    with (("("%char :: list_ascii_of_string s) ++ [")"%char])%list.
  rewrite rev_app_distr. cbn [rev app drop_while]. change (is_space ")"%char) with false. cbn iota.
  change (")"%char :: rev (list_ascii_of_string s) ++ ["("%char])%list
    with ([")"%char] ++ rev (list_ascii_of_string s) ++ ["("%char])%list.
  rewrite !rev_app_distr, rev_involutive. cbn [rev app].
  cbn [string_of_list_ascii]. rewrite string_of_list_ascii_app, string_of_list_ascii_of_string.
  reflexivity.
Qed.

Lemma endswith_paren (s : string) : endswith ("(" ++ s ++ ")") ")" = true.
Proof.
  unfold endswith.
  change (list_ascii_of_string ("(" ++ s ++ ")")) with ("("%char :: list_ascii_of_string (s ++ ")")).
  rewrite list_ascii_of_string_app. cbn [list_ascii_of_string].
  change ("("%char :: list_ascii_of_string s ++ [")"%char])%list
    with (("("%char :: list_ascii_of_string s) ++ [")"%char])%list.
  rewrite rev_app_distr. cbn [rev app string_of_list_ascii].
  unfold prefix. destruct (ascii_dec ")"%char ")"%char) as [_ | n];
    [destruct (string_of_list_ascii _); reflexivity | exfalso; apply n; reflexivity].
Qed.

(** X16: [_clean_money] reads an amount in parentheses as the negative of
    the amount: for a text [s] without surrounding white space that is not
    itself in parentheses, cleaning ["(" + s + ")"] gives the negation of
    what cleaning [s] gives, and [None] when that is [None]. *)
Theorem clean_money_text_parens (s : string) :
  strip s = s -> startswith s "(" && endswith s ")" = false ->
  clean_money_text ("(" ++ s ++ ")") = option_map fneg (clean_money_text s).
Proof.
  intros Hs Hp. unfold clean_money_text. rewrite strip_parens, Hs.
  replace (in_list ("(" ++ s ++ ")") money_sentinels) with false by reflexivity.
  replace (startswith ("(" ++ s ++ ")") "(") with true by (unfold startswith; destruct s; reflexivity).
  rewrite endswith_paren. cbn [andb].
  replace (String.length ("(" ++ s ++ ")") - 2)%nat with (String.length s).
  2: { change (String.length ("(" ++ s ++ ")")) with (S (String.length (s ++ ")"))).
       rewrite string_length_app. cbn [String.length]. lia. }
  change (substring 1 (String.length s) ("(" ++ s ++ ")")) with (substring 0 (String.length s) (s ++ ")")).
  rewrite substring_app_length.
  destruct (in_list s money_sentinels) eqn:Ein.
  - apply in_list_In in Ein. cbn [money_sentinels In] in Ein.
    repeat destruct Ein as [<- | Ein]; try contradiction; reflexivity.
  - rewrite Hp. destruct (py_float_of_string _); reflexivity.
Qed.

Lemma clean_money_text_parens_witness :
  (strip "$1,234.56" = "$1,234.56" /\ startswith "$1,234.56" "(" && endswith "$1,234.56" ")" = false) /\
  clean_money_text ("(" ++ "$1,234.56" ++ ")") = option_map fneg (clean_money_text "$1,234.56").
Proof.
  split; [split; vm_compute; reflexivity |].
  apply clean_money_text_parens; vm_compute; reflexivity.
Defined.

Local Close Scope string_scope.

(** *** [_interpolate_value] *)

Local Open Scope string_scope.

Lemma index_of_spec (x : string) (l : list string) (i : nat) :
  index_of x l = Some i -> (i < List.length l)%nat /\ In x l.
Proof.
  revert i. induction l as [| y r IH]; intros i H; cbn [index_of] in H; [discriminate H |].
  destruct (String.eqb_spec x y) as [-> | _].
  - injection H as <-. cbn. split; [lia | left; reflexivity].
  - destruct (index_of x r) as [j |]; cbn in H; [| discriminate H].
    injection H as <-. destruct (IH j eq_refl) as [Hj Hin]. cbn. split; [lia | right; exact Hin].
Qed.

Lemma best_price_aux_ok (date_str : string) (closes : list pyfloat) (ds : list string) (i : nat)
    (best : option pyfloat) :
  (i + List.length ds <= List.length closes)%nat ->
  exists b, best_price_aux date_str closes ds i best = Ok b /\
            (Forall (fun d => str_leb d date_str = false) ds -> b = best).
Proof.
  revert i best. induction ds as [| d r IH]; intros i best Hl; cbn [best_price_aux].
  - exists best. split; [reflexivity | intros _; reflexivity].
  - cbn [List.length] in Hl. destruct (str_leb d date_str) eqn:Ed.
    + destruct (py_index_ok closes i) as (c & ->); [lia |]. cbn [bind].
      destruct (IH (S i) (Some c)) as (b & Eb & _); [lia |].
      exists b. split; [exact Eb |]. intros Hf. inversion Hf; congruence.
    + destruct (IH (S i) best) as (b & Eb & Hb); [lia |].
      exists b. split; [exact Eb |]. intros Hf. inversion Hf; subst. exact (Hb H2).
Qed.

(** X17: [_interpolate_value] never raises when the symbol's history has
    at least as many closes as dates, and it returns [current_value]
    unchanged when no date of that history is on or before [date_str]. *)
Theorem interpolate_value_ok (sym date_str : string) (current_value : pyfloat)
    (history_map : list (string * history)) :
  (forall hist, lookup_hist sym history_map = Some hist ->
                (List.length (h_dates hist) <= List.length (h_closes hist))%nat) ->
  exists v, interpolate_value sym date_str current_value history_map = Ok v /\
    (forall hist, lookup_hist sym history_map = Some hist ->
       Forall (fun d => str_leb d date_str = false) (h_dates hist) -> v = current_value).
Proof.
  intros Hlen. unfold interpolate_value.
  destruct (lookup_hist sym history_map) as [hist |] eqn:El;
    [| exists current_value; split; [reflexivity | discriminate]].
  specialize (Hlen hist eq_refl).
  destruct (negb (truthy (h_currentPrice hist)) || fle (h_currentPrice hist) fzero) eqn:Ep;
    [exists current_value; split; [reflexivity | reflexivity] |].
  apply orb_false_iff in Ep as [Ep _]. apply negb_false_iff in Ep.
  destruct (index_of date_str (h_dates hist)) as [idx |] eqn:Ei.
  - destruct (index_of_spec _ _ _ Ei) as [Hi Hin].
    destruct (py_index_ok (h_closes hist) idx) as (c & ->); [lia |]. cbn [bind].
    destruct (truthy_fdiv_ok c (h_currentPrice hist) Ep) as (r & ->). cbn [bind].
    eexists; split; [reflexivity |]. intros h' Eh Hf. injection Eh as <-.
    rewrite Forall_forall in Hf. specialize (Hf date_str Hin).
    unfold str_leb in Hf. rewrite str_ltb_irrefl in Hf. discriminate Hf.
  - destruct (best_price_aux_ok date_str (h_closes hist) (h_dates hist) 0 None) as (b & Eb & Hb);
      [cbn; lia |].
    rewrite Eb. cbn [bind]. destruct b as [b |].
    + destruct (truthy_fdiv_ok b (h_currentPrice hist) Ep) as (r & ->). cbn [bind].
      eexists; split; [reflexivity |]. intros h' Eh Hf. injection Eh as <-. discriminate (Hb Hf).
    + exists current_value. split; [reflexivity | reflexivity].
Qed.

Lemma interpolate_value_ok_witness :
  (forall hist, lookup_hist "AAPL" sample_history_map = Some hist ->
                (List.length (h_dates hist) <= List.length (h_closes hist))%nat) /\
  exists v, interpolate_value "AAPL" "2024-01-01" (fint 1000) sample_history_map = Ok v /\
    (forall hist, lookup_hist "AAPL" sample_history_map = Some hist ->
       Forall (fun d => str_leb d "2024-01-01" = false) (h_dates hist) -> v = fint 1000).
Proof.
  assert (H : forall hist, lookup_hist "AAPL" sample_history_map = Some hist ->
                           (List.length (h_dates hist) <= List.length (h_closes hist))%nat).
  { intros hist Eh. vm_compute in Eh. injection Eh as <-. vm_compute. lia. }
  split; [exact H | exact (interpolate_value_ok "AAPL" "2024-01-01" (fint 1000) sample_history_map H)].
Defined.

Local Close Scope string_scope.
